(** * Resilient data adapters: a shallow embedding of the [adapters] package

    The Python modules base.py, news.py, sec.py and yahoo.py are embedded as
    Rocq functions.  Python [str] is modelled as [string] (8-bit characters
    read as ASCII text), [int] as [Z], [float] as IEEE binary64 [float],
    [dict] as [gmap], [list] as [list].  Everything outside the package
    (environment variables, the clock, [hash], the HTTP and yfinance
    services, numpy's generator) is an oracle collected in [Env]; effects on
    the process (printing, logging, outbound calls, the global numpy
    generator) are threaded through the [Py] monad. *)

From Stdlib Require Import Ascii String ZArith List Bool Lia Floats Uint63.
From stdpp Require Import gmap strings list fin_maps pretty sorting.

Local Open Scope string_scope.
Local Open Scope Z_scope.

(* Decimal literals such as 0.99 denote the nearest binary64 value, as in
   Python. *)
Set Warnings "-inexact-float".

(** ** Python string primitives *)

Module PyStr.

(** [t.startswith(k)] *)
Fixpoint startswith (t k : string) {struct k} : bool :=
  match k, t with
  | EmptyString, _ => true
  | String a k', String b t' => if decide (a = b) then startswith t' k' else false
  | String _ _, EmptyString => false
  end.

(** [k in t] on strings: [k] occurs as a contiguous slice of [t]. *)
Fixpoint contains (k t : string) : bool :=
  startswith t k ||
  match t with
  | EmptyString => false
  | String _ t' => contains k t'
  end.

(** The mathematical reading of [k in t]. *)
Definition occurs (k t : string) : Prop :=
  ∃ pre post : string, t = pre +:+ k +:+ post.

(** [any(p(k) for k in ks)] *)
Definition any {A} (p : A → bool) (ks : list A) : bool := existsb p ks.

(** ASCII whitespace as seen by [str.strip] and the pattern [\s]. *)
Definition isspace (c : ascii) : bool :=
  let n := N.to_nat (N_of_ascii c) in
  ((9 <=? n) && (n <=? 13) || (28 <=? n) && (n <=? 32))%nat.

Definition isdigit (c : ascii) : bool :=
  let n := N.to_nat (N_of_ascii c) in ((48 <=? n) && (n <=? 57))%nat.

Definition lower_char (c : ascii) : ascii :=
  let n := N_of_ascii c in
  if ((65 <=? n) && (n <=? 90))%N then ascii_of_N (n + 32) else c.

Definition upper_char (c : ascii) : ascii :=
  let n := N_of_ascii c in
  if ((97 <=? n) && (n <=? 122))%N then ascii_of_N (n - 32) else c.

Fixpoint map_chars (f : ascii → ascii) (s : string) : string :=
  match s with
  | EmptyString => EmptyString
  | String c s' => String (f c) (map_chars f s')
  end.

(** [s.lower()] and [s.upper()] *)
Definition lower : string → string := map_chars lower_char.
Definition upper : string → string := map_chars upper_char.

Fixpoint lstrip (s : string) : string :=
  match s with
  | EmptyString => EmptyString
  | String c s' => if isspace c then lstrip s' else s
  end.

(** [s.strip()] *)
Definition strip (s : string) : string :=
  String.rev (lstrip (String.rev (lstrip s))).

(** [re.sub(r'\s+', ' ', s)]: every maximal run of whitespace becomes one
    blank.  [in_run] tells whether the previous character was whitespace. *)
Fixpoint collapse_ws_from (in_run : bool) (s : string) : string :=
  match s with
  | EmptyString => EmptyString
  | String c s' =>
      if isspace c
      then if in_run then collapse_ws_from true s'
           else String " " (collapse_ws_from true s')
      else String c (collapse_ws_from false s')
  end.
Definition collapse_ws : string → string := collapse_ws_from false.

(** [sep.join(parts)] *)
Definition join (sep : string) (parts : list string) : string :=
  String.concat sep parts.

(** [s[:n]] for [n >= 0] *)
Fixpoint slice_to (n : nat) (s : string) : string :=
  match n, s with
  | S n', String c s' => String c (slice_to n' s')
  | _, _ => EmptyString
  end.

(** [s[1:]] *)
Definition slice_from1 (s : string) : string :=
  match s with
  | EmptyString => EmptyString
  | String _ s' => s'
  end.

(** Longest prefix of decimal digits, and what follows it. *)
Fixpoint span_digits (s : string) : string * string :=
  match s with
  | String c s' =>
      if isdigit c
      then let '(d, r) := span_digits s' in (String c d, r)
      else (EmptyString, s)
  | EmptyString => (EmptyString, EmptyString)
  end.

(** One match of the pattern [\$\s?\d+(?:\.\d+)?] anchored at the head of
    [s]: the matched text, or [None]. *)
Definition match_money (s : string) : option string :=
  match s with
  | String "$" r =>
      let '(sp, r1) :=
        match r with
        | String c r' => if isspace c then (String c "", r') else ("", r)
        | EmptyString => ("", r)
        end in
      let '(ds, r2) := span_digits r1 in
      if decide (ds = "") then None
      else
        let frac :=
          match r2 with
          | String "." r3 =>
              let '(fs, _) := span_digits r3 in
              if decide (fs = "") then "" else "." +:+ fs
          | _ => ""
          end in
        Some ("$" +:+ sp +:+ ds +:+ frac)
  | _ => None
  end.

(** [re.findall(r'\$\s?\d+(?:\.\d+)?', s)]: leftmost non-overlapping
    matches.  [skip] counts the characters still covered by the last match. *)
Fixpoint findall_money_from (skip : nat) (s : string) : list string :=
  match s with
  | EmptyString => []
  | String _ s' =>
      match skip with
      | S k => findall_money_from k s'
      | O =>
          match match_money s with
          | Some m => m :: findall_money_from (String.length m - 1) s'
          | None => findall_money_from 0 s'
          end
      end
  end.
Definition findall_money : string → list string := findall_money_from 0.

End PyStr.

(** ** Values, exceptions and the outside world *)

(** A raised exception: [type(e).__name__] and [str(e)]. *)
Record Exn := { exn_type : string; exn_msg : string }.

(** The result of running Python code: a value, or a propagating exception. *)
Inductive outcome (A : Type) : Type :=
| Returns (a : A)
| Raises (e : Exn).
Arguments Returns {A} a.
Arguments Raises {A} e.

Global Instance outcome_ret : MRet outcome := λ A a, Returns a.
Global Instance outcome_bind : MBind outcome := λ A B f m,
  match m with
  | Returns a => f a
  | Raises e => Raises e
  end.

(** Scalar Python values, as they occur in JSON members, in [attrs] of a
    table and in the dictionaries the adapters build. *)
Inductive pyval := VNone | VBool (b : bool) | VInt (n : Z) | VStr (s : string).

(** [str(v)], also what an f-string inserts for [v]. *)
Definition py_str (v : pyval) : string :=
  match v with
  | VNone => "None"
  | VBool true => "True"
  | VBool false => "False"
  | VInt n => pretty n
  | VStr s => s
  end.

(** Truth value of an optional string: [None] and [''] are falsy. *)
Definition truthy (s : option string) : bool :=
  match s with
  | Some (String _ _) => true
  | _ => false
  end.

(** A Python [dict] with string keys and scalar values. *)
Abbreviation pydict := (gmap string pyval).

(** ** Tables (pandas.DataFrame) *)

(** One cell; [CNull] stands for [None]/[NaN]/[NaT], and a float NaN is
    null as well.  Timestamps are nanoseconds since the epoch. *)
Inductive Cell :=
| CNull
| CDate (t : Z)
| CFloat (x : float)
| CInt (n : Z)
| CStr (s : string).

Definition isnull (c : Cell) : bool :=
  match c with
  | CNull => true
  | CFloat x => PrimFloat.is_nan x
  | _ => false
  end.

(** A table with flat column labels, stored row by row; every row carries its
    index label first.  [index_name] is the name of the index ([None] for
    the default integer index). *)
Record Frame := {
  index_name : option string;
  columns : list string;
  rows : list (Cell * list Cell);
  attrs : pydict
}.

(** [pd.DataFrame()] *)
Definition empty_frame : Frame :=
  {| index_name := None; columns := []; rows := []; attrs := ∅ |}.

(** [df.empty]: some axis has length zero. *)
Definition frame_empty (df : Frame) : bool :=
  match rows df, columns df with
  | [], _ | _, [] => true
  | _, _ => false
  end.

(** [len(df)] *)
Definition frame_len (df : Frame) : nat := length (rows df).

(** The cells of row [r] found under label [c] (several when the label is
    duplicated). *)
Fixpoint cells_at (c : string) (cols : list string) (r : list Cell) : list Cell :=
  match cols, r with
  | c' :: cols', x :: r' =>
      if decide (c' = c) then x :: cells_at c cols' r' else cells_at c cols' r'
  | _, _ => []
  end.

(** ** HTTP responses *)

(** The type of a JSON value that is not an object. *)
Inductive Kind := KNone | KBool | KInt | KFloat | KStr | KList.

(** [type(v).__name__] *)
Definition type_name (k : Kind) : string :=
  match k with
  | KNone => "NoneType"
  | KBool => "bool"
  | KInt => "int"
  | KFloat => "float"
  | KStr => "str"
  | KList => "list"
  end.

(** What a loop of the adapters finds in a sequence: an object with scalar
    members (nested members, which the adapters never read, are left out),
    or a value of another type, of which the adapters get to see the type
    only. *)
Inductive Item :=
| IDict (d : pydict)
| IOther (k : Kind).

(** A member of a JSON object body: a list, a string, an object (given by
    its keys), [null], a boolean or a number. *)
Inductive Member :=
| MItems (items : list Item)
| MString (s : string)
| MObject (keys : list string)
| MNull
| MBool (b : bool)
| MInt (n : Z)
| MFloat (x : float).

(** A Python list of dictionaries, as a value of this kind. *)
Definition pylist (l : list pydict) : Member := MItems (map IDict l).

(** A parsed body: an object, or a JSON value of another type, which has no
    [.get]. *)
Inductive Body :=
| BObject (members : gmap string Member)
| BNotObject (k : Kind).

(** [status_error] is what [raise_for_status()] raises, if anything;
    [json] is the outcome of [.json()]. *)
Record Response := {
  status_error : option Exn;
  json : outcome Body
}.

(** ** Outbound calls and the trace of effects *)

Inductive Request :=
| HttpGet (url : string) (headers : list (string * option string))
          (params : list (string * string)) (timeout : Z)
| YfHistory (ticker period interval : string)
| YfInfo (ticker : string)
| YfFinancials (ticker : string)
| YfBalanceSheet (ticker : string)
| YfCashflow (ticker : string).

Inductive Event :=
| EPrint (text : string)                 (* print(text) *)
| ELog (level : string) (msg : string)   (* logging.<level>(msg) *)
| ENet (req : Request).                  (* one call that leaves the process *)

(** The state of the process: what it has done so far, and numpy's global
    generator. *)
Record World := {
  trace : list Event;
  rng : list Z
}.

(** Everything the package does not define.  Replies may depend on all that
    happened before ([list Event]), so a repeated request may be answered
    differently. *)
Record Env := {
  getenv : string → option string;          (* os.getenv *)
  hash : string → Z;                        (* builtin hash, fixed for one run *)
  clock : list Event → Z;                   (* wall clock, in nanoseconds *)
  timestamp_str : Z → string;               (* str(pd.Timestamp) *)
  isoformat : Z → string;                   (* pd.Timestamp.isoformat() *)
  to_datetime : Cell → option Z;            (* pd.to_datetime on one foreign value *)
  format_latest : Frame → outcome string;   (* evaluates the health check's summary
                                               of the last row: hist.index[-1].date(),
                                               hist['Close'].iloc[-1] and the f-string *)
  requests_get : list Event → Request → outcome Response;
  yf_frame : list Event → Request → outcome (option Frame);
  yf_info : list Event → Request → outcome (option pydict);
  np_seed : Z → list Z;                     (* np.random.seed *)
  np_normal1 : float → float → list Z → float * list Z;
  np_randint1 : Z → Z → list Z → Z * list Z;
  np_exp : float → float
}.

(** ** The effect monad *)

Definition Py (A : Type) : Type := World → outcome A * World.

Global Instance Py_ret : MRet Py := λ A a w, (Returns a, w).
Global Instance Py_bind : MBind Py := λ A B f m w,
  match m w with
  | (Returns a, w') => f a w'
  | (Raises e, w') => (Raises e, w')
  end.
Global Instance Py_throw : MThrow Exn Py := λ A e w, (Raises e, w).

Definition emit (ev : Event) : Py unit :=
  λ w, (Returns tt, {| trace := trace w ++ [ev]; rng := rng w |}).

(** [print(text, end=end_)] and plain [print(text)] *)
Definition print_end (text end_ : string) : Py unit := emit (EPrint (text +:+ end_)).
Definition print (text : string) : Py unit := print_end text (String "010" "").
Definition logging (level msg : string) : Py unit := emit (ELog level msg).

(** An outbound call: the oracle answers from the trace so far, and the call
    is recorded. *)
Definition call {A} (oracle : list Event → Request → outcome A) (req : Request) : Py A :=
  λ w, (oracle (trace w) req, {| trace := trace w ++ [ENet req]; rng := rng w |}).

(** Lift a pure computation that may raise. *)
Definition lift {A} (m : outcome A) : Py A := λ w, (m, w).

(** [try: body  except Exception as e: handler(e)] *)
Definition try_except {A} (body : Py A) (handler : Exn → Py A) : Py A :=
  λ w,
    match body w with
    | (Returns a, w') => (Returns a, w')
    | (Raises e, w') => handler e w'
    end.

Definition get_trace : Py (list Event) := λ w, (Returns (trace w), w).
Definition get_rng : Py (list Z) := λ w, (Returns (rng w), w).
Definition set_rng (s : list Z) : Py unit :=
  λ w, (Returns tt, {| trace := trace w; rng := s |}).

(** The separator line the health checks print: ['='*60]. *)
Definition bar : string :=
  "============================================================".
Definition nl : string := String "010" "".
Definition dquote : string := String "034" "".

(** ** base.py *)

Module Base.

(** The attributes [baseDataAdapter.__init__] creates. *)
Record baseDataAdapter := {
  adapter_name : string;
  _stub : bool;
  _init_time : Z;
  _health_check_passed : bool;
  _health_check_message : string
}.

(** The attributes before [__init__] has run. *)
Definition blank : baseDataAdapter :=
  {| adapter_name := ""; _stub := false; _init_time := 0;
     _health_check_passed := false; _health_check_message := "" |}.

(** [self._health_check_passed = p] *)
Definition set_passed (p : bool) (b : baseDataAdapter) : baseDataAdapter :=
  {| adapter_name := adapter_name b; _stub := _stub b; _init_time := _init_time b;
     _health_check_passed := p;
     _health_check_message := _health_check_message b |}.

(** [self._health_check_message = m] *)
Definition set_message (m : string) (b : baseDataAdapter) : baseDataAdapter :=
  {| adapter_name := adapter_name b; _stub := _stub b; _init_time := _init_time b;
     _health_check_passed := _health_check_passed b;
     _health_check_message := m |}.

(** The abstract class: a subclass says where the base attributes live and
    implements [_run_health_check]. *)
Class Adapter (S : Type) := {
  class_name : string;
  base : S → baseDataAdapter;
  with_base : baseDataAdapter → S → S;
  _run_health_check : Env → S → Py (bool * S);
  base_with_base : ∀ b s, base (with_base b s) = b
}.

Section Methods.
Context {S : Type} `{Adapter S} (E : Env).

Definition assign_passed (p : bool) (self : S) : S :=
  with_base (set_passed p (base self)) self.
Definition assign_message (m : string) (self : S) : S :=
  with_base (set_message m (base self)) self.

(** [baseDataAdapter.__init__], run on the object [self] whose subclass
    attributes are already assigned. *)
Definition __init__ (self : S) (health_check fail_on_error : bool) : Py S :=
  tr ← get_trace;
  let self :=
    with_base {| adapter_name := class_name; _stub := false;
                 _init_time := clock E tr;
                 _health_check_passed := false;
                 _health_check_message := "Not Tested" |} self in
  if health_check then
    '(ok, self) ← _run_health_check E self;
    if negb ok && fail_on_error
    then mthrow {| exn_type := "RuntimeError";
                   exn_msg := "Health Check failed: "
                              +:+ _health_check_message (base self) |}
    else mret self
  else mret self.

Definition get_health_status (self : S) : pydict :=
  <["healthy" := VBool (_health_check_passed (base self))]>
  (<["message" := VStr (_health_check_message (base self))]>
  (<["init_time" := VStr (timestamp_str E (_init_time (base self)))]>
  (<["stub_mode" := VBool (_stub (base self))]> ∅))).

Definition is_healthy (self : S) : bool := _health_check_passed (base self).

End Methods.

(** The attributes [APIDataAdapter.__init__] adds. *)
Record APIDataAdapter := {
  api_base : baseDataAdapter;
  api_key : option string;
  api_key_env_var : string
}.

Definition with_api_base (b : baseDataAdapter) (a : APIDataAdapter) : APIDataAdapter :=
  {| api_base := b; api_key := api_key a; api_key_env_var := api_key_env_var a |}.

(** The abstract class of API adapters: a subclass implements
    [_test_api_connection]. *)
Class APIAdapter (S : Type) := {
  api_class_name : string;
  api : S → APIDataAdapter;
  with_api : APIDataAdapter → S → S;
  _test_api_connection : Env → S → Py (bool * S);
  api_with_api : ∀ a s, api (with_api a s) = a
}.

Section APIMethods.
Context {S : Type} `{APIAdapter S} (E : Env).

Definition api_assign_passed (p : bool) (self : S) : S :=
  with_api (with_api_base (set_passed p (api_base (api self))) (api self)) self.
Definition api_assign_message (m : string) (self : S) : S :=
  with_api (with_api_base (set_message m (api_base (api self))) (api self)) self.

(** [APIDataAdapter._run_health_check] *)
Definition API_run_health_check (self : S) : Py (bool * S) :=
  print (nl +:+ bar +:+ nl +:+ adapter_name (api_base (api self))
         +:+ " Health Check" +:+ nl +:+ bar);;
  print_end (nl +:+ "[1/3] Checking API key...") " ";;
  if negb (truthy (api_key (api self))) then
    print "Failed (no API key found)";;
    let self := api_assign_passed false self in
    let self :=
      api_assign_message
        ("No " +:+ api_key_env_var (api self) +:+ " found in environment") self in
    print (nl +:+ bar +:+ nl +:+ "Health Check Failed - No API key configured"
           +:+ nl +:+ bar +:+ nl);;
    mret (false, self)
  else
    print "Success";;
    _test_api_connection E self.

End APIMethods.

Global Program Instance api_is_adapter {S : Type} `{APIAdapter S} : Adapter S := {|
  class_name := api_class_name;
  base := λ s, api_base (api s);
  with_base := λ b s, with_api (with_api_base b (api s)) s;
  _run_health_check := API_run_health_check
|}.
Next Obligation. intros. simpl. by rewrite api_with_api. Qed.

(** [APIDataAdapter.__init__], run on the object whose subclass attributes
    are already assigned. *)
Definition API__init__ {S : Type} `{APIAdapter S} (E : Env) (self : S)
    (api_key_env_var : string) (health_check fail_on_error : bool) : Py S :=
  let self :=
    with_api {| api_base := api_base (api self);
                api_key := getenv E api_key_env_var;
                api_key_env_var := api_key_env_var |} self in
  __init__ E self health_check fail_on_error.

End Base.

(** ** Helpers shared by the HTTP adapters *)

(** [requests.get(...)] *)
Definition http_get (E : Env) (req : Request) : Py Response :=
  call (requests_get E) req.

(** [r.raise_for_status()] *)
Definition raise_for_status (r : Response) : Py unit :=
  match status_error r with
  | Some e => mthrow e
  | None => mret tt
  end.

(** [body.get(k, [])] on the parsed body. *)
Definition body_get (b : Body) (k : string) : outcome Member :=
  match b with
  | BObject m => Returns (default (MItems []) (m !! k))
  | BNotObject k =>
      Raises {| exn_type := "AttributeError";
                exn_msg := "'" +:+ type_name k +:+ "' object has no attribute 'get'" |}
  end.

(** [isinstance(m, list)] *)
Definition is_list (m : Member) : bool :=
  match m with
  | MItems _ => true
  | _ => false
  end.

(** [type(m).__name__] *)
Definition member_type (m : Member) : string :=
  match m with
  | MItems _ => "list"
  | MString _ => "str"
  | MObject _ => "dict"
  | MNull => "NoneType"
  | MBool _ => "bool"
  | MInt _ => "int"
  | MFloat _ => "float"
  end.

(** [len(m)]: lists, strings and objects have a length. *)
Definition member_len (m : Member) : outcome Z :=
  match m with
  | MItems l => Returns (Z.of_nat (length l))
  | MString s => Returns (Z.of_nat (String.length s))
  | MObject keys => Returns (Z.of_nat (length keys))
  | _ =>
      Raises {| exn_type := "TypeError";
                exn_msg := "object of type '" +:+ member_type m +:+ "' has no len()" |}
  end.

(** [for a in m]: what the loop visits.  A string gives its characters and
    an object its keys, all of them strings. *)
Definition member_iter (m : Member) : outcome (list Item) :=
  match m with
  | MItems l => Returns l
  | MString s => Returns (replicate (String.length s) (IOther KStr))
  | MObject keys => Returns (map (λ _, IOther KStr) keys)
  | _ =>
      Raises {| exn_type := "TypeError";
                exn_msg := "'" +:+ member_type m +:+ "' object is not iterable" |}
  end.

(** The attribute lookup [a.get]: only an object has it. *)
Definition item_dict (a : Item) : outcome pydict :=
  match a with
  | IDict d => Returns d
  | IOther k =>
      Raises {| exn_type := "AttributeError";
                exn_msg := "'" +:+ type_name k +:+ "' object has no attribute 'get'" |}
  end.

(** [l[i]] for [i >= 0] *)
Definition list_index {A} (l : list A) (i : nat) : outcome A :=
  match l !! i with
  | Some x => Returns x
  | None => Raises {| exn_type := "IndexError"; exn_msg := "list index out of range" |}
  end.

(** [range(n)] for an [int] [n]: empty when [n <= 0]. *)
Definition range (n : Z) : list nat := seq 0 (Z.to_nat n).

(** [len(l)] *)
Definition len {A} (l : list A) : Z := Z.of_nat (length l).

(** [d.get(k, '')] followed by [str(...)] *)
Definition get_str (d : pydict) (k : string) : string :=
  py_str (default (VStr "") (d !! k)).

(** ** news.py *)

Module News.
Import Base.

(** [requests.Session()] *)
Inductive Session := RequestsSession.

Record NewsAdapter := {
  news_api : APIDataAdapter;
  key : option string;
  session : option Session
}.

Definition POS : list string :=
  ["beat"; "raise"; "growth"; "record"; "surge"; "expand"].
Definition NEG : list string :=
  ["miss"; "cut"; "decline"; "lawsuit"; "drop"; "recall"; "probe"].

Definition endpoint : string := "https://newsapi.org/v2/everything".

Definition with_news_api (a : APIDataAdapter) (s : NewsAdapter) : NewsAdapter :=
  {| news_api := a; key := key s; session := session s |}.

(** [self.session.get(...)]: without a session the attribute lookup fails. *)
Definition session_get (E : Env) (s : option Session) (req : Request) : Py Response :=
  match s with
  | Some _ => call (requests_get E) req
  | None =>
      mthrow {| exn_type := "AttributeError";
                exn_msg := "'NoneType' object has no attribute 'get'" |}
  end.

Section Probe.
Context (E : Env).

Let assign (p : bool) (m : string) (self : NewsAdapter) : NewsAdapter :=
  with_news_api
    (with_api_base (set_message m (set_passed p (api_base (news_api self))))
                   (news_api self)) self.

(** [NewsAdapter._test_api_connection] *)
Definition _test_api_connection (self : NewsAdapter) : Py (bool * NewsAdapter) :=
  print (nl +:+ bar +:+ nl +:+ adapter_name (api_base (news_api self))
         +:+ " Health Check" +:+ nl +:+ bar);;
  print_end "[2/3] Testing API connection..." " ";;
  step2 ← try_except
    (r ← session_get E (session self)
           (HttpGet endpoint [("X-Api-Key", api_key (news_api self))]
              [("q", "test"); ("language", "en"); ("pageSize", "1")] 10);
     raise_for_status r;;
     print "Success";;
     mret (inl r))
    (λ e,
     print ("Failed (" +:+ exn_type e +:+ ")");;
     let self := assign false ("API connection failed: " +:+ exn_type e) self in
     print (nl +:+ bar +:+ nl +:+ "Health Check Failed" +:+ nl +:+ bar +:+ nl);;
     mret (inr self));
  match step2 with
  | inr self => mret (false, self)
  | inl r =>
      print_end "[3/3] Verifying response data..." " ";;
      self ← try_except
        (body ← lift (json r);
         articles ← lift (body_get body "articles");
         if is_list articles then
           print "Success";;
           mret (assign true "News API operational" self)
         else
           print "Warning";;
           mret (assign false "Unexpected response format" self))
        (λ e,
         print ("Failed (" +:+ exn_type e +:+ ")");;
         mret (assign false ("Response parsing failed: " +:+ exn_type e) self));
      let passed := _health_check_passed (api_base (news_api self)) in
      let status := if passed then "Passed" else "Failed" in
      print (nl +:+ bar +:+ nl +:+ "Health Check " +:+ status +:+ nl +:+ bar +:+ nl);;
      mret (passed, self)
  end.

End Probe.

Global Instance news_is_api_adapter : APIAdapter NewsAdapter := {|
  api_class_name := "NewsAdapter";
  api := news_api;
  with_api := with_news_api;
  Base._test_api_connection := _test_api_connection;
  api_with_api := λ a s, eq_refl
|}.

Section Methods.
Context (E : Env).

(** [NewsAdapter.__init__] *)
Definition __init__ (health_check fail_on_error : bool) : Py NewsAdapter :=
  let key0 := getenv E "NEWSAPI_KEY" in
  let self :=
    {| news_api := {| api_base := blank; api_key := None; api_key_env_var := "" |};
       key := key0;
       session := if truthy key0 then Some RequestsSession else None |} in
  self ← API__init__ E self "NEWSAPI_KEY" health_check fail_on_error;
  mret {| news_api := news_api self;
          key := api_key (news_api self);
          session := session self |}.

(** [NewsAdapter._get_stub_data] *)
Definition _get_stub_data (self : NewsAdapter) (ticker : string) : Py Member :=
  tr ← get_trace;
  let now := clock E tr `div` 1000000000 in
  mret (pylist [
    <["title" := VStr ("[Stub] Growth story for " +:+ ticker)]>
    (<["description" := VStr (ticker +:+ " gains as services growth improves")]>
    (<["content" := VStr "..."]>
    (<["publishedAt" := VStr (isoformat E (now * 1000000000))]> ∅)));
    <["title" := VStr ("[Stub] Miss story for " +:+ ticker)]>
    (<["description" := VStr (ticker +:+ " faces supply chain miss and margin pressure")]>
    (<["content" := VStr "..."]>
    (<["publishedAt" := VStr (isoformat E ((now - 3600) * 1000000000))]> ∅)))
  ]).

(** [NewsAdapter._ingest] *)
Definition _ingest (self : NewsAdapter) (ticker : string) (window_days : Z)
    : Py Member :=
  match session self with
  | None =>
      logging "warning" ("Using stub news data for " +:+ ticker);;
      _get_stub_data self ticker
  | Some _ =>
      try_except
        (r ← session_get E (session self)
               (HttpGet endpoint [("X-Api-Key", key self)]
                  [("q", ticker); ("language", "en"); ("pageSize", "50");
                   ("sortBy", "publishedAt")] 20);
         raise_for_status r;;
         body ← lift (json r);
         articles ← lift (body_get body "articles");
         n ← lift (member_len articles);
         logging "info" ("Fetched " +:+ pretty n +:+ " articles for " +:+ ticker);;
         mret articles)
        (λ e,
         logging "error" ("News API error: " +:+ exn_msg e);;
         _get_stub_data self ticker)
  end.

(** The expression of the comprehension of [_preprocess] for an article [a]
    that is an object. *)
Definition normalized (a : pydict) : string :=
  PyStr.lower (PyStr.strip (PyStr.collapse_ws
    (PyStr.join " " [get_str a "title"; get_str a "description";
                     get_str a "content"]))).

(** [NewsAdapter._preprocess]: the first element without [.get] ends the
    loop with an [AttributeError]. *)
Definition _preprocess (items : Member) : outcome (list string) :=
  articles ← member_iter items;
  mapM (λ a, a ← item_dict a; mret (normalized a)) articles.

(** The inner function [classify_text] of [_classify]. *)
Definition classify_text (t : string) : string :=
  let has_pos := PyStr.any (λ k, PyStr.contains k t) POS in
  let has_neg := PyStr.any (λ k, PyStr.contains k t) NEG in
  if has_pos && has_neg then "mixed"
  else if has_pos then "positive"
  else if has_neg then "negative"
  else "neutral".

(** [NewsAdapter._classify] *)
Definition _classify (texts : list string) : list string :=
  map classify_text texts.

(** [NewsAdapter._extract]: each element stands for the dictionary
    [{'money': list(set(...))}]; the order of that list is not determined by
    the program, so the set itself is kept. *)
Definition _extract (texts : list string) : list (gset string) :=
  map (λ t, list_to_set (PyStr.findall_money t)) texts.

Record Summary := {
  summary_text : string;
  counts : gmap string Z;
  snippets : list string
}.

(** [labels.count(s)] *)
Definition count (s : string) (labels : list string) : Z :=
  len (filter (λ l, l = s) labels).

Definition LABELS : list string := ["mixed"; "positive"; "negative"; "neutral"].

(** [NewsAdapter._summarize] *)
Definition _summarize (labels texts : list string) (k : Z) : outcome Summary :=
  let cnts : gmap string Z := list_to_map (map (λ s, (s, count s labels)) LABELS) in
  snips ← mapM (λ i,
                  l ← list_index labels i;
                  t ← list_index texts i;
                  mret ("- " +:+ l +:+ ": " +:+ PyStr.slice_to 100 t +:+ "..."))
               (range (Z.min k (len texts)));
  mret {| summary_text := "..."; counts := cnts; snippets := snips |}.

Record Sample := {
  text : string;
  sentiment : string;
  entities : gset string
}.

Record ChainResult := {
  type_ : string;
  result_counts : gmap string Z;
  samples : list Sample;
  summary : Summary;
  is_stub : bool
}.

(** [NewsAdapter.run_chain] *)
Definition run_chain (self : NewsAdapter) (ticker : string) (window_days : Z)
    : Py ChainResult :=
  items ← _ingest self ticker window_days;
  texts ← lift (_preprocess items);
  let labels := _classify texts in
  let extracts := _extract texts in
  summary ← lift (_summarize labels texts 2);
  samples ← lift (mapM (λ i,
                          t ← list_index texts i;
                          l ← list_index labels i;
                          e ← list_index extracts i;
                          mret {| text := t; sentiment := l; entities := e |})
                       (range (Z.min 3 (len texts))));
  stub ← match session self with
         | None => mret true
         | Some _ => n ← lift (member_len items); mret (bool_decide (n = 2))
         end;
  mret {| type_ := "news";
          result_counts := counts summary;
          samples := samples;
          summary := summary;
          is_stub := stub |}.

End Methods.

End News.

(** ** sec.py *)

Module SEC.
Import Base.

Record SECAdapter := {
  sec_api : APIDataAdapter;
  base_url : string
}.

Definition with_sec_api (a : APIDataAdapter) (s : SECAdapter) : SECAdapter :=
  {| sec_api := a; base_url := base_url s |}.

(** The [sort] parameter [[{'filedAt': {'order': 'desc'}}]], as text. *)
Definition sort_desc : string := "[{'filedAt': {'order': 'desc'}}]".

Section Probe.
Context (E : Env).

Let assign (p : bool) (m : string) (self : SECAdapter) : SECAdapter :=
  with_sec_api
    (with_api_base (set_message m (set_passed p (api_base (sec_api self))))
                   (sec_api self)) self.

(** [SECAdapter._test_api_connection] *)
Definition _test_api_connection (self : SECAdapter) : Py (bool * SECAdapter) :=
  print_end "[2/3] Testing API connection..." " ";;
  step2 ← try_except
    (response ← http_get E
           (HttpGet (base_url self +:+ "/") [("Authorization", api_key (sec_api self))]
              [("query", "ticker:AAPL AND formType:" +:+ dquote +:+ "10-K" +:+ dquote);
               ("from", "0"); ("size", "1"); ("sort", sort_desc)] 10);
     raise_for_status response;;
     print "Success";;
     mret (inl response))
    (λ e,
     print ("Failed (" +:+ exn_type e +:+ ")");;
     let self := assign false ("API connection failed: " +:+ exn_type e) self in
     print (nl +:+ bar +:+ nl +:+ "Health Check Failed" +:+ nl +:+ bar +:+ nl);;
     mret (inr self));
  match step2 with
  | inr self => mret (false, self)
  | inl response =>
      print_end "[3/3] Verifying response data..." " ";;
      self ← try_except
        (body ← lift (json response);
         filings ← lift (body_get body "filings");
         if is_list filings then
           print "Success";;
           mret (assign true "SEC API operational" self)
         else
           print "Warning";;
           mret (assign false "Unexpected response format" self))
        (λ e,
         print ("Failed (" +:+ exn_type e +:+ ")");;
         mret (assign false ("Response parsing failed: " +:+ exn_type e) self));
      let passed := _health_check_passed (api_base (sec_api self)) in
      let status := if passed then "Passed" else "Failed" in
      print (nl +:+ bar +:+ nl +:+ "Health Check " +:+ status +:+ nl +:+ bar +:+ nl);;
      mret (passed, self)
  end.

End Probe.

Global Instance sec_is_api_adapter : APIAdapter SECAdapter := {|
  api_class_name := "SECAdapter";
  api := sec_api;
  with_api := with_sec_api;
  Base._test_api_connection := _test_api_connection;
  api_with_api := λ a s, eq_refl
|}.

Section Methods.
Context (E : Env).

(** [SECAdapter.__init__] *)
Definition __init__ (health_check fail_on_error : bool) : Py SECAdapter :=
  let self :=
    {| sec_api := {| api_base := blank; api_key := None; api_key_env_var := "" |};
       base_url := "https://api.sec-api.io" |} in
  API__init__ E self "SEC_API_KEY" health_check fail_on_error.

(** One synthetic filing record. *)
Definition stub_filing (ticker : string) : pydict :=
  <["form" := VStr "10-Q"]>
  (<["filingDate" := VStr "2025-08-01"]>
  (<["text" := VStr (ticker +:+ " reported EPS beat; management raised guidance; "
                     +:+ "risk factors discussed.")]>
  (<["url" := VStr "(stub)"]>
  (<["is_stub" := VBool true]> ∅)))).

(** [SECAdapter._get_stub_data] *)
Definition _get_stub_data (self : SECAdapter) (ticker : string) (limit : Z) : list pydict :=
  map (λ _, stub_filing ticker) (range limit).

(** [v[:10]]: only strings can be sliced. *)
Definition slice10 (v : pyval) : outcome pyval :=
  match v with
  | VStr s => Returns (VStr (PyStr.slice_to 10 s))
  | _ => Raises {| exn_type := "TypeError"; exn_msg := "object is not subscriptable" |}
  end.

(** The record built from one element [f] of the reply. *)
Definition filing_of (ticker : string) (f : Item) : outcome pydict :=
  f ← item_dict f;
  let form := default (VStr "") (f !! "formType") in
  filing_date ← slice10 (default (VStr "") (f !! "filedAt"));
  let company := default (VStr ticker) (f !! "companyName") in
  mret (<["form" := form]>
       (<["filingDate" := filing_date]>
       (<["text" := VStr (py_str company +:+ " filed " +:+ py_str form +:+ ".")]>
       (<["url" := default (VStr "") (f !! "linkToFilingDetails")]>
       (<["is_stub" := VBool false]> ∅))))).

(** [SECAdapter.latest_filings] *)
Definition latest_filings (self : SECAdapter) (ticker : string)
    (form_types : list string) (limit : Z) : Py (list pydict) :=
  if negb (truthy (api_key (sec_api self))) then
    logging "warning" ("Using stub SEC data for " +:+ ticker);;
    mret (_get_stub_data self ticker limit)
  else
    try_except
      (let form_query :=
         PyStr.join " OR "
           (map (λ ft, "formType:" +:+ dquote +:+ ft +:+ dquote) form_types) in
       let query := "ticker:" +:+ ticker +:+ " AND (" +:+ form_query +:+ ")" in
       response ← http_get E
         (HttpGet (base_url self +:+ "/") [("Authorization", api_key (sec_api self))]
            [("query", query); ("from", "0"); ("size", pretty limit);
             ("sort", sort_desc)] 20);
       raise_for_status response;;
       body ← lift (json response);
       member ← lift (body_get body "filings");
       items ← lift (member_iter member);
       filings ← lift (mapM (filing_of ticker) items);
       logging "info" ("Fetched " +:+ pretty (len filings)
                       +:+ " SEC filings for " +:+ ticker);;
       mret filings)
      (λ e,
       logging "error" ("SEC API error: " +:+ exn_msg e);;
       mret (_get_stub_data self ticker limit)).

End Methods.

End SEC.

(** ** Table operations used by yahoo.py *)

(** [df.attrs[k] = v] *)
Definition set_attr (k : string) (v : pyval) (df : Frame) : Frame :=
  {| index_name := index_name df; columns := columns df; rows := rows df;
     attrs := <[k := v]> (attrs df) |}.

(** Apply [f] to the cells of a row that stand under label [c]. *)
Fixpoint update_at (c : string) (f : Cell → Cell) (cols : list string) (r : list Cell)
    : list Cell :=
  match cols, r with
  | c' :: cols', x :: r' =>
      (if decide (c' = c) then f x else x) :: update_at c f cols' r'
  | _, _ => r
  end.

(** [df[c] = v] for a scalar [v]: overwrite the column, or append it. *)
Definition set_column (c : string) (v : Cell) (df : Frame) : Frame :=
  if bool_decide (c ∈ columns df) then
    {| index_name := index_name df; columns := columns df;
       rows := map (λ '(ix, r), (ix, update_at c (λ _, v) (columns df) r)) (rows df);
       attrs := attrs df |}
  else
    {| index_name := index_name df; columns := (columns df ++ [c])%list;
       rows := map (λ '(ix, r), (ix, (r ++ [v])%list)) (rows df);
       attrs := attrs df |}.

(** [df.reset_index()]: the index becomes the first column. *)
Definition reset_index (df : Frame) : outcome Frame :=
  let label :=
    match index_name df with
    | Some n => n
    | None => if bool_decide ("index" ∈ columns df) then "level_0" else "index"
    end in
  if bool_decide (label ∈ columns df) then
    Raises {| exn_type := "ValueError";
              exn_msg := "cannot insert " +:+ label +:+ ", already exists" |}
  else
    Returns {| index_name := None; columns := label :: columns df;
               rows := imap (λ i '(ix, r), (CInt (Z.of_nat i), ix :: r)) (rows df);
               attrs := attrs df |}.

(** [df.rename(columns=m)] on the labels. *)
Definition rename_columns (m : list (string * string)) (cols : list string) : list string :=
  map (λ c, default c ((λ hit, snd (snd hit)) <$> list_find (λ kv, fst kv = c) m)) cols.

(** [df.dropna(subset=[c])]: drop the rows with a null under label [c]. *)
Definition dropna (c : string) (df : Frame) : Frame :=
  {| index_name := index_name df; columns := columns df;
     rows := filter (λ row,
                       forallb (λ x, negb (isnull x)) (cells_at c (columns df) (snd row))
                       = true)
                    (rows df);
     attrs := attrs df |}.

(** [pd.to_datetime(x, errors='coerce')] on one cell. *)
Definition to_datetime_coerce (E : Env) (x : Cell) : Cell :=
  match x with
  | CDate t => CDate t
  | CNull => CNull
  | _ => if isnull x then CNull
         else match to_datetime E x with
              | Some t => CDate t
              | None => CNull
              end
  end.

(** The timestamp a row is sorted by. *)
Definition date_key (cols : list string) (row : Cell * list Cell) : Z :=
  match cells_at "Date" cols (snd row) with
  | CDate t :: _ => t
  | _ => 0
  end.

Definition date_le (cols : list string) (r1 r2 : Cell * list Cell) : Prop :=
  date_key cols r1 ≤ date_key cols r2.

Global Instance date_le_dec (cols : list string) : RelDecision (date_le cols).
Proof. intros r1 r2. unfold date_le. apply _. Defined.

(** [df.sort_values('Date')] on rows whose dates are not null. *)
Definition sort_by_date (df : Frame) : Frame :=
  {| index_name := index_name df; columns := columns df;
     rows := merge_sort (date_le (columns df)) (rows df);
     attrs := attrs df |}.

(** ** numpy *)

(** [n] successive draws from the global generator. *)
Fixpoint draws {A} (draw1 : list Z → A * list Z) (n : nat) (s : list Z) : list A * list Z :=
  match n with
  | O => ([], s)
  | S n' =>
      let '(x, s1) := draw1 s in
      let '(xs, s2) := draws draw1 n' s1 in
      (x :: xs, s2)
  end.

Definition with_rng {A} (f : list Z → A * list Z) : Py A :=
  λ w, let '(a, s) := f (rng w) in (Returns a, {| trace := trace w; rng := s |}).

(** [np.random.seed(n)] *)
Definition np_random_seed (E : Env) (n : Z) : Py unit := set_rng (np_seed E n).

(** [np.random.normal(loc, scale, n)] *)
Definition np_random_normal (E : Env) (loc scale : float) (n : nat) : Py (list float) :=
  with_rng (draws (np_normal1 E loc scale) n).

(** [np.random.randint(low, high, n)] *)
Definition np_random_randint (E : Env) (low high : Z) (n : nat) : Py (list Z) :=
  with_rng (draws (np_randint1 E low high) n).

Fixpoint cumsum_from (acc : float) (xs : list float) : list float :=
  match xs with
  | [] => []
  | x :: xs' => let a := (acc + x)%float in a :: cumsum_from a xs'
  end.

(** [np.cumsum(xs)] *)
Definition cumsum (xs : list float) : list float :=
  match xs with
  | [] => []
  | x :: xs' => x :: cumsum_from x xs'
  end.

(** An [int] used in float arithmetic. *)
Definition float_of_Z (n : Z) : float := PrimFloat.of_uint63 (Uint63.of_Z n).

(** ** yahoo.py *)

Module Yahoo.
Import Base.

Record YahooFinanceAdapter := {
  yahoo_base : baseDataAdapter;
  test_ticker : string
}.

Definition with_yahoo_base (b : baseDataAdapter) (s : YahooFinanceAdapter)
    : YahooFinanceAdapter :=
  {| yahoo_base := b; test_ticker := test_ticker s |}.

(** [YahooFinanceAdapter._sanitize_ticker] *)
Definition _sanitize_ticker (ticker : string) : string :=
  let ticker := PyStr.strip ticker in
  if PyStr.startswith ticker "$"
  then PyStr.upper (PyStr.slice_from1 ticker)
  else PyStr.upper ticker.

(** One day, in nanoseconds. *)
Definition day : Z := 86400 * 1000000000.

Definition LIVE : string := "yfinance".
Definition STUB : string := "stub_fallback".

Section Probe.
Context (E : Env).

Let assign_passed (p : bool) (self : YahooFinanceAdapter) : YahooFinanceAdapter :=
  with_yahoo_base (set_passed p (yahoo_base self)) self.
Let assign_message (m : string) (self : YahooFinanceAdapter) : YahooFinanceAdapter :=
  with_yahoo_base (set_message m (yahoo_base self)) self.

(** Steps 3 and 4 of the health check, once [hist] is there. *)
Definition check_history (self : YahooFinanceAdapter) (hist : option Frame)
    : Py YahooFinanceAdapter :=
  match hist with
  | Some hist =>
      if negb (frame_empty hist) then
        latest ← lift (format_latest E hist);
        print ("Success (" +:+ latest +:+ ")");;
        print_end "[4/4] Verifying data quality..." " ";;
        if bool_decide ("Close" ∈ columns hist) then
          print "Success";;
          mret (assign_message "Yahoo Finance operational" (assign_passed true self))
        else
          print "Warning (unexpected structure)";;
          mret (assign_passed false self)
      else
        print "Failed (empty data)";;
        mret (assign_message "Empty data returned" (assign_passed false self))
  | None =>
      print "Failed (empty data)";;
      mret (assign_message "Empty data returned" (assign_passed false self))
  end.

(** [YahooFinanceAdapter._run_health_check] *)
Definition _run_health_check (self : YahooFinanceAdapter)
    : Py (bool * YahooFinanceAdapter) :=
  print (nl +:+ bar +:+ nl +:+ adapter_name (yahoo_base self)
         +:+ " Health Check" +:+ nl +:+ bar);;
  print ("Testing with ticker: " +:+ test_ticker self);;
  print ("Test initiated at: " +:+ timestamp_str E (_init_time (yahoo_base self)));;
  let ticker := _sanitize_ticker (test_ticker self) in
  self ← try_except
    (print_end (nl +:+ "[1/4] Creating ticker object...") " ";;
     print "Success";;
     print_end "[2/4] Fetching ticker info..." " ";;
     try_except
       (info ← call (yf_info E) (YfInfo ticker);
        match info with
        | Some d =>
            if bool_decide (5 < Z.of_nat (size d)) then
              print ("Success ("
                     +:+ py_str (default (default (VStr "N/A") (d !! "shortName"))
                                         (d !! "longName"))
                     +:+ ")")
            else print "Warning (minimal info)"
        | None => print "Warning (minimal info)"
        end)
       (λ e, print ("Warning (" +:+ exn_type e +:+ ")"));;
     print_end "[3/4] Fetching price history (5 days)..." " ";;
     hist ← call (yf_frame E) (YfHistory ticker "5d" "1d");
     check_history self hist)
    (λ e,
     print ("Failed (" +:+ exn_type e +:+ ": " +:+ PyStr.slice_to 60 (exn_msg e) +:+ ")");;
     mret (assign_message
             ("Health check failed: " +:+ exn_type e +:+ ": "
              +:+ PyStr.slice_to 100 (exn_msg e))
             (assign_passed false self)));
  let passed := _health_check_passed (yahoo_base self) in
  let status := if passed then "Passed" else "Failed" in
  print (nl +:+ bar +:+ nl +:+ "Health Check " +:+ status);;
  (if passed then mret tt
   else print ("Reason: " +:+ _health_check_message (yahoo_base self)));;
  print (bar +:+ nl);;
  mret (passed, self).

End Probe.

Global Instance yahoo_is_adapter : Adapter YahooFinanceAdapter := {|
  class_name := "YahooFinanceAdapter";
  base := yahoo_base;
  with_base := with_yahoo_base;
  Base._run_health_check := _run_health_check;
  base_with_base := λ b s, eq_refl
|}.

Section Methods.
Context (E : Env).

(** [YahooFinanceAdapter.__init__] *)
Definition __init__ (health_check fail_on_error : bool) (test_ticker : string)
    : Py YahooFinanceAdapter :=
  Base.__init__ E {| yahoo_base := blank; test_ticker := test_ticker |}
                health_check fail_on_error.

(** The rows of the synthetic table: Date, Close, Open, High, Low, Volume. *)
Definition stub_rows (idx : list Z) (prices : list float) (volume : list Z)
    : list (Cell * list Cell) :=
  imap (λ i '(d, (p, v)),
          (CInt (Z.of_nat i),
           [CDate d; CFloat p; CFloat (p * 0.99)%float; CFloat (p * 1.01)%float;
            CFloat (p * 0.98)%float; CInt v]))
       (zip idx (zip prices volume)).

(** [YahooFinanceAdapter._get_stub_data] *)
Definition _get_stub_data (self : YahooFinanceAdapter) (ticker : string)
    (error : option string) : Py Frame :=
  tr ← get_trace;
  let today := clock E tr in
  let idx := map (λ i, today - (29 - Z.of_nat i) * day) (seq 0 30) in
  np_random_seed E (hash E ticker `mod` 2 ^ 32);;
  let base_price := 100 + hash E ticker `mod` 200 in
  steps ← np_random_normal E 0.001%float 0.02%float (length idx);
  let prices := map (λ x, (float_of_Z base_price * np_exp E x)%float) (cumsum steps) in
  volume ← np_random_randint E 1000000 100000000 (length idx);
  let df :=
    {| index_name := None;
       columns := ["Date"; "Close"; "Open"; "High"; "Low"; "Volume"];
       rows := stub_rows idx prices volume;
       attrs := ∅ |} in
  let df := set_column "source" (CStr STUB) df in
  let df := set_attr "is_stub" (VBool true) df in
  if truthy error then
    let reason := default "" error in
    let df := set_attr "stub_reason" (VStr reason) df in
    logging "warning" ("[Stub] " +:+ ticker +:+ ": " +:+ reason);;
    mret df
  else
    logging "warning" ("[Stub] Generated data for " +:+ ticker);;
    mret df.

(** The entries of [rename_map] for one target label. *)
Definition rename_entries (target : string) (aliases cols : list string)
    : list (string * string) :=
  if bool_decide (target ∈ cols) then []
  else map (λ c, (c, target)) (filter (λ c, c ∈ cols) aliases).

(** [YahooFinanceAdapter._normalize_dataframe].  Column labels are flat, so
    the [MultiIndex] branch does not apply. *)
Definition _normalize_dataframe (df : Frame) (ticker : string) : outcome Frame :=
  df ← reset_index df;
  let rename_map :=
    (rename_entries "Date" ["Datetime"; "date"; "datetime"; "index"] (columns df)
     ++ rename_entries "Close" ["Adj Close"; "adj_close"; "close"] (columns df))%list in
  let df :=
    {| index_name := index_name df; columns := rename_columns rename_map (columns df);
       rows := rows df; attrs := attrs df |} in
  df ← (if bool_decide ("Date" ∈ columns df) then
          if bool_decide (length (filter (λ c, c = "Date") (columns df)) = 1%nat) then
            let df :=
              {| index_name := index_name df; columns := columns df;
                 rows := map (λ '(ix, r),
                                (ix, update_at "Date" (to_datetime_coerce E) (columns df) r))
                             (rows df);
                 attrs := attrs df |} in
            mret (sort_by_date (dropna "Date" df))
          else
            Raises {| exn_type := "ValueError";
                      exn_msg := "to assemble mappings requires at least that "
                                 +:+ "[year, month, day] be specified" |}
        else mret df);
  mret (if bool_decide ("Close" ∈ columns df) then dropna "Close" df else df).

(** [YahooFinanceAdapter.fetch_prices].  [inl] carries a live table on to
    the next statement, [inr] is a [return] of stub data. *)
Definition fetch_prices (self : YahooFinanceAdapter) (ticker period interval : string)
    : Py Frame :=
  let ticker := _sanitize_ticker ticker in
  logging "info" ("Fetching price data for " +:+ ticker +:+ " (period=" +:+ period
                  +:+ ", interval=" +:+ interval +:+ ")");;
  if _stub (yahoo_base self) then
    logging "warning" "Using stub price data";;
    _get_stub_data self ticker None
  else
    first ← try_except
      (df ← call (yf_frame E) (YfHistory ticker period interval);
       mret (inl df))
      (λ e,
       logging "error" ("Fetch error: " +:+ exn_type e +:+ ": " +:+ exn_msg e);;
       stub ← _get_stub_data self ticker (Some (exn_msg e));
       mret (inr stub));
    match first with
    | inr stub => mret stub
    | inl df =>
        let retry : Py (Frame + Frame) :=
          logging "warning" ("Empty data for " +:+ ticker
                             +:+ ", retrying shorter period");;
          try_except
            (df ← call (yf_frame E) (YfHistory ticker "1mo" "1d");
             match df with
             | Some df =>
                 if frame_empty df then
                   stub ← _get_stub_data self ticker (Some "Empty after retry");
                   mret (inr stub)
                 else mret (inl df)
             | None =>
                 mthrow {| exn_type := "AttributeError";
                           exn_msg := "'NoneType' object has no attribute 'empty'" |}
             end)
            (λ _,
             stub ← _get_stub_data self ticker (Some "Retry failed");
             mret (inr stub)) in
        second ←
          match df with
          | None => retry
          | Some df => if frame_empty df then retry else mret (inl df)
          end;
        match second with
        | inr stub => mret stub
        | inl df =>
            df ← lift (_normalize_dataframe df ticker);
            let df := set_column "source" (CStr LIVE) df in
            let df := set_attr "is_stub" (VBool false) df in
            logging "info" ("Fetched " +:+ pretty (len (rows df))
                            +:+ " price points for " +:+ ticker);;
            mret df
        end
    end.

(** [YahooFinanceAdapter.fetch_info] *)
Definition fetch_info (self : YahooFinanceAdapter) (ticker : string) : Py pydict :=
  let ticker := _sanitize_ticker ticker in
  if _stub (yahoo_base self) then
    mret (<["stub" := VBool true]> (<["ticker" := VStr ticker]> ∅))
  else
    try_except
      (info ← call (yf_info E) (YfInfo ticker);
       let info := default ∅ info in
       let info := <["source" := VStr "info"]> info in
       logging "info" ("Fetched info for " +:+ ticker +:+ " with "
                       +:+ pretty (Z.of_nat (size info)) +:+ " fields");;
       mret info)
      (λ e,
       logging "warning" ("Yahoo info error for " +:+ ticker +:+ ": " +:+ exn_msg e);;
       mret (<["error" := VStr (exn_msg e)]> (<["ticker" := VStr ticker]> ∅))).

(** [df.shape], as an f-string shows it. *)
Definition shape_str (df : Frame) : string :=
  "(" +:+ pretty (len (rows df)) +:+ ", " +:+ pretty (len (columns df)) +:+ ")".

(** The common body of [fetch_financials], [fetch_balance_sheet] and
    [fetch_cashflow]; [what] is the name used in the log lines and [req] the
    property of [yf.Ticker] that is read. *)
Definition fetch_statement (what : string) (req : string → Request)
    (self : YahooFinanceAdapter) (ticker : string) : Py Frame :=
  let ticker := _sanitize_ticker ticker in
  logging "info" ("Fetching " +:+ what +:+ " for " +:+ ticker);;
  if _stub (yahoo_base self) then
    logging "warning" ("Using stub " +:+ what +:+ " data");;
    mret empty_frame
  else
    try_except
      (statement ← call (yf_frame E) (req ticker);
       match statement with
       | Some df =>
           if negb (frame_empty df) then
             logging "info" ("Fetched " +:+ what +:+ " for " +:+ ticker +:+ ": "
                             +:+ shape_str df);;
             mret df
           else
             logging "warning" ("Empty " +:+ what +:+ " for " +:+ ticker);;
             mret empty_frame
       | None =>
           logging "warning" ("Empty " +:+ what +:+ " for " +:+ ticker);;
           mret empty_frame
       end)
      (λ e,
       logging "error" ("Error fetching " +:+ what +:+ " for " +:+ ticker
                        +:+ ": " +:+ exn_msg e);;
       mret empty_frame).

(** [YahooFinanceAdapter.fetch_financials] *)
Definition fetch_financials : YahooFinanceAdapter → string → Py Frame :=
  fetch_statement "financials" YfFinancials.

(** [YahooFinanceAdapter.fetch_balance_sheet] *)
Definition fetch_balance_sheet : YahooFinanceAdapter → string → Py Frame :=
  fetch_statement "balance sheet" YfBalanceSheet.

(** [YahooFinanceAdapter.fetch_cashflow] *)
Definition fetch_cashflow : YahooFinanceAdapter → string → Py Frame :=
  fetch_statement "cash flow" YfCashflow.

End Methods.

End Yahoo.

(** ** Using an adapter: construction followed by method calls *)

Module Lifecycle.
Import Base.

(** Run [m] for its effects; the object stays as it is. *)
Definition reading {A S : Type} (self : S) (m : Py A) : Py S :=
  _ ← m; mret self.

(** The methods of [YahooFinanceAdapter]. *)
Inductive YahooCall :=
| YRunHealthCheck
| YGetHealthStatus
| YIsHealthy
| YSanitizeTicker (ticker : string)
| YFetchPrices (ticker period interval : string)
| YGetStubData (ticker : string) (error : option string)
| YFetchInfo (ticker : string)
| YFetchFinancials (ticker : string)
| YFetchBalanceSheet (ticker : string)
| YFetchCashflow (ticker : string).

(** The methods of [NewsAdapter]. *)
Inductive NewsCall :=
| NRunHealthCheck
| NGetHealthStatus
| NIsHealthy
| NGetStubData (ticker : string)
| NIngest (ticker : string) (window_days : Z)
| NRunChain (ticker : string) (window_days : Z).

(** The methods of [SECAdapter]. *)
Inductive SECCall :=
| SRunHealthCheck
| SGetHealthStatus
| SIsHealthy
| SGetStubData (ticker : string) (limit : Z)
| SLatestFilings (ticker : string) (form_types : list string) (limit : Z).

Section Calls.
Context (E : Env).

(** One call on the object: the object afterwards.  Only the health check
    assigns attributes; every other method leaves the object as it is. *)
Definition yahoo_call (c : YahooCall) (self : Yahoo.YahooFinanceAdapter)
    : Py Yahoo.YahooFinanceAdapter :=
  match c with
  | YRunHealthCheck => '(_, self) ← _run_health_check E self; mret self
  | YGetHealthStatus => reading self (mret (get_health_status E self))
  | YIsHealthy => reading self (mret (is_healthy self))
  | YSanitizeTicker t => reading self (mret (Yahoo._sanitize_ticker t))
  | YFetchPrices t p i => reading self (Yahoo.fetch_prices E self t p i)
  | YGetStubData t e => reading self (Yahoo._get_stub_data E self t e)
  | YFetchInfo t => reading self (Yahoo.fetch_info E self t)
  | YFetchFinancials t => reading self (Yahoo.fetch_financials E self t)
  | YFetchBalanceSheet t => reading self (Yahoo.fetch_balance_sheet E self t)
  | YFetchCashflow t => reading self (Yahoo.fetch_cashflow E self t)
  end.

Definition news_call (c : NewsCall) (self : News.NewsAdapter) : Py News.NewsAdapter :=
  match c with
  | NRunHealthCheck => '(_, self) ← _run_health_check E self; mret self
  | NGetHealthStatus => reading self (mret (get_health_status E self))
  | NIsHealthy => reading self (mret (is_healthy self))
  | NGetStubData t => reading self (News._get_stub_data E self t)
  | NIngest t d => reading self (News._ingest E self t d)
  | NRunChain t d => reading self (News.run_chain E self t d)
  end.

Definition sec_call (c : SECCall) (self : SEC.SECAdapter) : Py SEC.SECAdapter :=
  match c with
  | SRunHealthCheck => '(_, self) ← _run_health_check E self; mret self
  | SGetHealthStatus => reading self (mret (get_health_status E self))
  | SIsHealthy => reading self (mret (is_healthy self))
  | SGetStubData t n => reading self (mret (SEC._get_stub_data self t n))
  | SLatestFilings t f n => reading self (SEC.latest_filings E self t f n)
  end.

End Calls.

(** A sequence of calls made by a caller that carries on after an exception
    (a method that raises has not assigned any attribute). *)
Fixpoint calls {S C : Type} (perform : C → S → Py S) (cs : list C) (self : S) (w : World)
    : S * World :=
  match cs with
  | [] => (self, w)
  | c :: cs' =>
      match perform c self w with
      | (Returns self', w') => calls perform cs' self' w'
      | (Raises _, w') => calls perform cs' self w'
      end
  end.

End Lifecycle.

(** ** Concrete worlds used in the examples *)

Module Scenario.
Import Base.

Definition down : Exn :=
  {| exn_type := "ConnectionError"; exn_msg := "unreachable" |}.

(** No credentials, and every service call fails. *)
Definition offline : Env := {|
  getenv := λ _, None;
  hash := λ _, 7;
  clock := λ _, 0;
  timestamp_str := λ _, "";
  isoformat := λ _, "";
  to_datetime := λ _, None;
  format_latest := λ _, Returns "";
  requests_get := λ _ _, Raises down;
  yf_frame := λ _ _, Raises down;
  yf_info := λ _ _, Raises down;
  np_seed := λ n, [n];
  np_normal1 := λ loc scale s, (loc, s);
  np_randint1 := λ low high s, (low, s);
  np_exp := λ x, x
|}.

(** As [offline], but with replies chosen for the two kinds of service. *)
Definition serving (http : outcome Response) (frame : outcome (option Frame)) : Env := {|
  getenv := λ _, Some "secret";
  hash := hash offline;
  clock := clock offline;
  timestamp_str := timestamp_str offline;
  isoformat := isoformat offline;
  to_datetime := to_datetime offline;
  format_latest := format_latest offline;
  requests_get := λ _ _, http;
  yf_frame := λ _ _, frame;
  yf_info := yf_info offline;
  np_seed := np_seed offline;
  np_normal1 := np_normal1 offline;
  np_randint1 := np_randint1 offline;
  np_exp := np_exp offline
|}.

(** A 200 reply whose body is the object [{k: m}]. *)
Definition reply_with (k : string) (m : Member) : outcome Response :=
  Returns {| status_error := None; json := Returns (BObject {[ k := m ]}) |}.

(** A 200 reply whose body is the object [{k: items}], for a list of
    objects. *)
Definition ok_reply (k : string) (items : list pydict) : outcome Response :=
  reply_with k (pylist items).

Definition w0 : World := {| trace := []; rng := [] |}.

Definition fresh : baseDataAdapter :=
  {| adapter_name := "Adapter"; _stub := false; _init_time := 0;
     _health_check_passed := false; _health_check_message := "Not Tested" |}.

Definition news_without_key : News.NewsAdapter :=
  {| News.news_api := {| api_base := fresh; api_key := None;
                         api_key_env_var := "NEWSAPI_KEY" |};
     News.key := None; News.session := None |}.

Definition news_with_key : News.NewsAdapter :=
  {| News.news_api := {| api_base := fresh; api_key := Some "secret";
                         api_key_env_var := "NEWSAPI_KEY" |};
     News.key := Some "secret"; News.session := Some News.RequestsSession |}.

Definition sec_without_key : SEC.SECAdapter :=
  {| SEC.sec_api := {| api_base := fresh; api_key := None;
                       api_key_env_var := "SEC_API_KEY" |};
     SEC.base_url := "https://api.sec-api.io" |}.

Definition sec_with_key : SEC.SECAdapter :=
  {| SEC.sec_api := {| api_base := fresh; api_key := Some "secret";
                       api_key_env_var := "SEC_API_KEY" |};
     SEC.base_url := "https://api.sec-api.io" |}.

Definition yahoo : Yahoo.YahooFinanceAdapter :=
  {| Yahoo.yahoo_base := fresh; Yahoo.test_ticker := "AAPL" |}.

Definition article (title : string) : pydict :=
  <["title" := VStr title]> (<["description" := VNone]> ∅).

(** One trading day whose close is missing. *)
Definition day_without_close : Frame :=
  {| index_name := Some "Date";
     columns := ["Open"; "High"; "Low"; "Close"; "Adj Close"; "Volume"];
     rows := [(CDate 1700000000000000000,
               [CFloat 1; CFloat 1; CFloat 1; CFloat nan; CFloat nan; CInt 0])];
     attrs := ∅ |}.

End Scenario.

(** * Vocabulary of the properties *)

(** A cue of the set [cues] is present in [t]. *)
Definition has_cue (cues : list string) (t : string) : Prop :=
  ∃ k, k ∈ cues ∧ PyStr.occurs k t.

(** The request [_ingest] sends. *)
Definition ingest_request (self : News.NewsAdapter) (ticker : string) : Request :=
  HttpGet News.endpoint [("X-Api-Key", News.key self)]
    [("q", ticker); ("language", "en"); ("pageSize", "50"); ("sortBy", "publishedAt")] 20.

(** The member [k] of a reply, as the statements of a [try] block get hold of
    it, or the exception raised on the way: by the request, by
    [raise_for_status], by [.json()], or by [.get] on a body that is not an
    object. *)
Definition member_of (k : string) (reply : outcome Response) : outcome Member :=
  r ← reply;
  match status_error r with
  | Some e => Raises e
  | None => body ← json r; body_get body k
  end.

(** What the [try] block of [_ingest] makes of a reply: the [articles]
    member, once [len] has accepted it. *)
Definition articles_of (reply : outcome Response) : outcome Member :=
  m ← member_of "articles" reply;
  _ ← member_len m;
  mret m.

(** What the [try] block of [latest_filings] makes of a reply: one record
    for each element of the [filings] member. *)
Definition filings_of (ticker : string) (reply : outcome Response)
    : outcome (list pydict) :=
  m ← member_of "filings" reply;
  items ← member_iter m;
  mapM (SEC.filing_of ticker) items.

(** The rows of the synthetic table, with the [source] column appended. *)
Definition tagged_rows (idx : list Z) (prices : list float) (volume : list Z)
    : list (Cell * list Cell) :=
  map (λ '(ix, r), (ix, (r ++ [CStr Yahoo.STUB])%list)) (Yahoo.stub_rows idx prices volume).

Definition stub_columns : list string :=
  ["Date"; "Close"; "Open"; "High"; "Low"; "Volume"; "source"].

(** The generated values, as a function of the ticker alone. *)
Definition stub_prices (E : Env) (ticker : string) : list float :=
  let s := np_seed E (hash E ticker `mod` 2 ^ 32) in
  map (λ x, (float_of_Z (100 + hash E ticker `mod` 200) * np_exp E x)%float)
      (cumsum (fst (draws (np_normal1 E 0.001%float 0.02%float) 30 s))).

Definition stub_volume (E : Env) (ticker : string) : list Z :=
  let s := np_seed E (hash E ticker `mod` 2 ^ 32) in
  fst (draws (np_randint1 E 1000000 100000000) 30
         (snd (draws (np_normal1 E 0.001%float 0.02%float) 30 s))).

(** The reply to the one request that a statement fetcher sends, at the
    point of the run where it sends it (after its first log line). *)
Definition statement_reply (E : Env) (what : string) (req : string → Request)
    (ticker : string) (w : World) : outcome (option Frame) :=
  let t := Yahoo._sanitize_ticker ticker in
  yf_frame E (trace w ++ [ELog "info" ("Fetching " +:+ what +:+ " for " +:+ t)])%list
           (req t).



(** A list of objects: what [_ingest] is meant to return. *)
Definition list_of_objects (m : Member) : Prop := ∃ l, m = pylist l.

(** The request [latest_filings] sends. *)
Definition filings_request (self : SEC.SECAdapter) (ticker : string)
    (form_types : list string) (limit : Z) : Request :=
  HttpGet (SEC.base_url self +:+ "/") [("Authorization", Base.api_key (SEC.sec_api self))]
    [("query",
      "ticker:" +:+ ticker +:+ " AND ("
      +:+ PyStr.join " OR " (map (λ ft, "formType:" +:+ dquote +:+ ft +:+ dquote) form_types)
      +:+ ")");
     ("from", "0"); ("size", pretty limit); ("sort", SEC.sort_desc)] 20.

(** The outbound calls recorded in a trace. *)
Definition net_calls (tr : list Event) : list Request :=
  omap (λ ev, match ev with ENet req => Some req | _ => None end) tr.

(** What the interpreter wrote to standard output. *)
Definition printed (tr : list Event) : list string :=
  omap (λ ev, match ev with EPrint s => Some s | _ => None end) tr.

(** A reply of yfinance that carries no table: an exception, [None], or an
    empty table. *)
Definition no_table (reply : outcome (option Frame)) : Prop :=
  match reply with
  | Raises _ | Returns None => True
  | Returns (Some df) => frame_empty df = true
  end.


(** The cells under label [c], row by row. *)
Definition column (c : string) (df : Frame) : list (list Cell) :=
  map (λ row, cells_at c (columns df) (snd row)) (rows df).

(** ** Running effectful code *)

(** Unfold the monad operations in the goal. *)
Ltac py_unfold :=
  unfold mbind, mret, mthrow, Py_bind, Py_ret, Py_throw, outcome_bind, outcome_ret,
    try_except, lift, call, http_get, print, print_end, logging, emit,
    get_trace, get_rng, set_rng, raise_for_status in *.

Ltac py_step := py_unfold; cbn [fst snd trace rng].

(** ** Further vocabulary *)

(** The events a computation adds to the trace. *)
Definition new_calls (w w' : World) (calls : list Request) : Prop :=
  net_calls (trace w') = (net_calls (trace w) ++ calls)%list.

(** Two states of the base attributes that differ at most in the two health
    attributes. *)
Definition same_but_health (b b' : Base.baseDataAdapter) : Prop :=
  Base.adapter_name b' = Base.adapter_name b
  ∧ Base._stub b' = Base._stub b
  ∧ Base._init_time b' = Base._init_time b.

(** Rewrite the outbound calls of an explicit trace. *)
Ltac trace_calls :=
  unfold new_calls, net_calls; cbn [fst snd trace rng];
  rewrite ?omap_app; cbn [omap list_omap app];
  rewrite ?app_nil_r, <- ?app_assoc; cbn [app].


(** The request of the news adapter's connection step. *)
Definition news_probe_request (self : News.NewsAdapter) : Request :=
  HttpGet News.endpoint [("X-Api-Key", Base.api_key (News.news_api self))]
    [("q", "test"); ("language", "en"); ("pageSize", "1")] 10.

(** The request of the filings adapter's connection step. *)
Definition sec_probe_request (self : SEC.SECAdapter) : Request :=
  HttpGet (SEC.base_url self +:+ "/") [("Authorization", Base.api_key (SEC.sec_api self))]
    [("query", "ticker:AAPL AND formType:" +:+ dquote +:+ "10-K" +:+ dquote);
     ("from", "0"); ("size", "1"); ("sort", SEC.sort_desc)] 10.

(** The verdict and message of the connection and response steps of an API
    adapter, as a function of the reply to its probe: [k] is the member that
    should hold a list and [operational] the message on success. *)
Definition probe_verdict (k operational : string) (reply : outcome Response)
    : bool * string :=
  match reply with
  | Raises e => (false, "API connection failed: " +:+ exn_type e)
  | Returns r =>
      match status_error r with
      | Some e => (false, "API connection failed: " +:+ exn_type e)
      | None =>
          match json r ≫= λ body, body_get body k with
          | Raises e => (false, "Response parsing failed: " +:+ exn_type e)
          | Returns m =>
              if is_list m then (true, operational)
              else (false, "Unexpected response format")
          end
      end
  end.

(** ** More concrete worlds *)

Module Cases.

(** As [Scenario.offline], but the info read of yfinance succeeds. *)
Definition informed (info : option pydict) : Env := {|
  getenv := getenv Scenario.offline;
  hash := hash Scenario.offline;
  clock := clock Scenario.offline;
  timestamp_str := timestamp_str Scenario.offline;
  isoformat := isoformat Scenario.offline;
  to_datetime := to_datetime Scenario.offline;
  format_latest := format_latest Scenario.offline;
  requests_get := requests_get Scenario.offline;
  yf_frame := yf_frame Scenario.offline;
  yf_info := λ _ _, Returns info;
  np_seed := np_seed Scenario.offline;
  np_normal1 := np_normal1 Scenario.offline;
  np_randint1 := np_randint1 Scenario.offline;
  np_exp := np_exp Scenario.offline
|}.

(** Three trading days in the order 3, 1, 2, as yfinance names the index;
    the close of day 2 is missing. *)
Definition unsorted_days : Frame :=
  {| index_name := Some "Date";
     columns := ["Open"; "Close"];
     rows := [(CDate (3 * Yahoo.day), [CFloat 3; CFloat 3]);
              (CDate (1 * Yahoo.day), [CFloat 1; CFloat 1]);
              (CDate (2 * Yahoo.day), [CFloat 2; CFloat nan])];
     attrs := ∅ |}.


End Cases.

(** ** Vocabulary of strings *)

(** Every character of [s] satisfies [p]. *)
Fixpoint all_chars (p : ascii → bool) (s : string) : bool :=
  match s with
  | EmptyString => true
  | String c s' => p c && all_chars p s'
  end.

(** A string of whitespace only. *)
Definition blank (s : string) : Prop := all_chars PyStr.isspace s = true.

(** A string without whitespace. *)
Definition solid (s : string) : Prop :=
  all_chars (λ c, negb (PyStr.isspace c)) s = true.



(** Not whitespace, or the plain blank. *)
Definition plain (c : ascii) : bool :=
  negb (PyStr.isspace c) || bool_decide (c = " "%char).



(** ** Vocabulary of the news summaries *)

(** A cue of [cues] occurs in the lower-cased title, description or content
    of an article. *)
Definition cue_in_article (cues : list string) (a : pydict) : Prop :=
  ∃ field, field ∈ ["title"; "description"; "content"]
    ∧ has_cue cues (PyStr.lower (get_str a field)).

(** The line that [_summarize] builds from a label and a text. *)
Definition snippet (l t : string) : string :=
  "- " +:+ l +:+ ": " +:+ PyStr.slice_to 100 t +:+ "...".

(** The sample that [run_chain] builds from a normalized text whose label and
    entities are its own. *)
Definition sample_of (t : string) : News.Sample :=
  {| News.text := t;
     News.sentiment := News.classify_text t;
     News.entities := list_to_set (PyStr.findall_money t) |}.

(** The [AttributeError] of a call of [.get] on a value of kind [k]. *)
Definition no_get (k : Kind) : Exn :=
  {| exn_type := "AttributeError";
     exn_msg := "'" +:+ type_name k +:+ "' object has no attribute 'get'" |}.

(** [IndexError] as list indexing raises it. *)
Definition index_error : Exn :=
  {| exn_type := "IndexError"; exn_msg := "list index out of range" |}.

(** ** Vocabulary of the synthetic table *)

(** The state of numpy's global generator after the draws of
    [_get_stub_data] for a ticker. *)
Definition stub_rng (E : Env) (ticker : string) : list Z :=
  let s := np_seed E (hash E ticker `mod` 2 ^ 32) in
  snd (draws (np_randint1 E 1000000 100000000) 30
         (snd (draws (np_normal1 E 0.001%float 0.02%float) 30 s))).

(** ** Vocabulary of tables *)

(** Every row has one cell per column label. *)
Definition rectangular (df : Frame) : Prop :=
  Forall (λ row, length (snd row) = length (columns df)) (rows df).

(** Every cell under label [c] satisfies [P]. *)
Definition every_cell (P : Cell → Prop) (c : string) (df : Frame) : Prop :=
  Forall (λ row, Forall P (cells_at c (columns df) (snd row))) (rows df).

(** The labels under which [_normalize_dataframe] looks for the date. *)
Definition date_labels : list string :=
  ["Date"; "Datetime"; "date"; "datetime"; "index"].

(** The warning [_get_stub_data] logs. *)
Definition stub_warning (ticker : string) (error : option string) : string :=
  match error with
  | Some (String c s) => "[Stub] " +:+ ticker +:+ ": " +:+ String c s
  | _ => "[Stub] Generated data for " +:+ ticker
  end.

(** * Properties *)

(** ** The classifier (news.py) *)

Section Classifier.
Import News.

Lemma startswith_app (t k : string) :
  PyStr.startswith t k = true ↔ ∃ post, t = k +:+ post.
Proof.
  revert t. induction k as [|a k IH]; intros t; simpl.
  - split; [intros _; by exists t | done].
  - destruct t as [|b t]; simpl.
    + split; [done | intros [post H]; discriminate].
    + case_decide as Hab.
      * subst b. rewrite IH. split; intros [post H]; exists post.
        -- by rewrite H.
        -- by injection H.
      * split; [done | intros [post H]; injection H; intros; by subst].
Qed.

Lemma contains_occurs (k t : string) :
  PyStr.contains k t = true ↔ PyStr.occurs k t.
Proof.
  unfold PyStr.occurs. induction t as [|b t IH]; simpl.
  - rewrite orb_false_r, startswith_app. split.
    + intros [post H]. by exists "", post.
    + intros [pre [post H]]. destruct pre; simpl in H; [by exists post|discriminate].
  - rewrite orb_true_iff, startswith_app, IH. split.
    + intros [[post H] | [pre [post H]]].
      * by exists "", post.
      * exists (String b pre), post. simpl. by rewrite H.
    + intros [pre [post H]]. destruct pre as [|c pre]; simpl in H.
      * left. by exists post.
      * right. injection H as -> H. by exists pre, post.
Qed.

Lemma any_contains (cues : list string) (t : string) :
  PyStr.any (λ k, PyStr.contains k t) cues = true ↔ has_cue cues t.
Proof.
  unfold PyStr.any, has_cue. rewrite existsb_exists.
  split; intros [k [Hk Hc]]; exists k.
  - by rewrite list_elem_of_In, <- contains_occurs.
  - by rewrite <- list_elem_of_In, contains_occurs.
Qed.

Lemma any_contains_false (cues : list string) (t : string) :
  PyStr.any (λ k, PyStr.contains k t) cues = false ↔ ¬ has_cue cues t.
Proof. rewrite <- any_contains. by destruct (PyStr.any _ _). Qed.

(** C2.  [_classify] is a total function of the texts alone: it returns
    one label for each text, in the order of the texts, and the label of a
    text is "mixed" when a positive and a negative cue both occur in it,
    "positive" when only a positive cue occurs, "negative" when only a
    negative cue occurs and "neutral" otherwise, wherever and however often
    the cues occur; the empty text is neutral.  The same holds of the inner
    function [classify_text], which gives each label. *)
Theorem classify_text_by_cues (t : string) :
  (has_cue POS t ∧ has_cue NEG t → classify_text t = "mixed") ∧
  (has_cue POS t ∧ ¬ has_cue NEG t → classify_text t = "positive") ∧
  (¬ has_cue POS t ∧ has_cue NEG t → classify_text t = "negative") ∧
  (¬ has_cue POS t ∧ ¬ has_cue NEG t → classify_text t = "neutral") ∧
  classify_text "" = "neutral" ∧
  _classify [t] = [classify_text t] ∧
  _classify [""] = ["neutral"] ∧
  ∀ texts,
    length (_classify texts) = length texts
    ∧ ∀ i t', texts !! i = Some t' →
        ∃ l, _classify texts !! i = Some l
          ∧ (has_cue POS t' ∧ has_cue NEG t' → l = "mixed")
          ∧ (has_cue POS t' ∧ ¬ has_cue NEG t' → l = "positive")
          ∧ (¬ has_cue POS t' ∧ has_cue NEG t' → l = "negative")
          ∧ (¬ has_cue POS t' ∧ ¬ has_cue NEG t' → l = "neutral").
Proof.
  assert (Hlabel : ∀ t,
    (has_cue POS t ∧ has_cue NEG t → classify_text t = "mixed") ∧
    (has_cue POS t ∧ ¬ has_cue NEG t → classify_text t = "positive") ∧
    (¬ has_cue POS t ∧ has_cue NEG t → classify_text t = "negative") ∧
    (¬ has_cue POS t ∧ ¬ has_cue NEG t → classify_text t = "neutral")).
  { intros t0. unfold classify_text. split_and!.
    - intros [Hp Hn]. apply any_contains in Hp, Hn. by rewrite Hp, Hn.
    - intros [Hp Hn]. apply any_contains in Hp. apply any_contains_false in Hn.
      by rewrite Hp, Hn.
    - intros [Hp Hn]. apply any_contains_false in Hp. apply any_contains in Hn.
      by rewrite Hp, Hn.
    - intros [Hp Hn]. apply any_contains_false in Hp, Hn. by rewrite Hp, Hn. }
  destruct (Hlabel t) as (Hm & Hp & Hn & Hz).
  split_and!; try done.
  intros texts. unfold _classify. split; [by rewrite length_map|].
  intros i t' Hi. exists (classify_text t'). split; [|apply Hlabel].
  change (map ?h ?l) with (h <$> l). by rewrite list_lookup_fmap, Hi.
Qed.

(** A text with cues of both kinds, repeated and in mixed order. *)
Lemma classify_text_by_cues_witness :
  ∃ l, _classify ["no news"; "profit beat forecasts; lawsuit beat back, record drop"]
         !! 1%nat = Some l
       ∧ l = "mixed".
Proof.
  destruct (classify_text_by_cues "") as (_ & _ & _ & _ & _ & _ & _ & Hall).
  destruct (Hall ["no news"; "profit beat forecasts; lawsuit beat back, record drop"])
    as [_ Hat].
  destruct (Hat 1%nat "profit beat forecasts; lawsuit beat back, record drop" eq_refl)
    as (l & Hl & Hmixed & _).
  exists l. split; [exact Hl|]. apply Hmixed. split.
  - exists "beat". split; [unfold POS; by repeat constructor|].
    by exists "profit ", " forecasts; lawsuit beat back, record drop".
  - exists "drop". split; [unfold NEG; by repeat constructor|].
    by exists "profit beat forecasts; lawsuit beat back, record ", "".
Defined.

(** Every label is one of the four. *)
Lemma classify_text_label (t : string) : classify_text t ∈ LABELS.
Proof.
  unfold classify_text, LABELS.
  destruct (PyStr.any _ POS), (PyStr.any _ NEG); simpl; set_solver.
Qed.

Lemma count_cons (s l : string) (labels : list string) :
  count s (l :: labels) = (if decide (l = s) then 1 else 0) + count s labels.
Proof.
  unfold count, len. rewrite filter_cons. case_decide; simpl; lia.
Qed.

Lemma counts_add_up (labels : list string) :
  Forall (λ l, l ∈ LABELS) labels →
  count "mixed" labels + count "positive" labels
  + count "negative" labels + count "neutral" labels = len labels.
Proof.
  induction 1 as [|l labels Hl _ IH]; [done|].
  rewrite !count_cons. unfold len in *. simpl length.
  unfold LABELS in Hl.
  repeat (apply elem_of_cons in Hl as [-> | Hl]); [..|by apply elem_of_nil in Hl];
    repeat case_decide; try congruence; lia.
Qed.

Lemma list_index_lt {A} (l : list A) (i : nat) :
  (i < length l)%nat → ∃ x, list_index l i = Returns x.
Proof.
  intros Hi. unfold list_index.
  destruct (lookup_lt_is_Some_2 l i Hi) as [x ->]. by exists x.
Qed.

Lemma range_below {A} (n : Z) (l : list A) (i : nat) :
  i ∈ range (Z.min n (len l)) → (i < length l)%nat.
Proof.
  unfold range, len. rewrite elem_of_seq. lia.
Qed.

Lemma mapM_returns {A B} (f : A → outcome B) (l : list A) :
  (∀ x, x ∈ l → ∃ y, f x = Returns y) →
  ∃ ys, mapM f l = Returns ys ∧ length ys = length l.
Proof.
  induction l as [|x l IH]; intros Hf; simpl.
  - by exists [].
  - destruct (Hf x) as [y Hy]; [set_solver|].
    destruct IH as [ys [Hys Hlen]]; [intros; apply Hf; set_solver|].
    exists (y :: ys). rewrite Hy. simpl. rewrite Hys. simpl. by rewrite Hlen.
Qed.

(** The snippet loop of [_summarize] never indexes out of range when there
    is a label for every text. *)
Lemma snippets_return (labels texts : list string) (k : Z) :
  length labels = length texts →
  ∃ snips,
    mapM (λ i,
            l ← list_index labels i;
            t ← list_index texts i;
            mret ("- " +:+ l +:+ ": " +:+ PyStr.slice_to 100 t +:+ "..."))
         (range (Z.min k (len texts))) = Returns snips.
Proof.
  intros Hlen.
  match goal with
  | |- ∃ _, mapM ?f ?l = _ => destruct (mapM_returns f l) as [ys [Hys _]]; [|by eexists]
  end.
  intros i Hi. apply range_below in Hi.
  destruct (list_index_lt labels i) as [l ->]; [lia|].
  destruct (list_index_lt texts i) as [t ->]; [lia|].
  by eexists.
Qed.

(** A label that does not occur is counted zero times. *)
Lemma count_absent (s : string) (labels : list string) :
  s ∉ labels → count s labels = 0.
Proof.
  induction labels as [|l labels IH]; intros Hs; [done|].
  rewrite count_cons. apply not_elem_of_cons in Hs as [Hne Hs].
  rewrite IH by done. case_decide; [congruence|done].
Qed.

(** C4.  Whatever the texts and [k], [_summarize] applied to the labels that
    [_classify] gives them returns a summary whose counts have exactly the
    four keys mixed, positive, negative and neutral, each with the number of
    times the label occurs (0 for a label that does not occur), and the four
    counts add up to the number of texts. *)
Theorem summarize_counts (texts : list string) (k : Z) :
  let labels := _classify texts in
  ∃ s,
    _summarize labels texts k = Returns s
    ∧ dom (counts s) = list_to_set LABELS
    ∧ counts s !! "mixed" = Some (count "mixed" labels)
    ∧ counts s !! "positive" = Some (count "positive" labels)
    ∧ counts s !! "negative" = Some (count "negative" labels)
    ∧ counts s !! "neutral" = Some (count "neutral" labels)
    ∧ 0 ≤ count "mixed" labels ∧ 0 ≤ count "positive" labels
    ∧ 0 ≤ count "negative" labels ∧ 0 ≤ count "neutral" labels
    ∧ count "mixed" labels + count "positive" labels
      + count "negative" labels + count "neutral" labels = len texts.
Proof.
  intros labels.
  destruct (snippets_return labels texts k) as [snips Hs].
  { unfold labels, _classify. by rewrite length_map. }
  pose proof (counts_add_up labels) as Hsum.
  unfold _summarize. rewrite Hs. simpl.
  eexists. split; [reflexivity|]. simpl.
  split; [unfold LABELS; set_solver|].
  repeat (split; [by simplify_map_eq|]).
  repeat (split; [unfold count, len; lia|]).
  rewrite Hsum.
  - unfold labels, _classify, len. by rewrite length_map.
  - unfold labels, _classify. apply Forall_forall. intros l Hl.
    apply list_elem_of_fmap in Hl as [t [-> _]]. apply classify_text_label.
Qed.

End Classifier.

(** ** The news pipeline (news.py) *)

Section NewsPipeline.
Import Base News.
Context (E : Env).

(** The two stub articles, as a function of the clock reading. *)
Lemma get_stub_data_returns (self : NewsAdapter) (ticker : string) (w : World) :
  ∃ a b, _get_stub_data E self ticker w = (Returns (pylist [a; b]), w).
Proof. unfold _get_stub_data. py_step. by eexists _, _. Qed.

(** [_ingest] never raises: it returns the [articles] member of the live
    reply, or the stub articles when there is no session or the live call
    fails. *)
Lemma ingest_cases (self : NewsAdapter) (ticker : string) (wd : Z) (w : World) :
  match session self with
  | None =>
      _ingest E self ticker wd w
      = _get_stub_data E self ticker
          {| trace := trace w ++ [ELog "warning" ("Using stub news data for " +:+ ticker)];
             rng := rng w |}
  | Some _ =>
      let req := ingest_request self ticker in
      match articles_of (requests_get E (trace w) req) with
      | Returns articles =>
          ∃ n, member_len articles = Returns n
            ∧ _ingest E self ticker wd w
              = (Returns articles,
                 {| trace := trace w ++ [ENet req;
                       ELog "info" ("Fetched " +:+ pretty n
                                    +:+ " articles for " +:+ ticker)];
                    rng := rng w |})
      | Raises e =>
          _ingest E self ticker wd w
          = _get_stub_data E self ticker
              {| trace := trace w ++ [ENet req; ELog "error" ("News API error: " +:+ exn_msg e)];
                 rng := rng w |}
      end
  end.
Proof.
  unfold _ingest, articles_of, member_of, ingest_request, session_get.
  destruct (session self) as [s|]; [|by py_step].
  py_step.
  destruct (requests_get E (trace w) _) as [r|e]; cbn; [|by rewrite <- app_assoc].
  destruct (status_error r) as [e|]; cbn; [by rewrite <- app_assoc|].
  destruct (json r) as [body|e]; cbn; [|by rewrite <- app_assoc].
  destruct (body_get body "articles") as [member|e]; cbn; [|by rewrite <- app_assoc].
  destruct (member_len member) as [n|e] eqn:Hn; cbn; [|by rewrite <- app_assoc].
  exists n. split; [done|]. by rewrite <- app_assoc.
Qed.

(** [_ingest] always returns. *)
Lemma ingest_returns (self : NewsAdapter) (ticker : string) (wd : Z) (w : World) :
  ∃ items w1, _ingest E self ticker wd w = (Returns items, w1).
Proof.
  pose proof (ingest_cases self ticker wd w) as H.
  destruct (session self).
  - cbv zeta in H. destruct (articles_of _).
    + destruct H as (n & _ & ->). by eexists _, _.
    + rewrite H. edestruct get_stub_data_returns as [a [b ->]]. by eexists _, _.
  - rewrite H. edestruct get_stub_data_returns as [a [b ->]]. by eexists _, _.
Qed.

(** What can be looped over has a length. *)
Lemma iter_len (m : Member) (l : list Item) :
  member_iter m = Returns l → member_len m = Returns (len l).
Proof.
  destruct m; simpl; try done; intros [= <-]; unfold len; f_equal.
  - by rewrite length_replicate.
  - by rewrite length_map.
Qed.

(** The texts of a list of objects. *)
Lemma preprocess_pylist (l : list pydict) :
  _preprocess (pylist l) = Returns (map normalized l).
Proof.
  unfold _preprocess, pylist. simpl.
  induction l as [|a l IH]; [done|]. simpl. by rewrite IH.
Qed.


(** [run_chain] builds its samples without indexing out of range. *)
Lemma samples_return (texts labels : list string) (extracts : list (gset string)) :
  length labels = length texts → length extracts = length texts →
  ∃ samples,
    mapM (λ i,
            t ← list_index texts i;
            l ← list_index labels i;
            e ← list_index extracts i;
            mret {| text := t; sentiment := l; entities := e |})
         (range (Z.min 3 (len texts))) = Returns samples
    ∧ length samples = Z.to_nat (Z.min 3 (len texts)).
Proof.
  intros Hl He.
  match goal with
  | |- ∃ _, mapM ?f ?l = _ ∧ _ =>
      destruct (mapM_returns f l) as [ys [Hys Hlen]];
        [|exists ys; split; [done|]; rewrite Hlen; unfold range; by rewrite length_seq]
  end.
  intros i Hi. apply range_below in Hi.
  destruct (list_index_lt texts i) as [t ->]; [lia|].
  destruct (list_index_lt labels i) as [l ->]; [lia|].
  destruct (list_index_lt extracts i) as [e ->]; [lia|].
  by eexists.
Qed.

(** [run_chain] after [_ingest]: it raises what [_preprocess] raises, and
    otherwise returns a result whose [is_stub] is the disjunction the source
    computes. *)
Lemma run_chain_result (self : NewsAdapter) (ticker : string) (wd : Z) (w : World) :
  ∃ items w1,
    _ingest E self ticker wd w = (Returns items, w1)
    ∧ match _preprocess items with
      | Raises e => run_chain E self ticker wd w = (Raises e, w1)
      | Returns texts =>
          ∃ r n,
            run_chain E self ticker wd w = (Returns r, w1)
            ∧ member_len items = Returns n
            ∧ is_stub r = bool_decide (session self = None) || bool_decide (n = 2)
            ∧ length (samples r) = Z.to_nat (Z.min 3 (len texts))
            ∧ result_counts r = counts (summary r)
      end.
Proof.
  destruct (ingest_returns self ticker wd w) as [items [w1 Hi]].
  exists items, w1. split; [done|]. unfold run_chain. py_step. rewrite Hi.
  destruct (_preprocess items) as [texts|e] eqn:Hpre; cbn; [|done].
  assert (∃ n, member_len items = Returns n) as [n Hn].
  { unfold _preprocess in Hpre. destruct (member_iter items) as [l|] eqn:Hl; [|done].
    apply iter_len in Hl. by eexists. }
  destruct (snippets_return (_classify texts) texts 2)
    as [snips Hs]; [unfold _classify; by rewrite length_map|].
  destruct (samples_return texts (_classify texts) (_extract texts))
    as [samples [Hsa Hlen]];
    [unfold _classify; by rewrite length_map|unfold _extract; by rewrite length_map|].
  unfold _summarize. py_step. rewrite Hs. cbn. rewrite Hsa. cbn. rewrite Hn.
  destruct (session self) as [s|]; cbn; eexists _, n; (split; [reflexivity|]); cbn;
    split_and!; try done.
Qed.

(** C6.  [_ingest] always returns; whenever [run_chain] returns a result,
    the result's [is_stub] is true exactly when the adapter has no session
    or what [_ingest] handed over has length two, so a live reply of exactly
    two articles, received over an existing session, is flagged as stub as
    well.  [run_chain] does return when [_ingest] hands over a list of
    objects, and in particular when there is no session; it raises what
    [_preprocess] raises otherwise. *)
Theorem run_chain_is_stub (self : NewsAdapter) (ticker : string) (wd : Z) (w : World) :
  ∃ items w1,
    _ingest E self ticker wd w = (Returns items, w1)
    ∧ (∀ r w2, run_chain E self ticker wd w = (Returns r, w2) →
         (is_stub r = true ↔ session self = None ∨ member_len items = Returns 2))
    ∧ (list_of_objects items →
         ∃ r w2, run_chain E self ticker wd w = (Returns r, w2))
    ∧ (session self = None →
         ∃ r w2, run_chain E self ticker wd w = (Returns r, w2) ∧ is_stub r = true)
    ∧ (∀ e, _preprocess items = Raises e →
         fst (run_chain E self ticker wd w) = Raises e)
    ∧ (∀ a b, session self ≠ None →
         articles_of (requests_get E (trace w) (ingest_request self ticker))
         = Returns (pylist [a; b]) →
         items = pylist [a; b]
         ∧ ∃ r w2, run_chain E self ticker wd w = (Returns r, w2) ∧ is_stub r = true).
Proof.
  destruct (run_chain_result self ticker wd w) as (items & w1 & Hi & Hrun).
  exists items, w1. split; [done|].
  assert (Hobjects : ∀ l, items = pylist l →
            ∃ r, run_chain E self ticker wd w = (Returns r, w1)
                 ∧ is_stub r = bool_decide (session self = None)
                               || bool_decide (len l = 2)).
  { intros l ->. rewrite preprocess_pylist in Hrun.
    destruct Hrun as (r & n & Hr & Hn & Hs & _). exists r. split; [done|].
    unfold pylist in Hn. simpl in Hn. injection Hn as <-.
    by rewrite length_map in Hs. }
  split_and!.
  - intros r w2 Hr. destruct (_preprocess items) as [texts|e]; [|by rewrite Hrun in Hr].
    destruct Hrun as (r' & n & Hr' & Hn & Hs & _).
    rewrite Hr' in Hr. injection Hr as <- <-.
    rewrite Hs, Hn, orb_true_iff, !bool_decide_eq_true.
    split; (intros [?|?]; [by left|right; congruence]).
  - intros [l Hl]. destruct (Hobjects l Hl) as (r & Hr & _). by exists r, w1.
  - intros Hsess. pose proof (ingest_cases self ticker wd w) as Hcase.
    rewrite Hsess in Hcase.
    edestruct get_stub_data_returns as (a & b & Hstub). rewrite Hstub, Hi in Hcase.
    injection Hcase as -> _.
    destruct (Hobjects [a; b] eq_refl) as (r & Hr & Hs). exists r, w1.
    split; [done|]. rewrite Hs. by rewrite bool_decide_eq_true_2.
  - intros e He. rewrite He in Hrun. by rewrite Hrun.
  - intros a b Hsess Hlive.
    pose proof (ingest_cases self ticker wd w) as Hcase.
    destruct (session self) as [s|]; [|done].
    cbv zeta in Hcase. rewrite Hlive in Hcase. destruct Hcase as (n & _ & Hcase).
    rewrite Hi in Hcase. injection Hcase as -> _.
    split; [done|].
    destruct (Hobjects [a; b] eq_refl) as (r & Hr & Hs). exists r, w1.
    split; [done|]. rewrite Hs. apply orb_true_iff. right. by apply bool_decide_eq_true.
Qed.

End NewsPipeline.

(** A live reply of two articles over an existing session. *)
Lemma run_chain_is_stub_witness :
  ∃ r,
    fst (News.run_chain
           (Scenario.serving
              (Scenario.ok_reply "articles"
                 [Scenario.article "Shares surge"; Scenario.article "Probe widens"])
              (Raises Scenario.down))
           Scenario.news_with_key "AAPL" 7 Scenario.w0) = Returns r
    ∧ News.is_stub r = true.
Proof.
  destruct (run_chain_is_stub
              (Scenario.serving
                 (Scenario.ok_reply "articles"
                    [Scenario.article "Shares surge"; Scenario.article "Probe widens"])
                 (Raises Scenario.down))
              Scenario.news_with_key "AAPL" 7 Scenario.w0)
    as (items & w1 & _ & _ & _ & _ & _ & Hlive).
  destruct (Hlive (Scenario.article "Shares surge") (Scenario.article "Probe widens"))
    as (_ & r & w2 & Hrun & Hstub); [discriminate|reflexivity|].
  exists r. by rewrite Hrun.
Defined.

(** Offline, the two stub articles are labelled positive and negative. *)
Example offline_chain_counts :
  ∃ r,
    fst (News.run_chain Scenario.offline Scenario.news_without_key "AAPL" 7 Scenario.w0)
    = Returns r
    ∧ News.result_counts r !! "positive" = Some 1
    ∧ News.result_counts r !! "negative" = Some 1
    ∧ News.result_counts r !! "mixed" = Some 0
    ∧ News.result_counts r !! "neutral" = Some 0
    ∧ map News.sentiment (News.samples r) = ["positive"; "negative"]
    ∧ News.is_stub r = true.
Proof. eexists. split; [vm_compute; reflexivity|]. by split_and!. Qed.

(** A reply whose article list holds something that is not an object: the
    list passes [_ingest], and [run_chain] raises. *)
Example malformed_article_raises :
  fst (News.run_chain
         (Scenario.serving
            (Scenario.reply_with "articles"
               (MItems [IDict (Scenario.article "Shares surge"); IOther KNone]))
            (Raises Scenario.down))
         Scenario.news_with_key "AAPL" 7 Scenario.w0)
  = Raises {| exn_type := "AttributeError";
              exn_msg := "'NoneType' object has no attribute 'get'" |}.
Proof. reflexivity. Qed.

(** Amounts of money are found in the normalized text. *)
Example extract_money :
  News._extract ["raised $ 12.5 and $3. then $x $45.67.8 $  9"]
  = [{["$ 12.5"; "$3"; "$45.67"]}].
Proof. by vm_compute. Qed.

Example sanitize_ticker : Yahoo._sanitize_ticker "  $msft " = "MSFT".
Proof. reflexivity. Qed.

(** ** The health check of the API adapters (base.py) *)

Section HealthCheck.
Import Base.
Context {S : Type} `{APIAdapter S} (E : Env).

(** C7.  For every API adapter class and every object of it whose API key is
    absent ([None] or empty), [_run_health_check] returns [False] after the
    first step: the object is then unhealthy with the message
    "No <variable> found in environment", which names the environment
    variable; the only effects are four [print] calls, so no request leaves
    the process and neither the connection step nor the response step (the
    subclass's [_test_api_connection]) runs. *)
Theorem health_check_without_key (self : S) (w : World) :
  truthy (api_key (api self)) = false →
  let message := "No " +:+ api_key_env_var (api self) +:+ " found in environment" in
  ∃ self' w' banner,
    _run_health_check E self w = (Returns (false, self'), w')
    ∧ is_healthy self' = false
    ∧ get_health_status E self' !! "healthy" = Some (VBool false)
    ∧ get_health_status E self' !! "message" = Some (VStr message)
    ∧ PyStr.occurs (api_key_env_var (api self)) message
    ∧ trace w' =
        (trace w ++
         [EPrint banner;
          EPrint (nl +:+ "[1/3] Checking API key... ");
          EPrint ("Failed (no API key found)" +:+ nl);
          EPrint (nl +:+ bar +:+ nl +:+ "Health Check Failed - No API key configured"
                  +:+ nl +:+ bar +:+ nl +:+ nl)])%list
    ∧ net_calls (trace w') = net_calls (trace w)
    ∧ rng w' = rng w.
Proof.
  intros Hkey message.
  exists (api_assign_message message (api_assign_passed false self)).
  eexists _, _. split.
  - simpl. unfold API_run_health_check. py_step. rewrite Hkey. cbn.
    unfold api_assign_passed at 1. rewrite api_with_api. cbn. reflexivity.
  - cbn [trace rng].
    unfold is_healthy, get_health_status, api_assign_message, api_assign_passed.
    simpl. rewrite !api_with_api. simpl.
    split_and!.
    + done.
    + by simplify_map_eq.
    + by simplify_map_eq.
    + by exists "No ", " found in environment".
    + rewrite <- !app_assoc. simpl. reflexivity.
    + unfold net_calls. rewrite !omap_app. simpl. by rewrite !app_nil_r.
    + done.
Qed.

End HealthCheck.

(** The news adapter with no key in the environment. *)
Lemma health_check_without_key_witness :
  ∃ self' w',
    Base._run_health_check Scenario.offline Scenario.news_without_key Scenario.w0
    = (Returns (false, self'), w')
    ∧ Base.get_health_status Scenario.offline self' !! "message"
      = Some (VStr "No NEWSAPI_KEY found in environment")
    ∧ net_calls (trace w') = [].
Proof.
  destruct (health_check_without_key Scenario.offline Scenario.news_without_key
              Scenario.w0)
    as (self' & w' & banner & Hrun & _ & _ & Hmsg & _ & _ & Hnet & _); [reflexivity|].
  exists self', w'. split_and!; [exact Hrun|exact Hmsg|exact Hnet].
Defined.

(** The second step short-circuits as well: when the request of the
    connection step raises, the response step does not run. *)
Lemma news_connection_failure (E : Env) (self : News.NewsAdapter) (w : World) (e : Exn) :
  News.session self ≠ None →
  (∀ tr req, requests_get E tr req = Raises e) →
  ∃ self' w' banner,
    News._test_api_connection E self w = (Returns (false, self'), w')
    ∧ Base._health_check_message (Base.api_base (News.news_api self'))
      = "API connection failed: " +:+ exn_type e
    ∧ printed (trace w')
      = (printed (trace w)
         ++ [banner; "[2/3] Testing API connection... ";
             ("Failed (" +:+ exn_type e +:+ ")") +:+ nl;
             nl +:+ bar +:+ nl +:+ "Health Check Failed" +:+ nl +:+ bar +:+ nl +:+ nl])%list.
Proof.
  intros Hsess Hdown. unfold News._test_api_connection, News.session_get. py_step.
  destruct (News.session self); [|done]. cbn. rewrite Hdown. cbn.
  eexists _, _, _. split; [reflexivity|]. split; [done|].
  cbn [trace]. unfold printed. rewrite !omap_app. simpl.
  rewrite <- !app_assoc. reflexivity.
Qed.

Lemma sec_connection_failure (E : Env) (self : SEC.SECAdapter) (w : World) (e : Exn) :
  (∀ tr req, requests_get E tr req = Raises e) →
  ∃ self' w',
    SEC._test_api_connection E self w = (Returns (false, self'), w')
    ∧ Base._health_check_message (Base.api_base (SEC.sec_api self'))
      = "API connection failed: " +:+ exn_type e
    ∧ printed (trace w')
      = (printed (trace w)
         ++ ["[2/3] Testing API connection... ";
             ("Failed (" +:+ exn_type e +:+ ")") +:+ nl;
             nl +:+ bar +:+ nl +:+ "Health Check Failed" +:+ nl +:+ bar +:+ nl +:+ nl])%list.
Proof.
  intros Hdown. unfold SEC._test_api_connection. py_step. cbn. rewrite Hdown. cbn.
  eexists _, _. split; [reflexivity|]. split; [done|].
  cbn [trace]. unfold printed. rewrite !omap_app. simpl.
  rewrite <- !app_assoc. reflexivity.
Qed.

(** ** Filings (sec.py) *)

Section Filings.
Import Base SEC.
Context (E : Env).

Lemma stub_data_length (self : SECAdapter) (ticker : string) (limit : Z) :
  len (_get_stub_data self ticker limit) = Z.max 0 limit.
Proof.
  unfold _get_stub_data, len, range. rewrite length_map, length_seq. lia.
Qed.

Lemma stub_data_flagged (self : SECAdapter) (ticker : string) (limit : Z) :
  Forall (λ f : pydict, f !! "is_stub" = Some (VBool true))
         (_get_stub_data self ticker limit).
Proof.
  unfold _get_stub_data. apply Forall_forall. intros f Hf.
  apply list_elem_of_fmap in Hf as [i [-> _]]. unfold stub_filing. by simplify_map_eq.
Qed.


(** C5.  Without an API key ([None] or empty), [latest_filings] returns,
    without any outbound call, exactly [limit] records for every number of
    records [limit >= 0] (three for [limit = 3]), each the stub record with
    [is_stub] true.  (In general the number of records is [max(0, limit)].) *)
Theorem latest_filings_without_key
    (self : SECAdapter) (ticker : string) (form_types : list string) (limit : Z)
    (w : World) :
  truthy (api_key (sec_api self)) = false →
  ∃ records w',
    latest_filings E self ticker form_types limit w = (Returns records, w')
    ∧ records = _get_stub_data self ticker limit
    ∧ len records = Z.max 0 limit
    ∧ (0 ≤ limit → len records = limit)
    ∧ Forall (λ f : pydict, f !! "is_stub" = Some (VBool true)) records
    ∧ net_calls (trace w') = net_calls (trace w).
Proof.
  intros Hkey. unfold latest_filings. rewrite Hkey. py_step.
  eexists _, _. split; [reflexivity|]. split; [reflexivity|].
  pose proof (stub_data_length self ticker limit) as Hlen.
  split_and!.
  - done.
  - lia.
  - apply stub_data_flagged.
  - cbn. unfold net_calls. rewrite omap_app. simpl. by rewrite app_nil_r.
Qed.

End Filings.

(** Three records are asked for, without a key. *)
Lemma latest_filings_without_key_witness :
  ∃ records w',
    SEC.latest_filings Scenario.offline Scenario.sec_without_key "AAPL"
      ["10-K"; "10-Q"] 3 Scenario.w0 = (Returns records, w')
    ∧ len records = 3.
Proof.
  destruct (latest_filings_without_key Scenario.offline Scenario.sec_without_key
              "AAPL" ["10-K"; "10-Q"] 3 Scenario.w0)
    as (records & w' & Hrun & _ & _ & Hlen & _); [reflexivity|].
  exists records, w'. split; [exact Hrun|]. apply Hlen. lia.
Defined.

(** ** Synthetic prices (yahoo.py) *)

Section StubPrices.
Import Base Yahoo.
Context (E : Env).

Lemma draws_length {A} (draw1 : list Z → A * list Z) (n : nat) (s : list Z) :
  length (fst (draws draw1 n s)) = n.
Proof.
  revert s. induction n as [|n IH]; intros s; simpl; [done|].
  destruct (draw1 s) as [x s1]. specialize (IH s1).
  destruct (draws draw1 n s1) as [xs s2]. simpl in *. by rewrite IH.
Qed.

Lemma cumsum_from_length (acc : float) (xs : list float) :
  length (cumsum_from acc xs) = length xs.
Proof. revert acc. induction xs as [|x xs IH]; intros acc; simpl; [done|]. by rewrite IH. Qed.

Lemma cumsum_length (xs : list float) : length (cumsum xs) = length xs.
Proof. destruct xs; simpl; [done|]. by rewrite cumsum_from_length. Qed.

Lemma stub_prices_length (ticker : string) : length (stub_prices E ticker) = 30%nat.
Proof. unfold stub_prices. by rewrite length_map, cumsum_length, draws_length. Qed.

Lemma stub_volume_length (ticker : string) : length (stub_volume E ticker) = 30%nat.
Proof. unfold stub_volume. by rewrite draws_length. Qed.




End StubPrices.

(** ** Fundamentals (yahoo.py) *)

Section Fundamentals.
Import Base Yahoo.
Context (E : Env).

(** The common body returns [pd.DataFrame()] in stub mode and whenever the
    property read yields no table. *)
Lemma fetch_statement_empty (what : string) (req : string → Request)
    (self : YahooFinanceAdapter) (ticker : string) (w : World) :
  _stub (yahoo_base self) = true ∨ no_table (statement_reply E what req ticker w) →
  fst (fetch_statement E what req self ticker w) = Returns empty_frame.
Proof.
  unfold fetch_statement, statement_reply, no_table. py_step.
  destruct (_stub (yahoo_base self)); [done|].
  intros [?|Hreply]; [done|]. cbn.
  destruct (yf_frame E _ _) as [[df|]|e]; cbn; try done.
  by rewrite Hreply.
Qed.

(** C9, as the code has it.  [fetch_financials], [fetch_balance_sheet] and
    [fetch_cashflow] return the empty table in stub mode and whenever the
    live read raises, is [None] or is empty.  [fetch_info] does not return an
    empty mapping: it returns [{'stub': True, 'ticker': t}] in stub mode,
    [{'error': str(e), 'ticker': t}] when the live read raises, and
    [{'source': 'info'}] when the live read is [None] or empty; none of these
    holds a financial value. *)
Theorem fundamentals_without_data
    (self : YahooFinanceAdapter) (ticker : string) (w : World) :
  let t := _sanitize_ticker ticker in
  (_stub (yahoo_base self) = true
   ∨ no_table (statement_reply E "financials" YfFinancials ticker w) →
   fst (fetch_financials E self ticker w) = Returns empty_frame)
  ∧ (_stub (yahoo_base self) = true
     ∨ no_table (statement_reply E "balance sheet" YfBalanceSheet ticker w) →
     fst (fetch_balance_sheet E self ticker w) = Returns empty_frame)
  ∧ (_stub (yahoo_base self) = true
     ∨ no_table (statement_reply E "cash flow" YfCashflow ticker w) →
     fst (fetch_cashflow E self ticker w) = Returns empty_frame)
  ∧ (_stub (yahoo_base self) = true →
     fetch_info E self ticker w
     = (Returns (<["stub" := VBool true]> (<["ticker" := VStr t]> ∅)), w))
  ∧ (∀ e, _stub (yahoo_base self) = false →
     yf_info E (trace w) (YfInfo t) = Raises e →
     fst (fetch_info E self ticker w)
     = Returns (<["error" := VStr (exn_msg e)]> (<["ticker" := VStr t]> ∅)))
  ∧ (_stub (yahoo_base self) = false →
     yf_info E (trace w) (YfInfo t) = Returns None
     ∨ yf_info E (trace w) (YfInfo t) = Returns (Some ∅) →
     fst (fetch_info E self ticker w) = Returns (<["source" := VStr "info"]> ∅)).
Proof.
  intros t. split_and!.
  - apply fetch_statement_empty.
  - apply fetch_statement_empty.
  - apply fetch_statement_empty.
  - intros Hstub. unfold fetch_info. by rewrite Hstub.
  - intros e Hstub Hreply. unfold fetch_info. rewrite Hstub. py_step.
    fold t. by rewrite Hreply.
  - intros Hstub Hreply. unfold fetch_info. rewrite Hstub. py_step.
    fold t. by destruct Hreply as [-> | ->].
Qed.

End Fundamentals.

(** Every yfinance read fails. *)
Lemma fundamentals_without_data_witness :
  fst (Yahoo.fetch_financials Scenario.offline Scenario.yahoo "$aapl" Scenario.w0)
  = Returns empty_frame
  ∧ fst (Yahoo.fetch_info Scenario.offline Scenario.yahoo "$aapl" Scenario.w0)
    = Returns (<["error" := VStr "unreachable"]> (<["ticker" := VStr "AAPL"]> ∅)).
Proof.
  destruct (fundamentals_without_data Scenario.offline Scenario.yahoo "$aapl" Scenario.w0)
    as (Hfin & _ & _ & _ & Hinfo & _).
  split.
  - apply Hfin. right. exact I.
  - apply (Hinfo Scenario.down); reflexivity.
Defined.

(** C9 as stated fails for [fetch_info]: when the live read raises, the
    mapping returned has two entries. *)
Lemma fetch_info_failure_not_empty :
  ∃ d : pydict,
    fst (Yahoo.fetch_info Scenario.offline Scenario.yahoo "AAPL" Scenario.w0) = Returns d
    ∧ d !! "error" = Some (VStr "unreachable")
    ∧ d !! "ticker" = Some (VStr "AAPL")
    ∧ d ≠ ∅.
Proof.
  eexists. split; [reflexivity|]. split_and!; [done..|].
  intros Hd. apply (f_equal (λ m : pydict, m !! "error")) in Hd. by simplify_map_eq.
Qed.

(** ** Prices (yahoo.py) *)

(** C3 fails where every row of a live table lacks its close: the table is
    not empty, so no fallback is taken; [_normalize_dataframe] then drops
    every row, and [fetch_prices] returns a table without rows, tagged as
    live data. *)
Lemma fetch_prices_all_closes_missing :
  ∃ df w',
    Yahoo.fetch_prices
      (Scenario.serving (Raises Scenario.down) (Returns (Some Scenario.day_without_close)))
      Scenario.yahoo "AAPL" "6mo" "1d" Scenario.w0 = (Returns df, w')
    ∧ frame_empty Scenario.day_without_close = false
    ∧ rows df = []
    ∧ frame_empty df = true
    ∧ columns df = ["Date"; "Open"; "High"; "Low"; "Close"; "Adj Close"; "Volume"; "source"]
    ∧ attrs df !! "is_stub" = Some (VBool false)
    ∧ net_calls (trace w') = [YfHistory "AAPL" "6mo" "1d"].
Proof. eexists _, _. split; [vm_compute; reflexivity|]. by split_and!. Qed.

(** ** The stub flag over the life of an adapter *)

Section StubFlag.
Import Base Lifecycle.
Context (E : Env).

Lemma reading_keeps {A S : Type} (self self' : S) (m : Py A) (w w' : World) :
  reading self m w = (Returns self', w') → self' = self.
Proof.
  unfold reading. py_step. destruct (m w) as [[a|e] w1]; intros Heq; by simplify_eq.
Qed.

(** A property of the object that every call keeps holds after any sequence
    of calls. *)
Lemma calls_keep {S C : Type} (perform : C → S → Py S) (P : S → Prop) :
  (∀ c self w self' w', P self → perform c self w = (Returns self', w') → P self') →
  ∀ cs self w, P self → P (fst (calls perform cs self w)).
Proof.
  intros Hstep cs. induction cs as [|c cs IH]; intros self w HP; simpl; [done|].
  destruct (perform c self w) as [[self'|e] w'] eqn:Hc.
  - apply IH. by eapply Hstep.
  - by apply IH.
Qed.

(** Steps 3 and 4 of the yfinance health check leave [_stub] alone. *)
Lemma check_history_keeps_stub (self : Yahoo.YahooFinanceAdapter)
    (hist : option Frame) (w : World) :
  match fst (Yahoo.check_history E self hist w) with
  | Returns self' => _stub (Yahoo.yahoo_base self') = _stub (Yahoo.yahoo_base self)
  | Raises _ => True
  end.
Proof.
  unfold Yahoo.check_history. py_step.
  destruct hist as [hist|]; [|done].
  destruct (frame_empty hist); [done|]. cbn.
  destruct (format_latest E hist); [|done]. cbn.
  by destruct (bool_decide _).
Qed.

(** The health check of yfinance never raises and leaves [_stub] alone. *)
Lemma yahoo_health_check_keeps_stub (self : Yahoo.YahooFinanceAdapter) (w : World) :
  ∃ ok self' w',
    Yahoo._run_health_check E self w = (Returns (ok, self'), w')
    ∧ _stub (Yahoo.yahoo_base self') = _stub (Yahoo.yahoo_base self).
Proof.
  unfold Yahoo._run_health_check.
  unfold mbind at 1 2 3 4. unfold Py_bind at 1 2 3 4. unfold print at 1 2 3, print_end, emit.
  cbn [fst snd trace rng].
  match goal with
  | |- context [try_except ?body ?handler ?w0] =>
      assert (Htry : ∃ self' w', try_except body handler w0 = (Returns self', w')
                ∧ _stub (Yahoo.yahoo_base self') = _stub (Yahoo.yahoo_base self))
  end.
  { unfold try_except at 1.
    match goal with
    | |- context [match ?m ?w0 with _ => _ end] =>
        destruct (m w0) as [[s|e] w1] eqn:Hb
    end.
    - eexists _, _. split; [reflexivity|].
      revert Hb. py_step.
      destruct (yf_info E _ _) as [[d|]|e]; cbn; try destruct (bool_decide _); cbn;
        (destruct (yf_frame E _ _) as [hist|e'] eqn:Hh; cbn; [|done]);
        match goal with
        | |- Yahoo.check_history E self hist ?w2 = _ → _ =>
            pose proof (check_history_keeps_stub self hist w2) as Hk;
            intros Heq; rewrite Heq in Hk; exact Hk
        end.
    - py_step. by eexists _, _. }
  destruct Htry as (self' & w' & -> & Hstub).
  py_step. destruct (_health_check_passed (Yahoo.yahoo_base self')); cbn; by eexists _, _, _.
Qed.

(** The connection and response steps of the news adapter never raise and
    leave [_stub] alone. *)
Lemma news_test_keeps_stub (self : News.NewsAdapter) (w : World) :
  ∃ ok self' w',
    News._test_api_connection E self w = (Returns (ok, self'), w')
    ∧ _stub (api_base (News.news_api self')) = _stub (api_base (News.news_api self)).
Proof.
  unfold News._test_api_connection, News.session_get. py_step.
  destruct (News.session self); cbn; [|by eexists _, _, _].
  destruct (requests_get E _ _) as [r|e]; cbn; [|by eexists _, _, _].
  destruct (status_error r); cbn; [by eexists _, _, _|].
  destruct (json r) as [body|e]; cbn; [|by eexists _, _, _].
  destruct (body_get body "articles") as [m|e]; cbn; [|by eexists _, _, _].
  destruct (is_list m); cbn; by eexists _, _, _.
Qed.

(** The same for the filings adapter. *)
Lemma sec_test_keeps_stub (self : SEC.SECAdapter) (w : World) :
  ∃ ok self' w',
    SEC._test_api_connection E self w = (Returns (ok, self'), w')
    ∧ _stub (api_base (SEC.sec_api self')) = _stub (api_base (SEC.sec_api self)).
Proof.
  unfold SEC._test_api_connection. py_step. cbn.
  destruct (requests_get E _ _) as [r|e]; cbn; [|by eexists _, _, _].
  destruct (status_error r); cbn; [by eexists _, _, _|].
  destruct (json r) as [body|e]; cbn; [|by eexists _, _, _].
  destruct (body_get body "filings") as [m|e]; cbn; [|by eexists _, _, _].
  destruct (is_list m); cbn; by eexists _, _, _.
Qed.

(** The generic health check of an API adapter never raises and leaves
    [_stub] alone when the subclass's steps do. *)
Lemma api_health_check_keeps_stub {S : Type} `{APIAdapter S} (self : S) (w : World) :
  (∀ self w, ∃ ok self' w',
     _test_api_connection E self w = (Returns (ok, self'), w')
     ∧ _stub (api_base (api self')) = _stub (api_base (api self))) →
  ∃ ok self' w',
    _run_health_check E self w = (Returns (ok, self'), w')
    ∧ _stub (base self') = _stub (base self).
Proof.
  intros Htest. simpl. unfold API_run_health_check. py_step.
  destruct (truthy (api_key (api self))); cbn.
  - apply Htest.
  - eexists _, _, _. split; [reflexivity|].
    unfold api_assign_message, api_assign_passed. by rewrite !api_with_api.
Qed.

(** Construction establishes [_stub = False]. *)
Lemma init_stub_false {S : Type} `{Adapter S} (self0 self : S)
    (health_check fail_on_error : bool) (w w' : World) :
  (∀ self w, ∃ ok self' w',
     _run_health_check E self w = (Returns (ok, self'), w')
     ∧ _stub (base self') = _stub (base self)) →
  Base.__init__ E self0 health_check fail_on_error w = (Returns self, w') →
  _stub (base self) = false.
Proof.
  intros Hcheck. unfold Base.__init__. py_step.
  destruct health_check; cbn.
  - match goal with
    | |- context [_run_health_check E ?s ?w0] =>
        destruct (Hcheck s w0) as (ok & self' & w1 & -> & Hstub)
    end.
    rewrite base_with_base in Hstub. cbn in *.
    destruct (negb ok && fail_on_error); intros Heq; by simplify_eq.
  - intros Heq. simplify_eq. by rewrite base_with_base.
Qed.

Lemma news_health_check_keeps_stub (self : News.NewsAdapter) (w : World) :
  ∃ ok self' w',
    _run_health_check E self w = (Returns (ok, self'), w')
    ∧ _stub (base self') = _stub (base self).
Proof.
  apply (api_health_check_keeps_stub (H := News.news_is_api_adapter)).
  intros s w0. simpl. apply news_test_keeps_stub.
Qed.

Lemma sec_health_check_keeps_stub (self : SEC.SECAdapter) (w : World) :
  ∃ ok self' w',
    _run_health_check E self w = (Returns (ok, self'), w')
    ∧ _stub (base self') = _stub (base self).
Proof.
  apply (api_health_check_keeps_stub (H := SEC.sec_is_api_adapter)).
  intros s w0. simpl. apply sec_test_keeps_stub.
Qed.

Lemma health_status_stub_mode {S : Type} `{Adapter S} (self : S) :
  get_health_status E self !! "stub_mode" = Some (VBool (_stub (base self))).
Proof. unfold get_health_status. by simplify_map_eq. Qed.

Lemma yahoo_call_keeps_stub (c : YahooCall) (self self' : Yahoo.YahooFinanceAdapter)
    (w w' : World) :
  _stub (base self) = false → yahoo_call E c self w = (Returns self', w') →
  _stub (base self') = false.
Proof.
  intros Hs. destruct c; simpl; try (by intros ->%reading_keeps).
  destruct (yahoo_health_check_keeps_stub self w) as (ok & s & w1 & Hrun & Hk).
  py_step. rewrite Hrun. intros Heq. simplify_eq. simpl in *. congruence.
Qed.

Lemma news_call_keeps_stub (c : NewsCall) (self self' : News.NewsAdapter) (w w' : World) :
  _stub (base self) = false → news_call E c self w = (Returns self', w') →
  _stub (base self') = false.
Proof.
  intros Hs. destruct c; simpl; try (by intros ->%reading_keeps).
  destruct (news_health_check_keeps_stub self w) as (ok & s & w1 & Hrun & Hk).
  simpl in Hrun. py_step. rewrite Hrun. intros Heq. simplify_eq. simpl in *. congruence.
Qed.

Lemma sec_call_keeps_stub (c : SECCall) (self self' : SEC.SECAdapter) (w w' : World) :
  _stub (base self) = false → sec_call E c self w = (Returns self', w') →
  _stub (base self') = false.
Proof.
  intros Hs. destruct c; simpl; try (by intros ->%reading_keeps).
  destruct (sec_health_check_keeps_stub self w) as (ok & s & w1 & Hrun & Hk).
  simpl in Hrun. py_step. rewrite Hrun. intros Heq. simplify_eq. simpl in *. congruence.
Qed.

(** C10.  For each of the three adapter classes: once [__init__] has
    returned an object, after any sequence of method calls on it [_stub] is
    still [False], and [get_health_status] reports [stub_mode] false; so the
    branches guarded by [self._stub] are never taken. *)
Theorem stub_flag_stays_false :
  (∀ health_check fail_on_error test_ticker w self w' (cs : list YahooCall),
     Yahoo.__init__ E health_check fail_on_error test_ticker w = (Returns self, w') →
     let self' := fst (calls (yahoo_call E) cs self w') in
     _stub (base self') = false
     ∧ get_health_status E self' !! "stub_mode" = Some (VBool false))
  ∧ (∀ health_check fail_on_error w self w' (cs : list NewsCall),
       News.__init__ E health_check fail_on_error w = (Returns self, w') →
       let self' := fst (calls (news_call E) cs self w') in
       _stub (base self') = false
       ∧ get_health_status E self' !! "stub_mode" = Some (VBool false))
  ∧ (∀ health_check fail_on_error w self w' (cs : list SECCall),
       SEC.__init__ E health_check fail_on_error w = (Returns self, w') →
       let self' := fst (calls (sec_call E) cs self w') in
       _stub (base self') = false
       ∧ get_health_status E self' !! "stub_mode" = Some (VBool false)).
Proof.
  assert (Hfin : ∀ {S : Type} `{Adapter S} (s : S),
            _stub (base s) = false →
            _stub (base s) = false
            ∧ get_health_status E s !! "stub_mode" = Some (VBool false)).
  { intros S ? s Hs. split; [done|]. by rewrite health_status_stub_mode, Hs. }
  split_and!.
  - intros hc foe tt w self w' cs Hinit self'. apply Hfin.
    apply (calls_keep (yahoo_call E) (λ s, _stub (base s) = false)).
    + intros c s1 w1 s2 w2. apply yahoo_call_keeps_stub.
    + eapply init_stub_false; [|exact Hinit].
      apply yahoo_health_check_keeps_stub.
  - intros hc foe w self w' cs Hinit self'. apply Hfin.
    apply (calls_keep (news_call E) (λ s, _stub (base s) = false)).
    + intros c s1 w1 s2 w2. apply news_call_keeps_stub.
    + revert Hinit. unfold News.__init__, API__init__. py_step.
      match goal with
      | |- context [Base.__init__ E ?s0 hc foe w] =>
          destruct (Base.__init__ E s0 hc foe w) as [[s|e] w1] eqn:Hb
      end; intros Heq; simplify_eq.
      simpl. eapply (init_stub_false _ s) in Hb; [exact Hb|].
      apply news_health_check_keeps_stub.
  - intros hc foe w self w' cs Hinit self'. apply Hfin.
    apply (calls_keep (sec_call E) (λ s, _stub (base s) = false)).
    + intros c s1 w1 s2 w2. apply sec_call_keeps_stub.
    + eapply init_stub_false; [|exact Hinit].
      apply sec_health_check_keeps_stub.
Qed.

End StubFlag.

(** A health-checked construction followed by three calls, all offline. *)
Lemma stub_flag_stays_false_witness :
  ∃ self w',
    Yahoo.__init__ Scenario.offline true false "AAPL" Scenario.w0 = (Returns self, w')
    ∧ Base._stub
        (Base.base
           (fst (Lifecycle.calls (Lifecycle.yahoo_call Scenario.offline)
                   [Lifecycle.YFetchPrices "MSFT" "6mo" "1d"; Lifecycle.YRunHealthCheck;
                    Lifecycle.YFetchInfo "MSFT"]
                   self w'))) = false.
Proof.
  destruct (Yahoo.__init__ Scenario.offline true false "AAPL" Scenario.w0)
    as [[self|e] w'] eqn:Hinit; [|discriminate Hinit].
  exists self, w'. split; [reflexivity|].
  destruct (stub_flag_stays_false Scenario.offline) as [Hyahoo _].
  exact (proj1 (Hyahoo true false "AAPL" Scenario.w0 self w' _ Hinit)).
Defined.

(** ** What the fetch operations do when the source is unavailable *)

Section Unavailable.
Import Base.
Context (E : Env).



(** [latest_filings] never raises: with a key it returns the records built
    from the live reply, or the stub records when anything in the [try]
    block raises. *)
Lemma latest_filings_cases (self : SEC.SECAdapter) (ticker : string)
    (form_types : list string) (limit : Z) (w : World) :
  truthy (api_key (SEC.sec_api self)) = true →
  let req := filings_request self ticker form_types limit in
  match filings_of ticker (requests_get E (trace w) req) with
  | Returns filings =>
      SEC.latest_filings E self ticker form_types limit w
      = (Returns filings,
         {| trace := trace w ++ [ENet req;
               ELog "info" ("Fetched " +:+ pretty (len filings)
                            +:+ " SEC filings for " +:+ ticker)];
            rng := rng w |})
  | Raises e =>
      SEC.latest_filings E self ticker form_types limit w
      = (Returns (SEC._get_stub_data self ticker limit),
         {| trace := trace w ++ [ENet req; ELog "error" ("SEC API error: " +:+ exn_msg e)];
            rng := rng w |})
  end.
Proof.
  intros Hkey. unfold SEC.latest_filings, filings_of, member_of, filings_request.
  rewrite Hkey. py_step. cbn.
  destruct (requests_get E (trace w) _) as [r|e]; cbn; [|by rewrite <- app_assoc].
  destruct (status_error r) as [e|]; cbn; [by rewrite <- app_assoc|].
  destruct (json r) as [body|e]; cbn; [|by rewrite <- app_assoc].
  destruct (body_get body "filings") as [member|e]; cbn; [|by rewrite <- app_assoc].
  destruct (member_iter member) as [items|e]; cbn; [|by rewrite <- app_assoc].
  destruct (mapM (SEC.filing_of ticker) items) as [filings|e]; cbn;
    by rewrite <- app_assoc.
Qed.


End Unavailable.



(** * Facts about strings *)

Section Strings.

Lemma str_app_cons (x : ascii) (a b : string) :
  String x a +:+ b = String x (a +:+ b).
Proof. reflexivity. Qed.

Lemma str_app_assoc (a b c : string) : (a +:+ b) +:+ c = a +:+ (b +:+ c).
Proof. induction a as [|x a IH]; [done|]. rewrite !str_app_cons. by f_equal. Qed.

Lemma str_app_nil_r (a : string) : a +:+ "" = a.
Proof. induction a as [|x a IH]; [done|]. rewrite !str_app_cons. by f_equal. Qed.

Lemma str_length_app (a b : string) :
  String.length (a +:+ b) = (String.length a + String.length b)%nat.
Proof.
  induction a as [|x a IH]; [done|]. rewrite str_app_cons. simpl. by f_equal.
Qed.

Lemma rev_app_spec (s acc : string) :
  String.rev_app s acc = String.rev s +:+ acc.
Proof.
  unfold String.rev. revert acc. induction s as [|c s IH]; intros acc; [done|].
  simpl. rewrite (IH (String c acc)), (IH (String c "")).
  by rewrite str_app_assoc.
Qed.

Lemma rev_cons (c : ascii) (s : string) :
  String.rev (String c s) = String.rev s +:+ String c "".
Proof. unfold String.rev at 1. simpl. by rewrite rev_app_spec. Qed.

Lemma rev_app_distr (a b : string) :
  String.rev (a +:+ b) = String.rev b +:+ String.rev a.
Proof.
  induction a as [|c a IH].
  - change ("" +:+ b) with b. change (String.rev "") with "". by rewrite str_app_nil_r.
  - by rewrite str_app_cons, !rev_cons, IH, str_app_assoc.
Qed.

Lemma rev_involutive (s : string) : String.rev (String.rev s) = s.
Proof.
  induction s as [|c s IH]; [done|].
  by rewrite rev_cons, rev_app_distr, IH.
Qed.

Lemma all_chars_app (p : ascii → bool) (a b : string) :
  all_chars p (a +:+ b) = all_chars p a && all_chars p b.
Proof.
  induction a as [|c a IH]; [done|].
  rewrite str_app_cons. simpl. by rewrite IH, andb_assoc.
Qed.

Lemma all_chars_rev (p : ascii → bool) (s : string) :
  all_chars p (String.rev s) = all_chars p s.
Proof.
  induction s as [|c s IH]; [done|].
  rewrite rev_cons, all_chars_app, IH. simpl. by rewrite andb_true_r, andb_comm.
Qed.


Lemma map_chars_app (f : ascii → ascii) (a b : string) :
  PyStr.map_chars f (a +:+ b) = PyStr.map_chars f a +:+ PyStr.map_chars f b.
Proof.
  induction a as [|c a IH]; [done|].
  rewrite str_app_cons. simpl. by rewrite IH.
Qed.

Lemma map_chars_rev (f : ascii → ascii) (s : string) :
  PyStr.map_chars f (String.rev s) = String.rev (PyStr.map_chars f s).
Proof.
  induction s as [|c s IH]; [done|].
  simpl. by rewrite !rev_cons, map_chars_app, IH.
Qed.




Lemma lstrip_split (s : string) :
  ∃ ws, blank ws ∧ s = ws +:+ PyStr.lstrip s.
Proof.
  induction s as [|c s (ws & Hws & IH)]; [by exists ""|].
  simpl. destruct (PyStr.isspace c) eqn:Hc.
  - exists (String c ws). split; [unfold blank; simpl; by rewrite Hc|].
    rewrite str_app_cons. by f_equal.
  - by exists "".
Qed.


Lemma lstrip_solid_head (c : ascii) (s : string) :
  PyStr.isspace c = false → PyStr.lstrip (String c s) = String c s.
Proof. intros Hc. simpl. by rewrite Hc. Qed.


Lemma lstrip_map (f : ascii → ascii) (s : string) :
  (∀ c, PyStr.isspace (f c) = PyStr.isspace c) →
  PyStr.lstrip (PyStr.map_chars f s) = PyStr.map_chars f (PyStr.lstrip s).
Proof.
  intros Hf. induction s as [|c s IH]; [done|].
  simpl. rewrite Hf. by destruct (PyStr.isspace c).
Qed.

Lemma strip_map (f : ascii → ascii) (s : string) :
  (∀ c, PyStr.isspace (f c) = PyStr.isspace c) →
  PyStr.strip (PyStr.map_chars f s) = PyStr.map_chars f (PyStr.strip s).
Proof.
  intros Hf. unfold PyStr.strip.
  by rewrite lstrip_map, <- map_chars_rev, lstrip_map, map_chars_rev.
Qed.

(** [strip] removes a blank prefix and a blank suffix, and what it returns
    has neither. *)
Lemma strip_split (s : string) :
  ∃ a b, blank a ∧ blank b ∧ s = a +:+ PyStr.strip s +:+ b.
Proof.
  destruct (lstrip_split s) as (a & Ha & Hs).
  destruct (lstrip_split (String.rev (PyStr.lstrip s))) as (b & Hb & Hr).
  exists a, (String.rev b). split; [done|]. split.
  - unfold blank. by rewrite all_chars_rev.
  - unfold PyStr.strip. rewrite <- rev_app_distr, <- Hr, rev_involutive. exact Hs.
Qed.





Lemma isspace_lower (c : ascii) :
  PyStr.isspace (PyStr.lower_char c) = PyStr.isspace c.
Proof. by destruct c as [[] [] [] [] [] [] [] []]. Qed.







End Strings.

(** * Construction and health checks *)

Section Construction.
Import Base.
Context (E : Env).

(** [baseDataAdapter.__init__] without a health check returns at once. *)
Lemma base_init_plain {S : Type} `{Adapter S} (self0 : S) (fail_on_error : bool)
    (w : World) :
  Base.__init__ E self0 false fail_on_error w
  = (Returns
       (with_base {| adapter_name := class_name; _stub := false;
                     _init_time := clock E (trace w);
                     _health_check_passed := false;
                     _health_check_message := "Not Tested" |} self0), w).
Proof. unfold Base.__init__. py_step. by destruct w. Qed.

(** X1.  Constructing any of the three adapters without a health check has
    no effect on the process (nothing is printed, logged or requested), and
    the new object is unhealthy with the message "Not Tested", not in stub
    mode, and stamped with the current time.  The news adapter has a session
    exactly when NEWSAPI_KEY is set to a non-empty value, and its [key] is
    that value. *)
Theorem init_without_health_check (fail_on_error : bool) (test_ticker : string)
    (w : World) :
  let status : pydict :=
    <["healthy" := VBool false]>
    (<["message" := VStr "Not Tested"]>
    (<["init_time" := VStr (timestamp_str E (clock E (trace w)))]>
    (<["stub_mode" := VBool false]> ∅))) in
  (∃ self,
     Yahoo.__init__ E false fail_on_error test_ticker w = (Returns self, w)
     ∧ get_health_status E self = status
     ∧ adapter_name (base self) = "YahooFinanceAdapter"
     ∧ Yahoo.test_ticker self = test_ticker)
  ∧ (∃ self,
       News.__init__ E false fail_on_error w = (Returns self, w)
       ∧ get_health_status E self = status
       ∧ adapter_name (base self) = "NewsAdapter"
       ∧ News.key self = getenv E "NEWSAPI_KEY"
       ∧ api_key (News.news_api self) = getenv E "NEWSAPI_KEY"
       ∧ (News.session self = None ↔ truthy (getenv E "NEWSAPI_KEY") = false))
  ∧ (∃ self,
       SEC.__init__ E false fail_on_error w = (Returns self, w)
       ∧ get_health_status E self = status
       ∧ adapter_name (base self) = "SECAdapter"
       ∧ api_key (SEC.sec_api self) = getenv E "SEC_API_KEY"
       ∧ SEC.base_url self = "https://api.sec-api.io").
Proof.
  intros status. split_and!.
  - eexists. unfold Yahoo.__init__. rewrite base_init_plain. by split_and!.
  - eexists. unfold News.__init__, API__init__. py_step. rewrite base_init_plain.
    split; [reflexivity|]. simpl. split_and!; try done.
    by destruct (truthy (getenv E "NEWSAPI_KEY")).
  - eexists. unfold SEC.__init__, API__init__. rewrite base_init_plain. by split_and!.
Qed.

End Construction.

Section HealthChecks.
Import Base.
Context (E : Env).

(** What a run of the yfinance health check does, for every reply. *)
Lemma yahoo_health_check_run (self : Yahoo.YahooFinanceAdapter) (w : World) :
  let t := Yahoo._sanitize_ticker (Yahoo.test_ticker self) in
  ∃ ok self' w',
    Yahoo._run_health_check E self w = (Returns (ok, self'), w')
    ∧ _health_check_passed (Yahoo.yahoo_base self') = ok
    ∧ same_but_health (Yahoo.yahoo_base self) (Yahoo.yahoo_base self')
    ∧ Yahoo.test_ticker self' = Yahoo.test_ticker self
    ∧ new_calls w w' [YfInfo t; YfHistory t "5d" "1d"]
    ∧ rng w' = rng w.
Proof.
  intros t. unfold Yahoo._run_health_check, Yahoo.check_history. fold t. py_step.
  destruct (yf_info E _ _) as [[d|]|e]; cbn [fst snd trace rng];
    [destruct (bool_decide (5 < Z.of_nat (size d))); cbn [fst snd trace rng]|..];
    (destruct (yf_frame E _ _) as [[hist|]|e']; cbn [fst snd trace rng];
     [destruct (frame_empty hist); cbn [negb fst snd trace rng];
      [|destruct (format_latest E hist); cbn [fst snd trace rng];
        [destruct (bool_decide ("Close" ∈ columns hist)); cbn [fst snd trace rng]|]]
     |..]);
    cbn;
    (eexists _, _, _; split; [reflexivity|]; split_and!; try done; by trace_calls).
Qed.

(** What a run of the news adapter's health check does, for every reply. *)
Lemma news_health_check_run (self : News.NewsAdapter) (w : World) :
  ∃ ok self' w' calls,
    _run_health_check E self w = (Returns (ok, self'), w')
    ∧ _health_check_passed (base self') = ok
    ∧ same_but_health (base self) (base self')
    ∧ api_key (News.news_api self') = api_key (News.news_api self)
    ∧ api_key_env_var (News.news_api self') = api_key_env_var (News.news_api self)
    ∧ News.key self' = News.key self
    ∧ News.session self' = News.session self
    ∧ new_calls w w' calls
    ∧ (calls = [] ∨ calls = [news_probe_request self])
    ∧ (truthy (api_key (News.news_api self)) = false ∨ News.session self = None →
       calls = [])
    ∧ rng w' = rng w.
Proof.
  simpl. unfold API_run_health_check.
  cbn [Base._test_api_connection News.news_is_api_adapter].
  unfold News._test_api_connection, News.session_get, news_probe_request.
  py_step. simpl.
  destruct (truthy (api_key (News.news_api self))) eqn:Hkey; cbn.
  2:{ eexists _, _, _, []. split; [reflexivity|].
      split_and!; try done; try (by trace_calls); try (by intros [?|?]); by left. }
  destruct (News.session self) eqn:Hsess; cbn.
  2:{ eexists _, _, _, []. split; [reflexivity|].
      split_and!; try done; try (by trace_calls); try (by intros [?|?]); by left. }
  destruct (requests_get E _ _) as [r|e]; cbn.
  2:{ eexists _, _, _, [_]. split; [reflexivity|].
      split_and!; try done; try (by trace_calls); try (by intros [?|?]); by right. }
  destruct (status_error r); cbn.
  { eexists _, _, _, [_]. split; [reflexivity|].
    split_and!; try done; try (by trace_calls); try (by intros [?|?]); by right. }
  destruct (json r) as [body|e]; cbn.
  2:{ eexists _, _, _, [_]. split; [reflexivity|].
      split_and!; try done; try (by trace_calls); try (by intros [?|?]); by right. }
  destruct (body_get body "articles") as [m|e]; cbn.
  2:{ eexists _, _, _, [_]. split; [reflexivity|].
      split_and!; try done; try (by trace_calls); try (by intros [?|?]); by right. }
  destruct (is_list m); cbn;
    (eexists _, _, _, [_]; split; [reflexivity|];
     split_and!; try done; try (by trace_calls); try (by intros [?|?]); by right).
Qed.

(** What a run of the filings adapter's health check does, for every reply. *)
Lemma sec_health_check_run (self : SEC.SECAdapter) (w : World) :
  ∃ ok self' w' calls,
    _run_health_check E self w = (Returns (ok, self'), w')
    ∧ _health_check_passed (base self') = ok
    ∧ same_but_health (base self) (base self')
    ∧ api_key (SEC.sec_api self') = api_key (SEC.sec_api self)
    ∧ api_key_env_var (SEC.sec_api self') = api_key_env_var (SEC.sec_api self)
    ∧ SEC.base_url self' = SEC.base_url self
    ∧ new_calls w w' calls
    ∧ (calls = [] ∨ calls = [sec_probe_request self])
    ∧ (truthy (api_key (SEC.sec_api self)) = false → calls = [])
    ∧ rng w' = rng w.
Proof.
  simpl. unfold API_run_health_check.
  cbn [Base._test_api_connection SEC.sec_is_api_adapter].
  unfold SEC._test_api_connection, sec_probe_request.
  py_step. simpl.
  destruct (truthy (api_key (SEC.sec_api self))) eqn:Hkey; cbn.
  2:{ eexists _, _, _, []. split; [reflexivity|].
      split_and!; try done; try (by trace_calls); try (by intros [?|?]); by left. }
  destruct (requests_get E _ _) as [r|e]; cbn.
  2:{ eexists _, _, _, [_]. split; [reflexivity|].
      split_and!; try done; try (by trace_calls); try (by intros [?|?]); by right. }
  destruct (status_error r); cbn.
  { eexists _, _, _, [_]. split; [reflexivity|].
    split_and!; try done; try (by trace_calls); try (by intros [?|?]); by right. }
  destruct (json r) as [body|e]; cbn.
  2:{ eexists _, _, _, [_]. split; [reflexivity|].
      split_and!; try done; try (by trace_calls); try (by intros [?|?]); by right. }
  destruct (body_get body "filings") as [m|e]; cbn.
  2:{ eexists _, _, _, [_]. split; [reflexivity|].
      split_and!; try done; try (by trace_calls); try (by intros [?|?]); by right. }
  destruct (is_list m); cbn;
    (eexists _, _, _, [_]; split; [reflexivity|];
     split_and!; try done; try (by trace_calls); try (by intros [?|?]); by right).
Qed.

(** X2.  A health check never raises, whatever the services reply.  It
    returns the verdict it has stored in the object, and changes nothing of
    the object but the two health attributes.  The yfinance check always
    makes exactly two reads, the info and the five-day history of the
    sanitized test ticker; the checks of the news and filings adapters make
    at most one request, the probe with its 10-second timeout, and none when
    the key is absent (for news: or the session).  None of them touches
    numpy's generator. *)
Theorem health_check_runs :
  (∀ self w,
     let t := Yahoo._sanitize_ticker (Yahoo.test_ticker self) in
     ∃ ok self' w',
       _run_health_check E self w = (Returns (ok, self'), w')
       ∧ is_healthy self' = ok
       ∧ same_but_health (base self) (base self')
       ∧ Yahoo.test_ticker self' = Yahoo.test_ticker self
       ∧ new_calls w w' [YfInfo t; YfHistory t "5d" "1d"]
       ∧ rng w' = rng w)
  ∧ (∀ self w,
       ∃ ok self' w' calls,
         _run_health_check E self w = (Returns (ok, self'), w')
         ∧ is_healthy self' = ok
         ∧ same_but_health (base self) (base self')
         ∧ api_key (News.news_api self') = api_key (News.news_api self)
         ∧ api_key_env_var (News.news_api self') = api_key_env_var (News.news_api self)
         ∧ News.key self' = News.key self
         ∧ News.session self' = News.session self
         ∧ new_calls w w' calls
         ∧ (calls = [] ∨ calls = [news_probe_request self])
         ∧ (truthy (api_key (News.news_api self)) = false ∨ News.session self = None →
            calls = [])
         ∧ rng w' = rng w)
  ∧ (∀ self w,
       ∃ ok self' w' calls,
         _run_health_check E self w = (Returns (ok, self'), w')
         ∧ is_healthy self' = ok
         ∧ same_but_health (base self) (base self')
         ∧ api_key (SEC.sec_api self') = api_key (SEC.sec_api self)
         ∧ api_key_env_var (SEC.sec_api self') = api_key_env_var (SEC.sec_api self)
         ∧ SEC.base_url self' = SEC.base_url self
         ∧ new_calls w w' calls
         ∧ (calls = [] ∨ calls = [sec_probe_request self])
         ∧ (truthy (api_key (SEC.sec_api self)) = false → calls = [])
         ∧ rng w' = rng w).
Proof.
  split_and!.
  - intros self w. apply yahoo_health_check_run.
  - intros self w. apply news_health_check_run.
  - intros self w. apply sec_health_check_run.
Qed.


End HealthChecks.

(** An instance: the news adapter without a key makes no request. *)
Lemma health_check_runs_witness :
  ∃ ok self' w',
    Base._run_health_check Scenario.offline Scenario.news_without_key Scenario.w0
    = (Returns (ok, self'), w')
    ∧ Base.is_healthy self' = ok
    ∧ new_calls Scenario.w0 w' [].
Proof.
  destruct (health_check_runs Scenario.offline) as (_ & Hnews & _).
  destruct (Hnews Scenario.news_without_key Scenario.w0)
    as (ok & self' & w' & calls & Hrun & Hok & _ & _ & _ & _ & _ & Hcalls & _ & Hnone & _).
  exists ok, self', w'. split_and!; [done..|].
  rewrite <- (Hnone (or_introl eq_refl)). exact Hcalls.
Defined.

Section ConstructionOutcome.
Import Base.
Context (E : Env).


(** X4.  With the environment variable unset or empty, constructing the news
    or the filings adapter with a health check makes no request.  Under
    [fail_on_error] it raises [RuntimeError] with
    "Health Check failed: No <variable> found in environment"; otherwise it
    returns an unhealthy object with the message
    "No <variable> found in environment" (the news adapter without a
    session). *)
Theorem construction_without_key (w : World) :
  (truthy (getenv E "NEWSAPI_KEY") = false →
   ∃ w',
     new_calls w w' []
     ∧ News.__init__ E true true w
       = (Raises {| exn_type := "RuntimeError";
                    exn_msg := "Health Check failed: No NEWSAPI_KEY found in environment" |},
          w')
     ∧ ∃ self,
         News.__init__ E true false w = (Returns self, w')
         ∧ is_healthy self = false
         ∧ _health_check_message (base self) = "No NEWSAPI_KEY found in environment"
         ∧ News.session self = None)
  ∧ (truthy (getenv E "SEC_API_KEY") = false →
     ∃ w',
       new_calls w w' []
       ∧ SEC.__init__ E true true w
         = (Raises {| exn_type := "RuntimeError";
                      exn_msg := "Health Check failed: No SEC_API_KEY found in environment" |},
            w')
       ∧ ∃ self,
           SEC.__init__ E true false w = (Returns self, w')
           ∧ is_healthy self = false
           ∧ _health_check_message (base self) = "No SEC_API_KEY found in environment").
Proof.
  split.
  - intros Hkey. unfold News.__init__, API__init__, Base.__init__.
    cbn [_run_health_check api_is_adapter]. unfold API_run_health_check.
    py_step. simpl. rewrite Hkey. cbn.
    eexists. split_and!; [|reflexivity|eexists; split; [reflexivity|done]].
    by trace_calls.
  - intros Hkey. unfold SEC.__init__, API__init__, Base.__init__.
    cbn [_run_health_check api_is_adapter]. unfold API_run_health_check.
    py_step. simpl. rewrite Hkey. cbn.
    eexists. split_and!; [|reflexivity|eexists; split; [reflexivity|done]].
    by trace_calls.
Qed.

End ConstructionOutcome.

(** An instance: no variable is set. *)
Lemma construction_without_key_witness :
  ∃ w',
    fst (News.__init__ Scenario.offline true true Scenario.w0)
    = Raises {| exn_type := "RuntimeError";
                exn_msg := "Health Check failed: No NEWSAPI_KEY found in environment" |}
    ∧ new_calls Scenario.w0 w' [].
Proof.
  destruct (construction_without_key Scenario.offline Scenario.w0) as [Hnews _].
  destruct (Hnews eq_refl) as (w' & Hcalls & Hraise & _).
  exists w'. split; [by rewrite Hraise|exact Hcalls].
Defined.

Section Verdicts.
Import Base.
Context (E : Env).

(** X5.  With a key (and, for news, a session), the health check of an API
    adapter sends exactly one probe and classifies the reply: an exception
    of the request or of [raise_for_status] gives
    "API connection failed: <type>"; a body that cannot be parsed or is not
    an object gives "Response parsing failed: <type>"; a member that is
    present but not a list gives "Unexpected response format"; a list, or a
    missing member, gives the healthy verdict. *)
Theorem api_probe_verdicts (reply : outcome Response) :
  (∀ self w,
     truthy (api_key (News.news_api self)) = true →
     News.session self ≠ None →
     (∀ tr, requests_get E tr (news_probe_request self) = reply) →
     ∃ self' w',
       _run_health_check E self w
       = (Returns (fst (probe_verdict "articles" "News API operational" reply), self'), w')
       ∧ _health_check_message (base self')
         = snd (probe_verdict "articles" "News API operational" reply)
       ∧ new_calls w w' [news_probe_request self])
  ∧ (∀ self w,
       truthy (api_key (SEC.sec_api self)) = true →
       (∀ tr, requests_get E tr (sec_probe_request self) = reply) →
       ∃ self' w',
         _run_health_check E self w
         = (Returns (fst (probe_verdict "filings" "SEC API operational" reply), self'), w')
         ∧ _health_check_message (base self')
           = snd (probe_verdict "filings" "SEC API operational" reply)
         ∧ new_calls w w' [sec_probe_request self]).
Proof.
  split.
  - intros self w Hkey Hsess Hreply. simpl. unfold API_run_health_check.
    cbn [Base._test_api_connection News.news_is_api_adapter].
    unfold News._test_api_connection, News.session_get, news_probe_request in *.
    unfold probe_verdict. py_step. simpl. rewrite Hkey. cbn.
    destruct (News.session self); [|done]. cbn. rewrite Hreply.
    destruct reply as [r|e]; cbn.
    2:{ eexists _, _. split; [reflexivity|]. split; [done|by trace_calls]. }
    destruct (status_error r); cbn.
    { eexists _, _. split; [reflexivity|]. split; [done|by trace_calls]. }
    destruct (json r) as [body|e]; cbn.
    2:{ eexists _, _. split; [reflexivity|]. split; [done|by trace_calls]. }
    destruct (body_get body "articles") as [m|e]; cbn.
    2:{ eexists _, _. split; [reflexivity|]. split; [done|by trace_calls]. }
    destruct (is_list m); cbn;
      (eexists _, _; split; [reflexivity|]; split; [done|by trace_calls]).
  - intros self w Hkey Hreply. simpl. unfold API_run_health_check.
    cbn [Base._test_api_connection SEC.sec_is_api_adapter].
    unfold SEC._test_api_connection, sec_probe_request in *.
    unfold probe_verdict. py_step. simpl. rewrite Hkey. cbn. rewrite Hreply.
    destruct reply as [r|e]; cbn.
    2:{ eexists _, _. split; [reflexivity|]. split; [done|by trace_calls]. }
    destruct (status_error r); cbn.
    { eexists _, _. split; [reflexivity|]. split; [done|by trace_calls]. }
    destruct (json r) as [body|e]; cbn.
    2:{ eexists _, _. split; [reflexivity|]. split; [done|by trace_calls]. }
    destruct (body_get body "filings") as [m|e]; cbn.
    2:{ eexists _, _. split; [reflexivity|]. split; [done|by trace_calls]. }
    destruct (is_list m); cbn;
      (eexists _, _; split; [reflexivity|]; split; [done|by trace_calls]).
Qed.

End Verdicts.

(** An instance: a reply whose [articles] member is a number. *)
Lemma api_probe_verdicts_witness :
  ∃ self' w',
    Base._run_health_check
      (Scenario.serving
         (Returns {| status_error := None;
                     json := Returns (BObject {[ "articles" := MInt 3 ]}) |})
         (Raises Scenario.down))
      Scenario.news_with_key Scenario.w0
    = (Returns (false, self'), w')
    ∧ Base._health_check_message (Base.base self') = "Unexpected response format".
Proof.
  destruct (api_probe_verdicts
              (Scenario.serving
                 (Returns {| status_error := None;
                             json := Returns (BObject {[ "articles" := MInt 3 ]}) |})
                 (Raises Scenario.down))
              (Returns {| status_error := None;
                          json := Returns (BObject {[ "articles" := MInt 3 ]}) |}))
    as [Hnews _].
  destruct (Hnews Scenario.news_with_key Scenario.w0) as (self' & w' & Hrun & Hmsg & _);
    [reflexivity|discriminate|reflexivity|].
  by exists self', w'.
Defined.

Section YahooVerdicts.
Import Base.
Context (E : Env).

(** X6.  The verdict of the yfinance health check depends on the five-day
    history alone; the info read only changes what is printed.  A history
    read that raises gives "Health check failed: <type>: <first 100
    characters of the text>"; [None] or an empty table gives
    "Empty data returned"; a table with a Close column whose last row can be
    shown gives the healthy verdict "Yahoo Finance operational". *)
Theorem yahoo_health_verdicts (self : Yahoo.YahooFinanceAdapter) (w : World)
    (reply : outcome (option Frame)) :
  (∀ tr, yf_frame E tr
           (YfHistory (Yahoo._sanitize_ticker (Yahoo.test_ticker self)) "5d" "1d")
         = reply) →
  ∃ ok self' w',
    _run_health_check E self w = (Returns (ok, self'), w')
    ∧ match reply with
      | Raises e =>
          ok = false
          ∧ _health_check_message (base self')
            = "Health check failed: " +:+ exn_type e +:+ ": "
              +:+ PyStr.slice_to 100 (exn_msg e)
      | Returns None =>
          ok = false ∧ _health_check_message (base self') = "Empty data returned"
      | Returns (Some hist) =>
          if frame_empty hist then
            ok = false ∧ _health_check_message (base self') = "Empty data returned"
          else
            match format_latest E hist with
            | Raises e =>
                ok = false
                ∧ _health_check_message (base self')
                  = "Health check failed: " +:+ exn_type e +:+ ": "
                    +:+ PyStr.slice_to 100 (exn_msg e)
            | Returns _ =>
                "Close" ∈ columns hist →
                ok = true
                ∧ _health_check_message (base self') = "Yahoo Finance operational"
            end
      end.
Proof.
  intros Hreply. simpl.
  unfold Yahoo._run_health_check, Yahoo.check_history. py_step.
  destruct (yf_info E _ _) as [[d|]|e]; cbn [fst snd trace rng];
    [destruct (bool_decide (5 < Z.of_nat (size d))); cbn [fst snd trace rng]|..];
    rewrite Hreply;
    (destruct reply as [[hist|]|e']; cbn [fst snd trace rng];
     [destruct (frame_empty hist); cbn [negb fst snd trace rng];
      [|destruct (format_latest E hist); cbn [fst snd trace rng];
        [destruct (bool_decide ("Close" ∈ columns hist)) eqn:Hclose;
         cbn [fst snd trace rng]|]]
     |..]);
    cbn;
    (eexists _, _, _; split; [reflexivity|]; try done;
     intros Hin; apply bool_decide_eq_false in Hclose; done).
Qed.

End YahooVerdicts.

(** An instance: a one-row history with a Close column. *)
Lemma yahoo_health_verdicts_witness :
  ∃ self' w',
    Base._run_health_check
      (Scenario.serving (Raises Scenario.down)
         (Returns (Some Scenario.day_without_close)))
      Scenario.yahoo Scenario.w0
    = (Returns (true, self'), w')
    ∧ Base._health_check_message (Base.base self') = "Yahoo Finance operational".
Proof.
  destruct (yahoo_health_verdicts
              (Scenario.serving (Raises Scenario.down)
                 (Returns (Some Scenario.day_without_close)))
              Scenario.yahoo Scenario.w0
              (Returns (Some Scenario.day_without_close)))
    as (ok & self' & w' & Hrun & Hverdict); [reflexivity|].
  simpl in Hverdict. destruct Hverdict as [-> Hmsg]; [set_solver|].
  by exists self', w'.
Defined.

(** * Live results *)

Section LiveFilings.
Import Base SEC.
Context (E : Env).

(** [mapM] relates every element to its result. *)
Lemma mapM_Forall2 {A B} (f : A → outcome B) (l : list A) (ys : list B) :
  mapM f l = Returns ys → Forall2 (λ x y, f x = Returns y) l ys.
Proof.
  revert ys. induction l as [|x l IH]; intros ys; simpl.
  - intros [= <-]. constructor.
  - destruct (f x) as [y|e] eqn:Hx; simpl; [|done].
    destruct (mapM f l) as [ys'|e]; simpl; [|done].
    intros [= <-]. constructor; [done|]. by apply IH.
Qed.

(** [mapM] raises as soon as one element does. *)
Lemma mapM_raises {A B} (f : A → outcome B) (l : list A) (x : A) (e : Exn) :
  x ∈ l → f x = Raises e → ∃ e', mapM f l = Raises e'.
Proof.
  intros Hx Hf. induction l as [|y l IH]; [by apply elem_of_nil in Hx|].
  simpl. apply elem_of_cons in Hx as [<-|Hx].
  - rewrite Hf. by eexists.
  - destruct (f y); simpl; [|by eexists].
    destruct (IH Hx) as [e' ->]. by eexists.
Qed.

(** The record of a filing whose [filedAt] is a string or missing. *)
Lemma filing_of_dated (ticker : string) (f : pydict) :
  (f !! "filedAt" = None ∨ ∃ s, f !! "filedAt" = Some (VStr s)) →
  ∃ d,
    filing_of ticker (IDict f)
    = Returns (<["form" := default (VStr "") (f !! "formType")]>
              (<["filingDate" := VStr d]>
              (<["text" := VStr (py_str (default (VStr ticker) (f !! "companyName"))
                                 +:+ " filed "
                                 +:+ py_str (default (VStr "") (f !! "formType"))
                                 +:+ ".")]>
              (<["url" := default (VStr "") (f !! "linkToFilingDetails")]>
              (<["is_stub" := VBool false]> ∅)))))
    ∧ d = PyStr.slice_to 10 (default "" (f !! "filedAt" ≫= λ v,
                                          match v with VStr s => Some s | _ => None end))
    ∧ (String.length d ≤ 10)%nat.
Proof.
  assert (Hlen : ∀ n s, (String.length (PyStr.slice_to n s) ≤ n)%nat).
  { induction n as [|n IH]; intros [|c s]; simpl; try lia. specialize (IH s). lia. }
  unfold filing_of. cbn [item_dict mbind outcome_bind].
  intros [Hd|[s Hd]]; rewrite Hd; simpl.
  - eexists. split; [reflexivity|]. split; [done|simpl; lia].
  - eexists. split; [reflexivity|]. split; [done|exact (Hlen 10%nat s)].
Qed.

(** The records built from dated filings. *)
Lemma filings_of_dated (ticker : string) (items records : list pydict) :
  Forall (λ f : pydict,
            f !! "filedAt" = None ∨ ∃ s, f !! "filedAt" = Some (VStr s)) items →
  mapM (filing_of ticker) (map IDict items) = Returns records →
  Forall2 (λ (f r : pydict),
             r !! "is_stub" = Some (VBool false)
             ∧ r !! "form" = Some (default (VStr "") (f !! "formType"))
             ∧ r !! "url" = Some (default (VStr "") (f !! "linkToFilingDetails"))
             ∧ ∃ d, r !! "filingDate" = Some (VStr d) ∧ (String.length d ≤ 10)%nat)
          items records.
Proof.
  intros Hdated Hm. apply mapM_Forall2 in Hm.
  apply Forall2_fmap_l in Hm.
  induction Hm as [|f r items records Hf _ IH]; [constructor|].
  apply Forall_cons in Hdated as [Hd Hdated].
  constructor; [|by apply IH].
  destruct (filing_of_dated ticker f Hd) as (d & Hr & _ & Hlen).
  change (filing_of ticker (IDict f) = Returns r) in Hf.
  rewrite Hr in Hf. injection Hf as <-.
  split_and!; try by simplify_map_eq.
  exists d. split; [by simplify_map_eq|done].
Qed.

(** X7.  With a key, when the live reply carries a list of filings whose
    [filedAt] members are strings (or missing), [latest_filings] sends one
    request and returns one record per filing, in the order of the reply:
    each has [is_stub] false, the form type and link of its filing, and a
    [filingDate] of at most ten characters.  The number of records is the
    number of filings in the reply, whatever [limit] is. *)
Theorem latest_filings_live (self : SECAdapter) (ticker : string)
    (form_types : list string) (limit : Z) (w : World) (items : list pydict) :
  truthy (api_key (sec_api self)) = true →
  member_of "filings"
    (requests_get E (trace w) (filings_request self ticker form_types limit))
  = Returns (pylist items) →
  Forall (λ f : pydict,
            f !! "filedAt" = None ∨ ∃ s, f !! "filedAt" = Some (VStr s)) items →
  ∃ records w',
    latest_filings E self ticker form_types limit w = (Returns records, w')
    ∧ length records = length items
    ∧ Forall2 (λ (f r : pydict),
                 r !! "is_stub" = Some (VBool false)
                 ∧ r !! "form" = Some (default (VStr "") (f !! "formType"))
                 ∧ r !! "url" = Some (default (VStr "") (f !! "linkToFilingDetails"))
                 ∧ ∃ d, r !! "filingDate" = Some (VStr d) ∧ (String.length d ≤ 10)%nat)
              items records
    ∧ new_calls w w' [filings_request self ticker form_types limit].
Proof.
  intros Hkey Hlive Hdated.
  pose proof (latest_filings_cases E self ticker form_types limit w Hkey) as H.
  cbv zeta in H. unfold filings_of in H. rewrite Hlive in H. simpl in H.
  destruct (mapM_returns (filing_of ticker) (map IDict items)) as [records [Hm Hlen]].
  { intros x Hx. apply list_elem_of_fmap in Hx as (f & -> & Hf).
    rewrite Forall_forall in Hdated.
    destruct (filing_of_dated ticker f (Hdated f Hf)) as (d & -> & _). by eexists. }
  rewrite Hm in H. exists records. eexists. split; [exact H|].
  split; [by rewrite Hlen, length_map|]. split; [|by trace_calls].
  by apply (filings_of_dated ticker).
Qed.

(** X8.  One bad element spoils the whole reply: when the list of filings
    holds an element that is not an object, or a filing whose [filedAt] is
    [null], a boolean or an integer, the loop raises inside the [try] block,
    and [latest_filings] returns the stub records instead of any live
    record. *)
Theorem latest_filings_bad_date (self : SECAdapter) (ticker : string)
    (form_types : list string) (limit : Z) (w : World) (items : list Item) :
  truthy (api_key (sec_api self)) = true →
  member_of "filings"
    (requests_get E (trace w) (filings_request self ticker form_types limit))
  = Returns (MItems items) →
  (∃ k, IOther k ∈ items)
  ∨ (∃ f v, IDict f ∈ items ∧ f !! "filedAt" = Some v
            ∧ (v = VNone ∨ (∃ b, v = VBool b) ∨ ∃ n, v = VInt n)) →
  fst (latest_filings E self ticker form_types limit w)
  = Returns (_get_stub_data self ticker limit)
  ∧ len (_get_stub_data self ticker limit) = Z.max 0 limit.
Proof.
  intros Hkey Hlive Hbad.
  pose proof (latest_filings_cases E self ticker form_types limit w Hkey) as H.
  cbv zeta in H. unfold filings_of in H. rewrite Hlive in H. simpl in H.
  assert (∃ x e, x ∈ items ∧ filing_of ticker x = Raises e) as (x & e & Hx & He).
  { destruct Hbad as [[k Hk]|(f & v & Hf & Hv & Hkind)].
    - by eexists (IOther k), _.
    - exists (IDict f). unfold filing_of. cbn [item_dict mbind outcome_bind].
      rewrite Hv. simpl.
      destruct Hkind as [->|[[b ->]|[n ->]]]; by eexists. }
  destruct (mapM_raises (filing_of ticker) items x e Hx He) as [e' He'].
  rewrite He' in H. rewrite H. split; [done|apply stub_data_length].
Qed.

End LiveFilings.

(** An instance: one dated filing, and a limit of zero. *)
Lemma latest_filings_live_witness :
  ∃ records,
    fst (SEC.latest_filings
           (Scenario.serving
              (Scenario.ok_reply "filings"
                 [<["filedAt" := VStr "2025-01-02T10:00:00-05:00"]> ∅])
              (Raises Scenario.down))
           Scenario.sec_with_key "AAPL" ["10-K"] 0 Scenario.w0) = Returns records
    ∧ length records = 1%nat.
Proof.
  destruct (latest_filings_live
              (Scenario.serving
                 (Scenario.ok_reply "filings"
                    [<["filedAt" := VStr "2025-01-02T10:00:00-05:00"]> ∅])
                 (Raises Scenario.down))
              Scenario.sec_with_key "AAPL" ["10-K"] 0 Scenario.w0
              [<["filedAt" := VStr "2025-01-02T10:00:00-05:00"]> ∅])
    as (records & w' & Hrun & Hlen & _); [reflexivity|reflexivity| |].
  - constructor; [|constructor]. right. by eexists.
  - exists records. by rewrite Hrun.
Defined.

(** An instance: the second filing has a null date. *)
Lemma latest_filings_bad_date_witness :
  fst (SEC.latest_filings
         (Scenario.serving
            (Scenario.ok_reply "filings"
               [<["filedAt" := VStr "2025-01-02"]> ∅; <["filedAt" := VNone]> ∅])
            (Raises Scenario.down))
         Scenario.sec_with_key "AAPL" ["10-K"] 3 Scenario.w0)
  = Returns (SEC._get_stub_data Scenario.sec_with_key "AAPL" 3).
Proof.
  apply (latest_filings_bad_date
           (Scenario.serving
              (Scenario.ok_reply "filings"
                 [<["filedAt" := VStr "2025-01-02"]> ∅; <["filedAt" := VNone]> ∅])
              (Raises Scenario.down))
           Scenario.sec_with_key "AAPL" ["10-K"] 3 Scenario.w0
           [IDict (<["filedAt" := VStr "2025-01-02"]> ∅);
            IDict (<["filedAt" := VNone]> ∅)]);
    [reflexivity|reflexivity|].
  right. exists (<["filedAt" := VNone]> ∅), VNone.
  split; [by repeat constructor|]. split; [reflexivity|by left].
Defined.

Section LiveFundamentals.
Import Base Yahoo.
Context (E : Env).

(** X9.  Outside stub mode, when the info read returns a mapping (or
    [None]), [fetch_info] makes that one read and returns the mapping with
    the entry ['source': 'info'] set, replacing a [source] entry the
    provider may have sent; every other entry is the provider's. *)
Theorem fetch_info_live (self : YahooFinanceAdapter) (ticker : string) (w : World)
    (info : option pydict) :
  _stub (yahoo_base self) = false →
  yf_info E (trace w) (YfInfo (_sanitize_ticker ticker)) = Returns info →
  ∃ d w',
    fetch_info E self ticker w = (Returns d, w')
    ∧ d !! "source" = Some (VStr "info")
    ∧ (∀ k, k ≠ "source" → d !! k = default ∅ info !! k)
    ∧ new_calls w w' [YfInfo (_sanitize_ticker ticker)].
Proof.
  intros Hstub Hinfo. unfold fetch_info. rewrite Hstub. py_step. rewrite Hinfo.
  cbn. eexists _, _. split; [reflexivity|]. split_and!.
  - by simplify_map_eq.
  - intros k Hk. by rewrite lookup_insert_ne.
  - by trace_calls.
Qed.

(** The common body returns a live table as it is. *)
Lemma fetch_statement_live (what : string) (req : string → Request)
    (self : YahooFinanceAdapter) (ticker : string) (w : World) (df : Frame) :
  _stub (yahoo_base self) = false →
  statement_reply E what req ticker w = Returns (Some df) →
  frame_empty df = false →
  ∃ w',
    fetch_statement E what req self ticker w = (Returns df, w')
    ∧ new_calls w w' [req (_sanitize_ticker ticker)].
Proof.
  unfold fetch_statement, statement_reply. intros Hstub Hreply Hne. rewrite Hstub.
  py_step. cbv zeta in Hreply. rewrite Hreply. cbn. rewrite Hne. cbn.
  eexists. split; [reflexivity|]. by trace_calls.
Qed.

(** X10.  Outside stub mode, a non-empty statement that yfinance returns is
    handed on unchanged by [fetch_financials], [fetch_balance_sheet] and
    [fetch_cashflow]: the same columns, rows and attributes, with no
    provenance column or flag added; each makes exactly one read. *)
Theorem statements_live (self : YahooFinanceAdapter) (ticker : string) (w : World)
    (df : Frame) :
  _stub (yahoo_base self) = false →
  frame_empty df = false →
  (statement_reply E "financials" YfFinancials ticker w = Returns (Some df) →
   ∃ w', fetch_financials E self ticker w = (Returns df, w')
         ∧ new_calls w w' [YfFinancials (_sanitize_ticker ticker)])
  ∧ (statement_reply E "balance sheet" YfBalanceSheet ticker w = Returns (Some df) →
     ∃ w', fetch_balance_sheet E self ticker w = (Returns df, w')
           ∧ new_calls w w' [YfBalanceSheet (_sanitize_ticker ticker)])
  ∧ (statement_reply E "cash flow" YfCashflow ticker w = Returns (Some df) →
     ∃ w', fetch_cashflow E self ticker w = (Returns df, w')
           ∧ new_calls w w' [YfCashflow (_sanitize_ticker ticker)]).
Proof.
  intros Hstub Hne. split_and!; intros Hreply; by apply fetch_statement_live.
Qed.

End LiveFundamentals.

(** An instance: an info mapping that has a [source] of its own. *)
Lemma fetch_info_live_witness :
  ∃ d,
    fst (Yahoo.fetch_info
           (Cases.informed (Some (<["source" := VStr "yahoo"]>
                                  (<["trailingPE" := VInt 30]> ∅))))
           Scenario.yahoo "aapl" Scenario.w0) = Returns d
    ∧ d !! "source" = Some (VStr "info")
    ∧ d !! "trailingPE" = Some (VInt 30).
Proof.
  edestruct (fetch_info_live) as (d & w' & Hrun & Hsource & Hrest & _);
    [| |exists d; split; [by rewrite Hrun|split; [exact Hsource|]]].
  - reflexivity.
  - reflexivity.
  - by rewrite Hrest.
Defined.

(** An instance: a one-row income statement. *)
Lemma statements_live_witness :
  fst (Yahoo.fetch_financials
         (Scenario.serving (Raises Scenario.down)
            (Returns (Some Scenario.day_without_close)))
         Scenario.yahoo "aapl" Scenario.w0)
  = Returns Scenario.day_without_close.
Proof.
  destruct (statements_live
              (Scenario.serving (Raises Scenario.down)
                 (Returns (Some Scenario.day_without_close)))
              Scenario.yahoo "aapl" Scenario.w0 Scenario.day_without_close)
    as (Hfin & _); [reflexivity|reflexivity|].
  destruct Hfin as (w' & Hrun & _); [reflexivity|]. by rewrite Hrun.
Defined.

Section CallBounds.
Import Base.
Context (E : Env).





End CallBounds.


(** * The classification pipeline *)

Section Pipeline.
Import News.

Lemma occurs_extend (k t pre post : string) :
  PyStr.occurs k t → PyStr.occurs k (pre +:+ t +:+ post).
Proof.
  intros (a & b & ->). exists (pre +:+ a), (b +:+ post).
  by rewrite !str_app_assoc.
Qed.

Lemma has_cue_extend (cues : list string) (t pre post : string) :
  has_cue cues t → has_cue cues (pre +:+ t +:+ post).
Proof. intros (k & Hk & Ho). exists k. split; [done|by apply occurs_extend]. Qed.

(** The label in terms of the presence of cues. *)
Lemma classify_text_label_iff (t : string) :
  (classify_text t = "mixed" ↔ has_cue POS t ∧ has_cue NEG t)
  ∧ (classify_text t = "positive" ↔ has_cue POS t ∧ ¬ has_cue NEG t)
  ∧ (classify_text t = "negative" ↔ ¬ has_cue POS t ∧ has_cue NEG t)
  ∧ (classify_text t = "neutral" ↔ ¬ has_cue POS t ∧ ¬ has_cue NEG t).
Proof.
  rewrite <- !any_contains_false, <- !any_contains. unfold classify_text.
  destruct (PyStr.any _ POS), (PyStr.any _ NEG); simpl; split_and!; split;
    (done || by intros [??]).
Qed.

(** X12.  Labels are monotone in the text: embedding a text in a longer one
    (anything before, anything after) never removes a cue.  A mixed text
    stays mixed, a positive text becomes positive or mixed, a negative text
    becomes negative or mixed, and a text that is neutral has only neutral
    parts. *)
Theorem classify_text_monotone (t pre post : string) :
  let t' := pre +:+ t +:+ post in
  (classify_text t = "mixed" → classify_text t' = "mixed")
  ∧ (classify_text t = "positive" →
     classify_text t' = "positive" ∨ classify_text t' = "mixed")
  ∧ (classify_text t = "negative" →
     classify_text t' = "negative" ∨ classify_text t' = "mixed")
  ∧ (classify_text t' = "neutral" → classify_text t = "neutral").
Proof.
  intros t'.
  destruct (classify_text_label_iff t) as (Hm & Hp & Hn & Hz).
  destruct (classify_text_label_iff t') as (Hm' & Hp' & Hn' & Hz').
  pose proof (has_cue_extend POS t pre post) as HP.
  pose proof (has_cue_extend NEG t pre post) as HN. fold t' in HP, HN.
  assert (Hdec : ∀ cues, has_cue cues t' ∨ ¬ has_cue cues t').
  { intros cues. rewrite <- any_contains_false, <- any_contains.
    destruct (PyStr.any _ cues); auto. }
  split_and!.
  - rewrite Hm, Hm'. intros [??]. auto.
  - rewrite Hp, Hp', Hm'. intros [??]. destruct (Hdec NEG); auto.
  - rewrite Hn, Hn', Hm'. intros [??]. destruct (Hdec POS); auto.
  - rewrite Hz, Hz'. intros [??]. split; auto.
Qed.

End Pipeline.

(** An instance: a negative headline inside a longer text. *)
Lemma classify_text_monotone_witness :
  News.classify_text "record year, then a recall of the model" = "negative"
  ∨ News.classify_text "record year, then a recall of the model" = "mixed".
Proof.
  apply (classify_text_monotone "recall" "record year, then a " " of the model").
  reflexivity.
Defined.

(** * Summaries and samples (news.py) *)

Section Summaries.
Import News.
Context (E : Env).

(** A loop over [range] that reads position [i] of a list is a map over a
    slice of the list, as long as the range stays within the list. *)
Lemma mapM_seq_lookup {A B} (l : list A) (g : A → B) (f : nat → outcome B) (s n : nat) :
  (∀ i x, l !! i = Some x → f i = Returns (g x)) →
  (s + n ≤ length l)%nat →
  mapM f (seq s n) = Returns (map g (take n (drop s l))).
Proof.
  intros Hf. revert s. induction n as [|n IH]; intros s Hn; [done|].
  destruct (lookup_lt_is_Some_2 l s) as [x Hx]; [lia|].
  cbn [seq mapM]. rewrite (Hf s x Hx).
  rewrite (drop_S l x s Hx). cbn. by rewrite IH by lia.
Qed.

(** The loop raises what its first failing index raises. *)
Lemma mapM_seq_raises {B} (f : nat → outcome B) (e : Exn) (s m n : nat) :
  (∀ i, (s ≤ i < s + m)%nat → ∃ y, f i = Returns y) →
  f (s + m)%nat = Raises e → (m < n)%nat →
  mapM f (seq s n) = Raises e.
Proof.
  revert s n. induction m as [|m IH]; intros s n Hok Hbad Hn.
  - destruct n as [|n]; [lia|]. cbn [seq mapM].
    rewrite Nat.add_0_r in Hbad. by rewrite Hbad.
  - destruct n as [|n]; [lia|]. cbn [seq mapM].
    destruct (Hok s) as [y ->]; [lia|]. cbn.
    rewrite (IH (S s) n); [done| |by replace (S s + m)%nat with (s + S m)%nat by lia|lia].
    intros i Hi. apply Hok. lia.
Qed.

(** [min(k, len(l))] elements of [l] are its first [k]. *)
Lemma take_min_len {A} (l : list A) (k : Z) :
  take (Z.to_nat (Z.min k (len l))) l = take (Z.to_nat k) l.
Proof.
  unfold len. destruct (decide (k ≤ Z.of_nat (length l))) as [Hk|Hk].
  - by rewrite Z.min_l by lia.
  - rewrite Z.min_r by lia. rewrite Nat2Z.id, firstn_all.
    by rewrite take_ge by lia.
Qed.

(** X13.  [_summarize] with labels and texts of any lengths: with
    [n = max(0, min(k, len(texts)))], the call raises [IndexError] exactly
    when there are fewer than [n] labels; otherwise it returns [n] snippets,
    the [i]th built from the [i]th label and the first 100 characters of the
    [i]th text.  A [k] that is zero or negative gives no snippets. *)
Theorem summarize_snippets (labels texts : list string) (k : Z) :
  let n := Z.to_nat (Z.min k (len texts)) in
  if decide (n ≤ length labels)%nat then
    ∃ s,
      _summarize labels texts k = Returns s
      ∧ snippets s = map (λ '(l, t), snippet l t) (take n (zip labels texts))
      ∧ length (snippets s) = n
  else _summarize labels texts k = Raises index_error.
Proof.
  intros n. unfold _summarize, range. fold n.
  assert (Hn : (n ≤ length texts)%nat) by (unfold n, len; lia).
  case_decide as Hl.
  - rewrite (mapM_seq_lookup (zip labels texts) (λ '(l, t), snippet l t)).
    + cbn. eexists. split; [reflexivity|]. cbn. rewrite drop_0. split; [done|].
      rewrite length_map, length_take, length_zip. lia.
    + intros i [l t] Hi.
      apply lookup_zip_with_Some in Hi as (l' & t' & [= <- <-] & Hl' & Ht').
      unfold list_index. by rewrite Hl', Ht'.
    + rewrite length_zip. lia.
  - rewrite (mapM_seq_raises _ index_error 0 (length labels) n); [done| |..].
    + intros i Hi.
      destruct (list_index_lt labels i) as [l ->]; [lia|].
      destruct (list_index_lt texts i) as [t ->]; [lia|]. by eexists.
    + cbn [Nat.add]. unfold list_index. by rewrite (lookup_ge_None_2 labels (length labels)) by done.
    + lia.
Qed.

(** The labels and the entities of a text are found under its own index. *)
Lemma samples_are_first (texts : list string) (k : Z) :
  mapM (λ i,
          t ← list_index texts i;
          l ← list_index (_classify texts) i;
          e ← list_index (_extract texts) i;
          mret {| text := t; sentiment := l; entities := e |})
       (range (Z.min k (len texts)))
  = Returns (map sample_of (take (Z.to_nat k) texts)).
Proof.
  unfold range. rewrite (mapM_seq_lookup texts sample_of).
  - by rewrite drop_0, take_min_len.
  - intros i t Hi. unfold list_index, _classify, _extract.
    change (map ?h ?l) with (h <$> l). rewrite !list_lookup_fmap, Hi. done.
  - unfold len. lia.
Qed.

Lemma snippets_are_first (texts : list string) (k : Z) :
  mapM (λ i,
          l ← list_index (_classify texts) i;
          t ← list_index texts i;
          mret ("- " +:+ l +:+ ": " +:+ PyStr.slice_to 100 t +:+ "..."))
       (range (Z.min k (len texts)))
  = Returns (map (λ t, snippet (classify_text t) t) (take (Z.to_nat k) texts)).
Proof.
  unfold range. rewrite (mapM_seq_lookup texts (λ t, snippet (classify_text t) t)).
  - by rewrite drop_0, take_min_len.
  - intros i t Hi. unfold list_index, _classify.
    change (map ?h ?l) with (h <$> l). rewrite !list_lookup_fmap, Hi. done.
  - unfold len. lia.
Qed.

(** X14.  [run_chain] as a composition, on a list of objects that [_ingest]
    hands over (which is what it hands over when there is no session):
    after [_ingest] it contacts nothing and logs nothing more; its samples
    are the first three normalized texts in the order of the articles, each
    with the label and the amounts of money of that very text; the snippets
    of its summary are built from the first two; and the four counts add up
    to the number of articles. *)
Theorem run_chain_composition (self : NewsAdapter) (ticker : string) (wd : Z) (w : World) :
  ∃ items w1,
    _ingest E self ticker wd w = (Returns items, w1)
    ∧ (session self = None → list_of_objects items)
    ∧ ∀ l, items = pylist l →
        ∃ r,
          run_chain E self ticker wd w = (Returns r, w1)
          ∧ type_ r = "news"
          ∧ samples r = map sample_of (take 3 (map normalized l))
          ∧ snippets (summary r)
            = map (λ t, snippet (classify_text t) t) (take 2 (map normalized l))
          ∧ result_counts r = counts (summary r)
          ∧ ∃ a b c d,
              result_counts r !! "mixed" = Some a
              ∧ result_counts r !! "positive" = Some b
              ∧ result_counts r !! "negative" = Some c
              ∧ result_counts r !! "neutral" = Some d
              ∧ a + b + c + d = len l.
Proof.
  destruct (ingest_returns E self ticker wd w) as [items [w1 Hi]].
  exists items, w1. split; [done|]. split.
  { intros Hsess. pose proof (ingest_cases E self ticker wd w) as Hcase.
    rewrite Hsess, Hi in Hcase.
    edestruct get_stub_data_returns as (a & b & Hstub). rewrite Hstub in Hcase.
    injection Hcase as -> _. by exists [a; b]. }
  intros l ->.
  pose proof (preprocess_pylist l) as Hpre.
  set (texts := map normalized l) in *.
  assert (Hlen : len texts = len l) by (unfold len, texts; by rewrite length_map).
  clearbody texts.
  pose proof (snippets_are_first texts 2) as Hs.
  pose proof (samples_are_first texts 3) as Hsa.
  unfold run_chain. py_step. rewrite Hi, Hpre. cbn.
  unfold _summarize. py_step. rewrite Hs. cbn. rewrite Hsa. cbn.
  assert (Hsum : count "mixed" (_classify texts) + count "positive" (_classify texts)
                 + count "negative" (_classify texts) + count "neutral" (_classify texts)
                 = len l).
  { rewrite counts_add_up.
    - rewrite <- Hlen. unfold _classify, len. by rewrite !length_map.
    - unfold _classify. apply Forall_forall. intros x Hx.
      apply list_elem_of_fmap in Hx as [t [-> _]]. apply classify_text_label. }
  destruct (session self); cbn; (eexists; split; [reflexivity|]); cbn;
    (split_and!; try done);
    eexists _, _, _, _; (split_and!; [by simplify_map_eq..|exact Hsum]).
Qed.

End Summaries.

(** * The synthetic table (yahoo.py) *)

Section StubTable.
Import Base Yahoo.
Context (E : Env).

(** The dates of the synthetic rows, read off the table. *)
Lemma tagged_rows_dates (idx : list Z) (prices : list float) (volume : list Z) :
  length idx = length prices → length prices = length volume →
  map (λ row, cells_at "Date" stub_columns (snd row)) (tagged_rows idx prices volume)
  = map (λ d, [CDate d]) idx.
Proof.
  intros Hp Hv. unfold tagged_rows, stub_rows.
  change (map ?h ?l) with (h <$> l).
  rewrite <- list_fmap_compose, fmap_imap.
  rewrite (imap_ext _ (const (λ '(d, (p, v)), [CDate d]))).
  - rewrite imap_const.
    rewrite <- (fst_zip idx (zip prices volume)) at 2
      by (rewrite length_zip; lia).
    rewrite <- list_fmap_compose. apply list_fmap_ext.
    by intros i [d [p v]] _.
  - by intros i [d [p v]] _.
Qed.

(** X15.  [_get_stub_data] beyond its prices: the call returns a table whose
    Date column holds 30 timestamps one day apart, the last one being the
    clock reading; the table carries [stub_reason] exactly when [error] is a
    non-empty string; the call contacts nothing and logs one warning; and it
    leaves numpy's global generator in a state that depends on the ticker
    alone, so a seed the caller had set before is lost. *)
Theorem stub_table_dates (self : YahooFinanceAdapter) (ticker : string)
    (error : option string) (w : World) :
  ∃ df dates,
    _get_stub_data E self ticker error w
    = (Returns df,
       {| trace := trace w ++ [ELog "warning" (stub_warning ticker error)];
          rng := stub_rng E ticker |})
    ∧ column "Date" df = map (λ d, [CDate d]) dates
    ∧ length dates = 30%nat
    ∧ last dates = Some (clock E (trace w))
    ∧ (∀ i d d', dates !! i = Some d → dates !! S i = Some d' → d' = d + day)
    ∧ attrs df !! "stub_reason" = (if truthy error then VStr <$> error else None)
    ∧ index_name df = None.
Proof.
  unfold _get_stub_data, np_random_seed, np_random_normal, np_random_randint, with_rng.
  py_step.
  set (idx := map (λ i : nat, clock E (trace w) - (29 - Z.of_nat i) * day) (seq 0 30)).
  assert (Hidx : length idx = 30%nat) by done.
  rewrite Hidx.
  pose proof (stub_prices_length E ticker) as Hpl.
  pose proof (stub_volume_length E ticker) as Hvl.
  unfold stub_rng, stub_prices, stub_volume in *. cbv zeta in *.
  set (s0 := np_seed E (hash E ticker `mod` 2 ^ 32)) in *.
  destruct (draws (np_normal1 E 0.001%float 0.02%float) 30 s0) as [steps s1].
  cbn [fst snd rng trace] in *.
  destruct (draws (np_randint1 E 1000000 100000000) 30 s1) as [volume s2].
  cbn [fst snd rng trace] in *.
  set (prices := map _ (cumsum steps)) in *.
  set (df0 := set_column _ _ _).
  assert (Hdates : column "Date" df0 = map (λ d, [CDate d]) idx).
  { unfold column. change (columns df0) with stub_columns.
    change (rows df0) with (tagged_rows idx prices volume).
    apply tagged_rows_dates; lia. }
  assert (Hstep : ∀ i d d', idx !! i = Some d → idx !! S i = Some d' → d' = d + day).
  { intros i d d'. unfold idx. change (map ?h ?l) with (h <$> l).
    rewrite !list_lookup_fmap.
    destruct (seq 0 30 !! i) as [j|] eqn:Hi; [|done].
    destruct (seq 0 30 !! S i) as [j'|] eqn:Hi'; [|done].
    apply lookup_seq in Hi as [-> _]. apply lookup_seq in Hi' as [-> _].
    cbn. intros [= <-] [= <-]. lia. }
  assert (Hlast : last idx = Some (clock E (trace w))).
  { unfold idx. cbn. f_equal. lia. }
  destruct error as [[|c s]|]; cbn [truthy stub_warning default];
    eexists _, idx; (split; [reflexivity|]); split_and!; try done;
    by simplify_map_eq.
Qed.

End StubTable.

(** * Normalized price tables (yahoo.py) *)

Section Normalize.
Import Base Yahoo.
Context (E : Env).

Global Instance date_le_trans (cols : list string) : Transitive (date_le cols).
Proof. intros r1 r2 r3. unfold date_le. lia. Qed.

Global Instance date_le_total (cols : list string) : Total (date_le cols).
Proof. intros r1 r2. unfold date_le. lia. Qed.

Lemma StronglySorted_filter {A} (R : relation A) (P : A → Prop)
    `{∀ x, Decision (P x)} (l : list A) :
  StronglySorted R l → StronglySorted R (filter P l).
Proof.
  induction 1 as [|x l Hl IH Hx]; [constructor|].
  rewrite filter_cons. case_decide; [|done].
  constructor; [done|]. apply Forall_forall. intros y Hy.
  apply list_elem_of_filter in Hy as [_ Hy].
  by eapply Forall_forall in Hx.
Qed.

Lemma Forall_filter_keeps {A} (Q P : A → Prop) `{∀ x, Decision (P x)} (l : list A) :
  Forall Q l → Forall Q (filter P l).
Proof.
  intros Hl. apply Forall_forall. intros y Hy.
  apply list_elem_of_filter in Hy as [_ Hy]. by eapply Forall_forall in Hl.
Qed.

Lemma cells_at_update_at (c : string) (f : Cell → Cell) (cols : list string) (r : list Cell) :
  cells_at c cols (update_at c f cols r) = map f (cells_at c cols r).
Proof.
  revert r. induction cols as [|c' cols IH]; intros [|x r]; simpl; try done.
  case_decide; simpl; by rewrite IH.
Qed.

Lemma cells_at_update_other (c c0 : string) (f : Cell → Cell) (cols : list string)
    (r : list Cell) :
  c ≠ c0 → cells_at c cols (update_at c0 f cols r) = cells_at c cols r.
Proof.
  intros Hc. revert r. induction cols as [|c' cols IH]; intros [|x r]; simpl; try done.
  repeat case_decide; simpl; try congruence; by rewrite IH.
Qed.


(** A coerced date that is not null is a timestamp. *)
Lemma coerce_not_null (x : Cell) :
  isnull (to_datetime_coerce E x) = false → ∃ t, to_datetime_coerce E x = CDate t.
Proof.
  destruct x; simpl; try done; try (by eexists);
    repeat case_match; simpl; try done; by eexists.
Qed.

(** What [reset_index] returns. *)
Lemma reset_index_returns (df df1 : Frame) :
  reset_index df = Returns df1 →
  index_name df1 = None ∧ attrs df1 = attrs df
  ∧ length (columns df1) = S (length (columns df))
  ∧ length (rows df1) = length (rows df)
  ∧ (rectangular df → rectangular df1).
Proof.
  unfold reset_index. case_bool_decide; [done|]. intros [= <-]. simpl.
  split_and!; try done; [by rewrite length_imap|].
  unfold rectangular. simpl. intros Hr.
  apply Forall_forall. intros row Hrow.
  apply elem_of_lookup_imap in Hrow as (i & [ix r] & -> & Hi). simpl.
  f_equal. apply list_elem_of_lookup_2 in Hi.
  by apply (proj1 (Forall_forall _ _) Hr (ix, r)).
Qed.

(** The rows that [dropna] keeps have no null under the label. *)
Lemma dropna_no_null (c : string) (df : Frame) :
  every_cell (λ x, isnull x = false) c (dropna c df).
Proof.
  unfold every_cell, dropna. simpl. apply Forall_forall. intros row Hrow.
  apply list_elem_of_filter in Hrow as [Hrow _].
  apply Forall_forall. intros x Hx.
  rewrite forallb_forall in Hrow. apply list_elem_of_In in Hx.
  specialize (Hrow x Hx). by destruct (isnull x).
Qed.

(** X16.  What [_normalize_dataframe] guarantees about a table it returns:
    the index has become one more column, the attributes are untouched and
    no row is added; under the label Date, if there is one, every cell is a
    timestamp and the rows are in ascending order of it; under the label
    Close, if there is one, no cell is null. *)
Theorem normalize_dataframe_invariants (df df' : Frame) (ticker : string) :
  _normalize_dataframe E df ticker = Returns df' →
  index_name df' = None
  ∧ attrs df' = attrs df
  ∧ length (columns df') = S (length (columns df))
  ∧ (length (rows df') ≤ length (rows df))%nat
  ∧ ("Date" ∈ columns df' →
       every_cell (λ x, ∃ t, x = CDate t) "Date" df'
       ∧ StronglySorted (date_le (columns df')) (rows df'))
  ∧ ("Close" ∈ columns df' → every_cell (λ x, isnull x = false) "Close" df').
Proof.
  unfold _normalize_dataframe.
  destruct (reset_index df) as [df1|e] eqn:Hreset; simpl; [|done].
  apply reset_index_returns in Hreset as (Hix & Hattrs & Hcols & Hrows & _).
  set (cols := rename_columns _ (columns df1)).
  assert (Hlen : length cols = length (columns df1)).
  { unfold cols, rename_columns. by rewrite length_map. }
  set (dated := map (λ '(ix, r), (ix, update_at "Date" (to_datetime_coerce E) cols r))
                    (rows df1)).
  set (kept := filter (λ row : Cell * list Cell,
                         forallb (λ x, negb (isnull x)) (cells_at "Date" cols (snd row))
                         = true) dated).
  assert (Hdated : Forall (λ row, Forall (λ x, ∃ t, x = CDate t)
                                     (cells_at "Date" cols (snd row))) kept).
  { apply Forall_forall. intros row Hrow.
    apply list_elem_of_filter in Hrow as [Hnn Hrow].
    apply list_elem_of_fmap in Hrow as ([ix r] & -> & _). simpl in *.
    rewrite cells_at_update_at in *. apply Forall_forall. intros x Hx.
    apply list_elem_of_fmap in Hx as (y & -> & Hy).
    rewrite forallb_forall in Hnn.
    apply coerce_not_null.
    specialize (Hnn (to_datetime_coerce E y)).
    rewrite negb_true_iff in Hnn. apply Hnn.
    apply in_map. by apply list_elem_of_In. }
  assert (Hkept_len : (length kept ≤ length (rows df))%nat).
  { unfold kept. etrans; [apply length_filter|]. unfold dated.
    by rewrite length_map, Hrows. }
  destruct (bool_decide ("Date" ∈ cols)) eqn:Hdate; simpl.
  - destruct (bool_decide (length (filter (λ c, c = "Date") cols) = 1%nat)); simpl; [|done].
    destruct (bool_decide ("Close" ∈ cols)) eqn:Hclose; simpl; intros [= <-]; simpl;
      fold dated; fold kept.
    + split_and!; try done.
      * lia.
      * etrans; [apply length_filter|]. by rewrite merge_sort_Permutation.
      * intros _. split.
        -- unfold every_cell. simpl. apply Forall_filter_keeps.
           by rewrite merge_sort_Permutation.
        -- apply StronglySorted_filter, StronglySorted_merge_sort; apply _.
      * intros _.
        apply (dropna_no_null "Close"
                 {| index_name := index_name df1; columns := cols;
                    rows := merge_sort (date_le cols) kept; attrs := attrs df1 |}).
    + split_and!; try done.
      * lia.
      * by rewrite merge_sort_Permutation.
      * intros _. split.
        -- unfold every_cell. simpl. by rewrite merge_sort_Permutation.
        -- apply StronglySorted_merge_sort; apply _.
      * intros Hc. apply bool_decide_eq_false in Hclose. done.
  - apply bool_decide_eq_false in Hdate.
    destruct (bool_decide ("Close" ∈ cols)) eqn:Hclose; simpl; intros [= <-]; simpl.
    + split_and!; try done.
      * lia.
      * etrans; [apply length_filter|]. lia.
      * intros _.
        apply (dropna_no_null "Close"
                 {| index_name := index_name df1; columns := cols;
                    rows := rows df1; attrs := attrs df1 |}).
    + split_and!; try done.
      * lia.
      * lia.
      * intros Hc. apply bool_decide_eq_false in Hclose. done.
Qed.






End Normalize.

(** Three days out of order, one without a close: two rows are left, in
    order. *)
Lemma normalize_dataframe_invariants_witness :
  ∃ df',
    Yahoo._normalize_dataframe Scenario.offline Cases.unsorted_days "AAPL" = Returns df'
    ∧ (length (rows df') ≤ 3)%nat
    ∧ ("Date" ∈ columns df' →
         every_cell (λ x, ∃ t, x = CDate t) "Date" df'
         ∧ StronglySorted (date_le (columns df')) (rows df')).
Proof.
  eexists. split; [vm_compute; reflexivity|].
  pose proof (normalize_dataframe_invariants Scenario.offline Cases.unsorted_days _ "AAPL"
                ltac:(vm_compute; reflexivity)) as (_ & _ & _ & Hlen & Hdate & _).
  split; [exact Hlen|exact Hdate].
Defined.


(** * Ticker symbols (yahoo.py) *)

Section Tickers.
Import Yahoo.





End Tickers.


(** Only one dollar sign is removed, and only surrounding whitespace. *)
Example sanitize_ticker_once :
  Yahoo._sanitize_ticker "$$brk b" = "$BRK B"
  ∧ Yahoo._sanitize_ticker "$ msft" = " MSFT".
Proof. by split. Qed.

(** * Cues in normalized article text (news.py) *)

Section Cues.
Import News.
Context (E : Env).

Lemma str_app_nil_l (s : string) : "" +:+ s = s.
Proof. reflexivity. Qed.

Lemma occurs_cons (k t : string) (c : ascii) :
  PyStr.occurs k t → PyStr.occurs k (String c t).
Proof. intros (a & b & ->). exists (String c a), b. by rewrite str_app_cons. Qed.

Lemma occurs_prefix (k r : string) : PyStr.occurs k (k +:+ r).
Proof. by exists "", r. Qed.

Lemma occurs_app_l (k a b : string) : PyStr.occurs k a → PyStr.occurs k (a +:+ b).
Proof.
  intros Ho. apply (occurs_extend k a "" b) in Ho. by rewrite str_app_nil_l in Ho.
Qed.

Lemma occurs_app_r (k a b : string) : PyStr.occurs k b → PyStr.occurs k (a +:+ b).
Proof.
  intros Ho. apply (occurs_extend k b a "") in Ho. by rewrite str_app_nil_r in Ho.
Qed.

Lemma occurs_map (f : ascii → ascii) (k s : string) :
  PyStr.occurs k s → PyStr.occurs (PyStr.map_chars f k) (PyStr.map_chars f s).
Proof.
  intros (a & b & ->). exists (PyStr.map_chars f a), (PyStr.map_chars f b).
  by rewrite !map_chars_app.
Qed.

Lemma occurs_rev (k s : string) :
  PyStr.occurs k s → PyStr.occurs (String.rev k) (String.rev s).
Proof.
  intros (a & b & ->). exists (String.rev b), (String.rev a).
  by rewrite !rev_app_distr, str_app_assoc.
Qed.

Lemma solid_head (c : ascii) (k : string) :
  solid (String c k) → PyStr.isspace c = false ∧ solid k.
Proof.
  unfold solid. simpl. intros [Hc Hk]%andb_true_iff.
  by apply negb_true_iff in Hc.
Qed.

Lemma rev_not_nil (k : string) : k ≠ "" → String.rev k ≠ "".
Proof.
  destruct k as [|c k]; [done|]. intros _ Hr.
  apply (f_equal String.length) in Hr. rewrite rev_cons, str_length_app in Hr.
  simpl in Hr. lia.
Qed.

(** A word without whitespace survives [lstrip], [strip] and the collapsing
    of whitespace. *)
Lemma occurs_lstrip (k s : string) :
  solid k → k ≠ "" → PyStr.occurs k s → PyStr.occurs k (PyStr.lstrip s).
Proof.
  intros Hk Hne (pre & post & ->).
  induction pre as [|x pre IH].
  - rewrite str_app_nil_l. destruct k as [|c k]; [done|].
    apply solid_head in Hk as [Hc _].
    rewrite str_app_cons, lstrip_solid_head by done.
    rewrite <- str_app_cons. apply occurs_prefix.
  - rewrite str_app_cons. simpl. destruct (PyStr.isspace x); [done|].
    apply occurs_cons. by exists pre, post.
Qed.

Lemma occurs_strip (k s : string) :
  solid k → k ≠ "" → PyStr.occurs k s → PyStr.occurs k (PyStr.strip s).
Proof.
  intros Hk Hne Ho. unfold PyStr.strip.
  rewrite <- (rev_involutive k). apply occurs_rev.
  apply occurs_lstrip; [unfold solid; by rewrite all_chars_rev|by apply rev_not_nil|].
  apply occurs_rev. by apply occurs_lstrip.
Qed.

Lemma collapse_solid (k post : string) (b : bool) :
  solid k → ∃ b', PyStr.collapse_ws_from b (k +:+ post) = k +:+ PyStr.collapse_ws_from b' post.
Proof.
  revert b. induction k as [|c k IH]; intros b Hk; [by exists b|].
  apply solid_head in Hk as [Hc Hk]. rewrite str_app_cons. simpl. rewrite Hc.
  destruct (IH false Hk) as [b' ->]. exists b'. by rewrite str_app_cons.
Qed.

Lemma occurs_collapse (k s : string) (b : bool) :
  solid k → PyStr.occurs k s → PyStr.occurs k (PyStr.collapse_ws_from b s).
Proof.
  intros Hk (pre & post & ->). revert b.
  induction pre as [|x pre IH]; intros b.
  - rewrite str_app_nil_l. destruct (collapse_solid k post b Hk) as [b' ->].
    apply occurs_prefix.
  - rewrite str_app_cons. simpl.
    destruct (PyStr.isspace x); [destruct b|]; try apply occurs_cons; apply IH.
Qed.

(** Nor does collapsing or stripping invent one. *)
Lemma collapse_prefix_solid (k s post : string) :
  solid k → PyStr.collapse_ws_from false s = k +:+ post → ∃ r, s = k +:+ r.
Proof.
  revert s. induction k as [|d k IH]; intros s Hk Heq; [by exists s|].
  apply solid_head in Hk as [Hd Hk]. rewrite str_app_cons in Heq.
  destruct s as [|c s]; [done|]. simpl in Heq.
  destruct (PyStr.isspace c) eqn:Hc.
  - injection Heq as <- _. done.
  - injection Heq as -> Heq. destruct (IH s Hk Heq) as [r ->].
    exists r. by rewrite str_app_cons.
Qed.

Lemma occurs_collapse_inv (k s : string) (b : bool) :
  solid k → k ≠ "" → PyStr.occurs k (PyStr.collapse_ws_from b s) → PyStr.occurs k s.
Proof.
  intros Hk Hne. revert b. induction s as [|c s IH]; intros b (pre & post & Heq).
  - simpl in Heq. destruct pre; [|done]. rewrite str_app_nil_l in Heq.
    destruct k; done.
  - simpl in Heq. destruct (PyStr.isspace c) eqn:Hc.
    + apply occurs_cons. destruct b.
      * apply (IH true). by exists pre, post.
      * destruct pre as [|x pre].
        -- rewrite str_app_nil_l in Heq. destruct k as [|d k]; [done|].
           apply solid_head in Hk as [Hd _]. rewrite str_app_cons in Heq.
           injection Heq as <- _. done.
        -- rewrite str_app_cons in Heq. injection Heq as _ Heq.
           apply (IH true). by exists pre, post.
    + destruct pre as [|x pre].
      * rewrite str_app_nil_l in Heq. destruct k as [|d k]; [done|].
        pose proof Hk as Hk'. apply solid_head in Hk' as [_ Hk'].
        rewrite str_app_cons in Heq. injection Heq as -> Heq.
        destruct (collapse_prefix_solid k s post Hk' Heq) as [r ->].
        rewrite <- str_app_cons. apply occurs_prefix.
      * rewrite str_app_cons in Heq. injection Heq as _ Heq.
        apply occurs_cons. apply (IH false). by exists pre, post.
Qed.

Lemma occurs_strip_inv (k s : string) :
  PyStr.occurs k (PyStr.strip s) → PyStr.occurs k s.
Proof.
  intros Ho. destruct (strip_split s) as (a & b & _ & _ & Hs).
  rewrite Hs. by apply occurs_extend.
Qed.

(** A word without whitespace that occurs in two parts joined by a blank
    occurs in one of the parts. *)
Lemma prefix_before_blank (k a b post : string) (c : ascii) :
  solid k → PyStr.isspace c = true →
  a +:+ String c b = k +:+ post → ∃ r, a = k +:+ r.
Proof.
  intros Hk Hc. revert a. induction k as [|d k IH]; intros a Heq; [by exists a|].
  apply solid_head in Hk as [Hd Hk]. rewrite str_app_cons in Heq.
  destruct a as [|y a].
  - rewrite str_app_nil_l in Heq. injection Heq as -> _. congruence.
  - rewrite str_app_cons in Heq. injection Heq as -> Heq.
    destruct (IH Hk a Heq) as [r ->]. exists r. by rewrite str_app_cons.
Qed.

Lemma occurs_app_blank (k a b : string) (c : ascii) :
  solid k → k ≠ "" → PyStr.isspace c = true →
  PyStr.occurs k (a +:+ String c b) → PyStr.occurs k a ∨ PyStr.occurs k b.
Proof.
  intros Hk Hne Hc. induction a as [|x a IH]; intros (pre & post & Heq).
  - rewrite str_app_nil_l in Heq. destruct pre as [|y pre].
    + rewrite str_app_nil_l in Heq. destruct k as [|d k]; [done|].
      apply solid_head in Hk as [Hd _]. rewrite str_app_cons in Heq.
      injection Heq as -> _. congruence.
    + rewrite str_app_cons in Heq. injection Heq as _ ->. right. by exists pre, post.
  - rewrite str_app_cons in Heq. destruct pre as [|y pre].
    + rewrite str_app_nil_l in Heq. destruct k as [|d k]; [done|].
      pose proof Hk as Hk'. apply solid_head in Hk' as [_ Hk'].
      rewrite str_app_cons in Heq. injection Heq as -> Heq.
      destruct (prefix_before_blank k a b post c Hk' Hc Heq) as [r ->].
      left. rewrite <- str_app_cons. apply occurs_prefix.
    + rewrite str_app_cons in Heq. injection Heq as _ Heq.
      destruct IH as [Ho|Ho]; [by exists pre, post| |by right].
      left. by apply occurs_cons.
Qed.

Lemma collapse_map (f : ascii → ascii) (s : string) (b : bool) :
  (∀ c, PyStr.isspace (f c) = PyStr.isspace c) →
  (∀ c, PyStr.isspace c = false → True) →
  f " "%char = " "%char →
  PyStr.map_chars f (PyStr.collapse_ws_from b s)
  = PyStr.collapse_ws_from b (PyStr.map_chars f s).
Proof.
  intros Hf _ Hsp. revert b. induction s as [|c s IH]; intros b; [done|].
  simpl. rewrite Hf. destruct (PyStr.isspace c); [destruct b|]; simpl;
    by rewrite ?Hsp, IH.
Qed.

(** The normalized text of one article, in terms of its lower-cased
    members. *)
Lemma normalized_lower (a : pydict) :
  normalized a
  = PyStr.strip (PyStr.collapse_ws
      (PyStr.lower (get_str a "title") +:+ " "
       +:+ PyStr.lower (get_str a "description") +:+ " "
       +:+ PyStr.lower (get_str a "content"))).
Proof.
  unfold normalized, PyStr.lower, PyStr.collapse_ws.
  rewrite <- strip_map by apply isspace_lower.
  rewrite collapse_map; [|apply isspace_lower|done|done].
  unfold PyStr.join. cbn [String.concat].
  by rewrite !map_chars_app.
Qed.

(** A cue occurs in the normalized text of an article exactly when it occurs
    in the lower-cased title, description or content. *)
Lemma normalized_occurs (a : pydict) (k : string) :
  solid k → k ≠ "" →
  PyStr.occurs k (normalized a) ↔
  ∃ field, field ∈ ["title"; "description"; "content"]
    ∧ PyStr.occurs k (PyStr.lower (get_str a field)).
Proof.
  intros Hk Hne. rewrite normalized_lower.
  set (T := PyStr.lower (get_str a "title")).
  set (D := PyStr.lower (get_str a "description")).
  set (C := PyStr.lower (get_str a "content")).
  split.
  - intros Ho. apply occurs_strip_inv in Ho.
    apply occurs_collapse_inv in Ho; [|done..].
    apply occurs_app_blank in Ho as [Ho|Ho]; [| |done..].
    + exists "title". split; [by repeat constructor|done].
    + apply occurs_app_blank in Ho as [Ho|Ho]; [| |done..].
      * exists "description". split; [by repeat constructor|done].
      * exists "content". split; [by repeat constructor|done].
  - intros (field & Hfield & Ho).
    apply occurs_strip; [done..|]. apply occurs_collapse; [done|].
    repeat (apply elem_of_cons in Hfield as [->|Hfield]);
      [| | |by apply elem_of_nil in Hfield]; fold T D C in Ho.
    + by apply occurs_app_l.
    + apply occurs_app_r, occurs_app_r, occurs_app_l. exact Ho.
    + apply occurs_app_r, occurs_app_r, occurs_app_r, occurs_app_r. exact Ho.
Qed.

Lemma cues_solid : Forall (λ k, solid k ∧ k ≠ "") (POS ++ NEG).
Proof. by repeat constructor. Qed.

Lemma normalized_has_cue (a : pydict) (cues : list string) :
  cues = POS ∨ cues = NEG →
  has_cue cues (normalized a) ↔ cue_in_article cues a.
Proof.
  intros Hcues. unfold cue_in_article.
  assert (Hsolid : ∀ k, k ∈ cues → solid k ∧ k ≠ "").
  { intros k Hin. pose proof cues_solid as Hall.
    rewrite Forall_forall in Hall. apply Hall.
    apply elem_of_app. destruct Hcues as [-> | ->]; [by left|by right]. }
  unfold has_cue. split.
  - intros (k & Hin & Ho). destruct (Hsolid k Hin) as [Hk Hne].
    apply normalized_occurs in Ho as (field & Hfield & Ho); [|done..].
    exists field. split; [done|]. by exists k.
  - intros (field & Hfield & k & Hin & Ho). destruct (Hsolid k Hin) as [Hk Hne].
    exists k. split; [done|]. apply normalized_occurs; [done..|]. by exists field.
Qed.

(** The label of one article, in terms of its cues. *)
Lemma article_cues (a : pydict) :
  let t := normalized a in
  (classify_text t = "mixed" ↔ cue_in_article POS a ∧ cue_in_article NEG a)
  ∧ (classify_text t = "positive" ↔ cue_in_article POS a ∧ ¬ cue_in_article NEG a)
  ∧ (classify_text t = "negative" ↔ ¬ cue_in_article POS a ∧ cue_in_article NEG a)
  ∧ (classify_text t = "neutral" ↔ ¬ cue_in_article POS a ∧ ¬ cue_in_article NEG a).
Proof.
  intros t.
  pose proof (normalized_has_cue a POS (or_introl eq_refl)) as Hpos.
  pose proof (normalized_has_cue a NEG (or_intror eq_refl)) as Hneg.
  destruct (classify_text_label_iff t) as (Hm & Hp & Hn & Hz).
  fold t in Hpos, Hneg. rewrite <- Hpos, <- Hneg. by split_and!.
Qed.

(** Whether an article has a cue is decidable. *)
Lemma classic_cue (cues : list string) (a : pydict) :
  cues = POS ∨ cues = NEG → cue_in_article cues a ∨ ¬ cue_in_article cues a.
Proof.
  intros Hcues. rewrite <- (normalized_has_cue a cues Hcues).
  rewrite <- any_contains_false, <- any_contains.
  destruct (PyStr.any _ cues); auto.
Qed.

(** X19.  The label of an article that is an object, through [_preprocess]
    and [_classify]: it is decided by the cues that occur in the lower-cased
    title, description and content.  So matching does not depend on the case
    of the article, the normalization of whitespace neither hides a cue nor
    makes one, and no cue is found across the border of two members. *)
Theorem article_label_by_cues (a : pydict) :
  ∃ t l,
    _preprocess (pylist [a]) = Returns [t]
    ∧ _classify [t] = [l]
    ∧ (l = "mixed" ↔ cue_in_article POS a ∧ cue_in_article NEG a)
    ∧ (l = "positive" ↔ cue_in_article POS a ∧ ¬ cue_in_article NEG a)
    ∧ (l = "negative" ↔ ¬ cue_in_article POS a ∧ cue_in_article NEG a)
    ∧ (l = "neutral" ↔ ¬ cue_in_article POS a ∧ ¬ cue_in_article NEG a).
Proof.
  exists (normalized a), (classify_text (normalized a)).
  split; [by rewrite preprocess_pylist|]. split; [done|]. apply article_cues.
Qed.

End Cues.

(** * The stub articles (news.py) *)

Section StubArticles.
Import News.
Context (E : Env).

(** A cue in two parts joined by a blank is in one of the parts. *)
Lemma has_cue_blank (cues : list string) (p t : string) :
  Forall (λ k, solid k ∧ k ≠ "") cues →
  has_cue cues (p +:+ " " +:+ t) ↔ has_cue cues p ∨ has_cue cues t.
Proof.
  intros Hcues. rewrite Forall_forall in Hcues. unfold has_cue. split.
  - intros (k & Hin & Ho). destruct (Hcues k Hin) as [Hk Hne].
    apply occurs_app_blank in Ho as [Ho|Ho]; [left|right|done..]; by exists k.
  - intros [(k & Hin & Ho)|(k & Hin & Ho)]; exists k; (split; [done|]).
    + by apply occurs_app_l.
    + by apply occurs_app_r, occurs_app_r.
Qed.

Lemma pos_solid : Forall (λ k, solid k ∧ k ≠ "") POS.
Proof. by repeat constructor. Qed.

Lemma neg_solid : Forall (λ k, solid k ∧ k ≠ "") NEG.
Proof. by repeat constructor. Qed.

(** The cues of a fixed text, by evaluation. *)
Lemma has_cue_eval (cues : list string) (t : string) (b : bool) :
  PyStr.any (λ k, PyStr.contains k t) cues = b →
  if b then has_cue cues t else ¬ has_cue cues t.
Proof. intros <-. destruct (PyStr.any _ _) eqn:H; [by apply any_contains|by apply any_contains_false]. Qed.

(** The cues of the first stub article. *)
Lemma growth_story_cues (ticker stamp : string) :
  let a : pydict :=
    <["title" := VStr ("[Stub] Growth story for " +:+ ticker)]>
    (<["description" := VStr (ticker +:+ " gains as services growth improves")]>
    (<["content" := VStr "..."]>
    (<["publishedAt" := VStr stamp]> ∅))) in
  cue_in_article POS a
  ∧ (cue_in_article NEG a ↔ has_cue NEG (PyStr.lower ticker)).
Proof.
  intros a.
  assert (Htitle : PyStr.lower (get_str a "title")
                   = "[stub] growth story for" +:+ " " +:+ PyStr.lower ticker).
  { unfold get_str, a. rewrite lookup_insert. simpl.
    unfold PyStr.lower. by rewrite map_chars_app. }
  assert (Hdesc : PyStr.lower (get_str a "description")
                  = PyStr.lower ticker +:+ " " +:+ "gains as services growth improves").
  { unfold get_str, a. rewrite lookup_insert_ne, lookup_insert by done. simpl.
    unfold PyStr.lower. by rewrite map_chars_app. }
  assert (Hcontent : PyStr.lower (get_str a "content") = "...").
  { unfold get_str, a. by rewrite !lookup_insert_ne, lookup_insert by done. }
  split.
  - exists "title". split; [by repeat constructor|]. rewrite Htitle.
    apply has_cue_blank; [apply pos_solid|]. left.
    by apply (has_cue_eval POS _ true).
  - split.
    + intros (field & Hfield & Hcue).
      repeat (apply elem_of_cons in Hfield as [->|Hfield]);
        [| | |by apply elem_of_nil in Hfield].
      * rewrite Htitle in Hcue. apply has_cue_blank in Hcue as [Hcue|Hcue];
          [|done|apply neg_solid].
        by apply (has_cue_eval NEG _ false) in Hcue.
      * rewrite Hdesc in Hcue. apply has_cue_blank in Hcue as [Hcue|Hcue];
          [done| |apply neg_solid].
        by apply (has_cue_eval NEG _ false) in Hcue.
      * rewrite Hcontent in Hcue. by apply (has_cue_eval NEG _ false) in Hcue.
    + intros Hcue. exists "title". split; [by repeat constructor|]. rewrite Htitle.
      apply has_cue_blank; [apply neg_solid|]. by right.
Qed.

(** The cues of the second stub article. *)
Lemma miss_story_cues (ticker stamp : string) :
  let a : pydict :=
    <["title" := VStr ("[Stub] Miss story for " +:+ ticker)]>
    (<["description" := VStr (ticker +:+ " faces supply chain miss and margin pressure")]>
    (<["content" := VStr "..."]>
    (<["publishedAt" := VStr stamp]> ∅))) in
  cue_in_article NEG a
  ∧ (cue_in_article POS a ↔ has_cue POS (PyStr.lower ticker)).
Proof.
  intros a.
  assert (Htitle : PyStr.lower (get_str a "title")
                   = "[stub] miss story for" +:+ " " +:+ PyStr.lower ticker).
  { unfold get_str, a. rewrite lookup_insert. simpl.
    unfold PyStr.lower. by rewrite map_chars_app. }
  assert (Hdesc : PyStr.lower (get_str a "description")
                  = PyStr.lower ticker +:+ " "
                    +:+ "faces supply chain miss and margin pressure").
  { unfold get_str, a. rewrite lookup_insert_ne, lookup_insert by done. simpl.
    unfold PyStr.lower. by rewrite map_chars_app. }
  assert (Hcontent : PyStr.lower (get_str a "content") = "...").
  { unfold get_str, a. by rewrite !lookup_insert_ne, lookup_insert by done. }
  split.
  - exists "title". split; [by repeat constructor|]. rewrite Htitle.
    apply has_cue_blank; [apply neg_solid|]. left.
    by apply (has_cue_eval NEG _ true).
  - split.
    + intros (field & Hfield & Hcue).
      repeat (apply elem_of_cons in Hfield as [->|Hfield]);
        [| | |by apply elem_of_nil in Hfield].
      * rewrite Htitle in Hcue. apply has_cue_blank in Hcue as [Hcue|Hcue];
          [|done|apply pos_solid].
        by apply (has_cue_eval POS _ false) in Hcue.
      * rewrite Hdesc in Hcue. apply has_cue_blank in Hcue as [Hcue|Hcue];
          [done| |apply pos_solid].
        by apply (has_cue_eval POS _ false) in Hcue.
      * rewrite Hcontent in Hcue. by apply (has_cue_eval POS _ false) in Hcue.
    + intros Hcue. exists "title". split; [by repeat constructor|]. rewrite Htitle.
      apply has_cue_blank; [apply pos_solid|]. by right.
Qed.

(** X20.  Without a session, [run_chain] labels its two stub articles for
    any ticker: the result is flagged as stub, the first sample is positive
    and the second negative, unless the ticker itself, in lower case,
    contains a cue of the other kind, which makes that sample mixed; no
    article is counted as neutral. *)
Theorem stub_articles_labels (self : NewsAdapter) (ticker : string) (wd : Z) (w : World) :
  session self = None →
  ∃ r w' l1 l2,
    run_chain E self ticker wd w = (Returns r, w')
    ∧ is_stub r = true
    ∧ map sentiment (samples r) = [l1; l2]
    ∧ (l1 = "positive" ∨ l1 = "mixed")
    ∧ (l2 = "negative" ∨ l2 = "mixed")
    ∧ (l1 = "mixed" ↔ has_cue NEG (PyStr.lower ticker))
    ∧ (l2 = "mixed" ↔ has_cue POS (PyStr.lower ticker))
    ∧ result_counts r !! "neutral" = Some 0.
Proof.
  intros Hsess.
  pose proof (ingest_cases E self ticker wd w) as Hi. rewrite Hsess in Hi.
  unfold _get_stub_data in Hi. py_step.
  match type of Hi with
  | _ = (Returns (pylist [?x; ?y]), _) => set (a1 := x) in *; set (a2 := y) in *
  end.
  assert (H1 : cue_in_article POS a1
               ∧ (cue_in_article NEG a1 ↔ has_cue NEG (PyStr.lower ticker)))
    by exact (growth_story_cues ticker _).
  assert (H2 : cue_in_article NEG a2
               ∧ (cue_in_article POS a2 ↔ has_cue POS (PyStr.lower ticker)))
    by exact (miss_story_cues ticker _).
  destruct H1 as [Hpos1 Hneg1]. destruct H2 as [Hneg2 Hpos2].
  clearbody a1 a2.
  destruct (article_cues a1) as (Hm1 & Hp1 & Hn1 & Hz1).
  destruct (article_cues a2) as (Hm2 & Hp2 & Hn2 & Hz2).
  set (t1 := normalized a1) in *. set (t2 := normalized a2) in *.
  pose proof (classic_cue NEG a1 (or_intror eq_refl)) as Hc1.
  pose proof (classic_cue POS a2 (or_introl eq_refl)) as Hc2.
  assert (Hl1 : (classify_text t1 = "positive" ∨ classify_text t1 = "mixed")
                ∧ (classify_text t1 = "mixed" ↔ has_cue NEG (PyStr.lower ticker)))
    by (clear -Hm1 Hp1 Hpos1 Hneg1 Hc1; tauto).
  assert (Hl2 : (classify_text t2 = "negative" ∨ classify_text t2 = "mixed")
                ∧ (classify_text t2 = "mixed" ↔ has_cue POS (PyStr.lower ticker)))
    by (clear -Hm2 Hn2 Hpos2 Hneg2 Hc2; tauto).
  clear Hpos1 Hneg1 Hneg2 Hpos2 Hm1 Hp1 Hn1 Hz1 Hm2 Hp2 Hn2 Hz2 Hc1 Hc2.
  pose proof (preprocess_pylist [a1; a2]) as Hpre.
  change (map normalized [a1; a2]) with [t1; t2] in Hpre. clearbody t1 t2.
  set (texts := [t1; t2]) in *.
  assert (Htexts : texts = [t1; t2]) by done.
  pose proof (snippets_are_first texts 2) as Hs.
  pose proof (samples_are_first texts 3) as Hsa.
  clearbody texts.
  unfold run_chain. py_step. rewrite Hi, Hpre. cbn.
  unfold _summarize. py_step. rewrite Hs. cbn. rewrite Hsa. cbn. subst texts.
  eexists _, _, (classify_text t1), (classify_text t2).
  rewrite Hsess. split; [reflexivity|]. cbn.
  split_and!; try done; try apply Hl1; try apply Hl2.
  simplify_map_eq. f_equal. apply count_absent.
  destruct Hl1 as [[-> | ->] _], Hl2 as [[-> | ->] _];
    intros Hin; repeat (apply elem_of_cons in Hin as [Hin|Hin]; [done|]);
    by apply elem_of_nil in Hin.
Qed.

End StubArticles.

(** Offline, for the ticker AAPL. *)
Lemma stub_articles_labels_witness :
  ∃ r,
    fst (News.run_chain Scenario.offline Scenario.news_without_key "AAPL" 7 Scenario.w0)
    = Returns r
    ∧ News.is_stub r = true
    ∧ News.result_counts r !! "neutral" = Some 0.
Proof.
  destruct (stub_articles_labels Scenario.offline Scenario.news_without_key "AAPL" 7
              Scenario.w0 eq_refl)
    as (r & w' & l1 & l2 & Hrun & Hstub & _ & _ & _ & _ & _ & Hzero).
  exists r. by rewrite Hrun.
Defined.

(** * Amounts of money (news.py) *)

Section Money.
Import News.







End Money.


(** * Normalized article text (news.py) *)

Section NormalForm.
Import News.


Lemma plain_lower (c : ascii) : plain (PyStr.lower_char c) = plain c.
Proof. by destruct c as [[] [] [] [] [] [] [] []]. Qed.





End NormalForm.

(** * Tables as yfinance shapes them (yahoo.py) *)

Section YfinanceShape.
Import Base Yahoo.
Context (E : Env).

Lemma update_at_absent (c : string) (f : Cell → Cell) (cols : list string) (r : list Cell) :
  c ∉ cols → update_at c f cols r = r.
Proof.
  revert r. induction cols as [|c' cols IH]; intros [|x r] Hc; simpl; try done.
  apply not_elem_of_cons in Hc as [Hne Hc].
  case_decide; [congruence|]. by rewrite IH.
Qed.

Lemma cells_at_absent (c : string) (cols : list string) (r : list Cell) :
  c ∉ cols → cells_at c cols r = [].
Proof.
  revert r. induction cols as [|c' cols IH]; intros [|x r] Hc; simpl; try done.
  apply not_elem_of_cons in Hc as [Hne Hc].
  case_decide; [congruence|]. by apply IH.
Qed.

Lemma rename_columns_absent (m : list (string * string)) (cols : list string) :
  Forall (λ kv, fst kv ∉ cols) m → rename_columns m cols = cols.
Proof.
  intros Hm. unfold rename_columns. rewrite <- (map_id cols) at 2.
  apply map_ext_in. intros c Hc. apply list_elem_of_In in Hc.
  destruct (list_find _ m) as [[i kv]|] eqn:Hfind; [|done].
  apply list_find_Some in Hfind as (Hi & Hkv & _). exfalso.
  rewrite Forall_forall in Hm. apply (Hm kv); [by eapply list_elem_of_lookup_2|].
  by rewrite Hkv.
Qed.

Lemma filter_label_absent (c : string) (cols : list string) :
  c ∉ cols → filter (λ x, x = c) cols = [].
Proof.
  induction cols as [|c' cols IH]; intros Hc; [done|].
  apply not_elem_of_cons in Hc as [Hne Hc].
  rewrite filter_cons_False by congruence. by apply IH.
Qed.

(** The labels after renaming, for an index named Date or Datetime. *)
Lemma yfinance_labels (n : string) (cols : list string) :
  n = "Date" ∨ n = "Datetime" →
  Forall (λ c, c ∉ date_labels) cols → "Close" ∈ cols →
  rename_columns
    (rename_entries "Date" ["Datetime"; "date"; "datetime"; "index"] (n :: cols)
     ++ rename_entries "Close" ["Adj Close"; "adj_close"; "close"] (n :: cols))
    (n :: cols)
  = "Date" :: cols.
Proof.
  intros Hn Hcols Hclose. rewrite Forall_forall in Hcols.
  assert (Habsent : ∀ c, c ∈ date_labels → c ∉ cols).
  { intros c Hc Hin. by apply (Hcols c Hin). }
  assert (Hc : rename_entries "Close" ["Adj Close"; "adj_close"; "close"] (n :: cols) = []).
  { unfold rename_entries. rewrite bool_decide_eq_true_2; [done|]. by right. }
  rewrite Hc, app_nil_r. destruct Hn as [-> | ->].
  - unfold rename_entries. rewrite bool_decide_eq_true_2 by left.
    by rewrite rename_columns_absent.
  - unfold rename_entries. rewrite bool_decide_eq_false_2.
    2:{ intros [?|Hin]%elem_of_cons; [done|].
        apply (Habsent "Date"); [by repeat constructor|done]. }
    rewrite filter_cons_True by left.
    rewrite !filter_cons_False, filter_nil.
    2-4: intros [?|Hin]%elem_of_cons; [done|];
         refine (Habsent _ _ Hin); by repeat constructor.
    unfold rename_columns. cbn [map].
    f_equal. apply (rename_columns_absent [("Datetime", "Date")]).
    repeat constructor. simpl. apply Habsent. by repeat constructor.
Qed.

(** X23.  [_normalize_dataframe] on a table shaped as yfinance shapes a price
    history (the index is named Date or Datetime, no column has a date
    label, there is a Close column): it never raises; the result has the
    column Date in front of the columns of the input, which keep their
    labels; and its rows are exactly the rows of the input whose index is
    (or can be read as) a timestamp and whose close is not null, each with
    its timestamp in front and numbered by its position in the input. *)
Theorem normalize_dataframe_yfinance (df : Frame) (ticker n : string) :
  index_name df = Some n →
  n = "Date" ∨ n = "Datetime" →
  Forall (λ c, c ∉ date_labels) (columns df) →
  "Close" ∈ columns df →
  ∃ df',
    _normalize_dataframe E df ticker = Returns df'
    ∧ columns df' = "Date" :: columns df
    ∧ ∀ row,
        row ∈ rows df' ↔
        ∃ i ix r t,
          rows df !! i = Some (ix, r)
          ∧ to_datetime_coerce E ix = CDate t
          ∧ Forall (λ x, isnull x = false) (cells_at "Close" (columns df) r)
          ∧ row = (CInt (Z.of_nat i), CDate t :: r).
Proof.
  intros Hix Hn Hcols Hclose.
  assert (Habsent : ∀ c, c ∈ date_labels → c ∉ columns df).
  { intros c Hc Hin. rewrite Forall_forall in Hcols. by apply (Hcols c Hin). }
  assert (Hn' : n ∈ date_labels).
  { destruct Hn as [-> | ->]; by repeat constructor. }
  unfold _normalize_dataframe, reset_index. rewrite Hix.
  rewrite bool_decide_eq_false_2 by by apply Habsent.
  cbn [mbind outcome_bind columns index_name rows attrs].
  rewrite (yfinance_labels n (columns df) Hn Hcols Hclose).
  rewrite bool_decide_eq_true_2 by left.
  rewrite bool_decide_eq_true_2.
  2:{ rewrite filter_cons_True by done.
      rewrite filter_label_absent; [done|].
      apply Habsent. by repeat constructor. }
  cbn [mbind outcome_bind mret outcome_ret columns index_name rows attrs sort_by_date dropna].
  rewrite bool_decide_eq_true_2 by by right.
  eexists. split; [reflexivity|]. cbn [columns rows dropna]. split; [done|].
  assert (Hdate : "Date" ∉ columns df) by (apply Habsent; by repeat constructor).
  assert (Hclose' : "Close" ≠ "Date") by done.
  intros row. unfold sort_by_date, dropna. cbn [columns rows].
  rewrite list_elem_of_filter, merge_sort_Permutation, list_elem_of_filter.
  rewrite list_elem_of_fmap. split.
  - intros (Hc & Hd & [j cells] & -> & Hin).
    apply elem_of_lookup_imap in Hin as (i & [ix r] & [= -> ->] & Hi).
    cbn [snd update_at cells_at] in Hc, Hd |- *.
    repeat (case_decide; try done).
    rewrite update_at_absent in Hc, Hd |- * by done.
    rewrite cells_at_absent in Hd by done. cbn in Hd.
    destruct (coerce_not_null E ix) as [t Ht];
      [by destruct (isnull (to_datetime_coerce E ix))|].
    exists i, ix, r, t. split_and!; try done; [|by rewrite Ht].
    apply Forall_forall. intros x Hx. rewrite forallb_forall in Hc.
    apply list_elem_of_In in Hx. specialize (Hc x Hx). by destruct (isnull x).
  - intros (i & ix & r & t & Hi & Ht & Hc & ->).
    assert (Hrow : (CInt (Z.of_nat i), CDate t :: r)
                   = (λ '(ix0, r0), (ix0, update_at "Date" (to_datetime_coerce E)
                                            ("Date" :: columns df) r0))
                       (CInt (Z.of_nat i), ix :: r)).
    { cbn [update_at]. case_decide; [|done]. by rewrite Ht, update_at_absent. }
    split_and!.
    + cbn [snd cells_at]. case_decide; [done|].
      apply forallb_forall. intros x Hx. apply list_elem_of_In in Hx.
      rewrite Forall_forall in Hc. by rewrite (Hc x Hx).
    + cbn [snd cells_at]. case_decide; [|done].
      by rewrite cells_at_absent.
    + exists (CInt (Z.of_nat i), ix :: r). split; [exact Hrow|].
      apply elem_of_lookup_imap. by exists i, (ix, r).
Qed.

End YfinanceShape.

(** Three days as yfinance returns them. *)
Lemma normalize_dataframe_yfinance_witness :
  ∃ df',
    Yahoo._normalize_dataframe Scenario.offline Cases.unsorted_days "AAPL" = Returns df'
    ∧ columns df' = ["Date"; "Open"; "Close"].
Proof.
  destruct (normalize_dataframe_yfinance Scenario.offline Cases.unsorted_days "AAPL" "Date")
    as (df' & Hrun & Hcols & _);
    [reflexivity|by left| |by repeat constructor|by exists df'].
  repeat (constructor; [compute_done|]). constructor.
Defined.

(** * What [_preprocess] accepts (news.py) *)

Section Accepts.
Import News.

Lemma preprocess_first_bad (pre : list pydict) (k : Kind) (post : list Item) :
  mapM (λ a, a ← item_dict a; mret (normalized a)) (map IDict pre ++ IOther k :: post)
  = Raises (no_get k).
Proof. induction pre as [|a pre IH]; [done|]. simpl. by rewrite IH. Qed.

(** X24.  [_preprocess] on any value that a reply may hold as its articles:
    a list of objects gives one text for each object, in their order; a
    list with an element that is not an object raises the
    [AttributeError] of the first such element, after the objects before
    it; a string or an object raises the [AttributeError] of a string,
    unless it is empty, which gives no texts; and [null], a boolean or a
    number raises [TypeError]. *)
Theorem preprocess_outcome :
  (∀ l, _preprocess (pylist l) = Returns (map normalized l))
  ∧ (∀ pre k post,
       _preprocess (MItems (map IDict pre ++ IOther k :: post)) = Raises (no_get k))
  ∧ (∀ s, _preprocess (MString s)
          = if decide (s = "") then Returns [] else Raises (no_get KStr))
  ∧ (∀ keys, _preprocess (MObject keys)
             = if decide (keys = []) then Returns [] else Raises (no_get KStr))
  ∧ (∀ m, m = MNull ∨ (∃ b, m = MBool b) ∨ (∃ n, m = MInt n) ∨ (∃ x, m = MFloat x) →
          ∃ e, _preprocess m = Raises e ∧ exn_type e = "TypeError"
               ∧ member_len m = Raises {| exn_type := "TypeError";
                                          exn_msg := "object of type '" +:+ member_type m
                                                     +:+ "' has no len()" |}).
Proof.
  split_and!.
  - apply preprocess_pylist.
  - intros pre k post. unfold _preprocess. simpl. apply preprocess_first_bad.
  - intros [|c s]; [done|]. unfold _preprocess. by case_decide.
  - intros [|key keys]; [done|]. unfold _preprocess. by case_decide.
  - intros m [->|[[b ->]|[[n ->]|[x ->]]]]; by eexists.
Qed.

End Accepts.
